(** * Image-quality and readability scoring of the OCR demo

    A shallow embedding of the two scoring classes of the application,
    [DocumentBlurDetector] (the blur-check route) and
    [DocumentReadabilityChecker] (the readability route), followed by the
    properties established about them.

    Modelling conventions.
    - A JavaScript [number] is a real number or [NaN]; rounding of IEEE
      doubles and the two infinities are not represented.  Every division
      of the modelled code has a divisor that is either a non-zero literal
      or the length of an array (a loop counter) whose dividend is then the
      empty sum [0], so the only non-finite value that these functions can
      create from finite inputs is [0/0 = NaN].  An equation between a
      returned number and a formula therefore gives the value up to the
      rounding of the doubles; what the code decides by comparing numbers
      ([isBlurry], [isReadable], the suggestions) is stated on the numbers
      it returns, and bounds are stated where rounding cannot reach them.
    - A text whose characters the code looks at (the recognised text, which
      is split at white space) is the list of its UTF-16 code units; the
      messages and labels that the code only builds, compares with the empty
      string and passes on are [string]s.
    - Integer-valued program variables (pixel intensities, indices, image
      dimensions, counters) are in [Z].
    - A [Uint8Array] is a [list Z]; reading outside of it gives [undefined],
      which arithmetic turns into [NaN].
    - A call that may throw returns an [outcome]; the external collaborators
      (image decoding by sharp, recognition by tesseract) are inputs. *)

From Stdlib Require Import Reals Lra Lia Psatz ZArith NArith List String Ascii Bool.
From Stdlib Require Import DecimalString.
Import ListNotations.


(* ================================================================= *)
(** ** JavaScript numbers *)

Module JS.

Inductive number : Type :=
| NaN
| Num (r : R).

Definition lift1 (f : R -> R) (a : number) : number :=
  match a with
  | Num x => Num (f x)
  | NaN => NaN
  end.

Definition lift2 (f : R -> R -> R) (a b : number) : number :=
  match a, b with
  | Num x, Num y => Num (f x y)
  | _, _ => NaN
  end.

Definition add : number -> number -> number := lift2 Rplus.
Definition sub : number -> number -> number := lift2 Rminus.
Definition mul : number -> number -> number := lift2 Rmult.

(** [a / b]; a zero divisor gives [NaN] (the dividend is [0] wherever the
    program can divide by zero, see [zero_divisor_sites] below). *)
Definition div (a b : number) : number :=
  match a, b with
  | Num x, Num y => if Req_dec_T y 0 then NaN else Num (x / y)
  | _, _ => NaN
  end.

(** [Math.pow(a, 2)], [Math.abs], [Math.min], [Math.max], [Math.sqrt]. *)
Definition pow2 : number -> number := lift1 (fun x => x ^ 2)%R.
Definition abs : number -> number := lift1 Rabs.
Definition min : number -> number -> number := lift2 Rmin.
Definition max : number -> number -> number := lift2 Rmax.
Definition sqrt (a : number) : number :=
  match a with
  | Num x => if Rlt_dec x 0 then NaN else Num (R_sqrt.sqrt x)
  | NaN => NaN
  end.

(** Comparisons: any comparison with [NaN] is false. *)
Definition ltb (a b : number) : bool :=
  match a, b with
  | Num x, Num y => if Rlt_dec x y then true else false
  | _, _ => false
  end.
Definition gtb (a b : number) : bool := ltb b a.
Definition geb (a b : number) : bool :=
  match a, b with
  | Num x, Num y => if Rle_dec y x then true else false
  | _, _ => false
  end.

(** Truthiness of a number, as [||] tests it: [0] and [NaN] are falsy. *)
Definition truthy (a : number) : bool :=
  match a with
  | Num x => if Req_dec_T x 0 then false else true
  | NaN => false
  end.

Definition of_Z (z : Z) : number := Num (IZR z).

(** [options.field || dflt] for an optional numeric field. *)
Definition or_default (field : option number) (dflt : number) : number :=
  match field with
  | Some v => if truthy v then v else dflt
  | None => dflt
  end.

(** [`${z}`] for an integer. *)
Definition show (z : Z) : string := NilZero.string_of_int (Z.to_int z).

(** [for (let i = lo; i < hi; i++)] visits [range lo hi] in order. *)
Definition range (lo hi : Z) : list Z :=
  map (fun i => (lo + Z.of_nat i)%Z) (seq 0 (Z.to_nat (hi - lo))).

(** *** Typed arrays *)

Definition Uint8Array : Type := list Z.

(** The element type keeps every entry within [0, 255]. *)
Definition is_uint8 (v : Z) : Prop := (0 <= v <= 255)%Z.
Definition well_formed (a : Uint8Array) : Prop := Forall is_uint8 a.

(** [a[idx]] used as an operand: [undefined] outside of the array. *)
Definition get (a : Uint8Array) (idx : Z) : number :=
  if (idx <? 0)%Z then NaN
  else match nth_error a (Z.to_nat idx) with
       | Some v => of_Z v
       | None => NaN
       end.

Definition length (a : Uint8Array) : number := of_Z (Z.of_nat (List.length a)).

(** [a.reduce((sum, value) => f(sum, value), init)] *)
Definition reduce (f : number -> Z -> number) (init : number) (a : Uint8Array)
  : number :=
  fold_left f a init.

(** *** Calls that may throw *)

Inductive outcome (A : Type) : Type :=
| Threw (message : string)
| Returned (a : A).
Arguments Threw {A} message.
Arguments Returned {A} a.

Definition bind {A B : Type} (o : outcome A) (k : A -> outcome B) : outcome B :=
  match o with
  | Threw m => Threw m
  | Returned a => k a
  end.

(** [try { body } catch (error) { throw new Error(prefix + error.message) }] *)
Definition rethrow {A : Type} (prefix : string) (body : outcome A) : outcome A :=
  match body with
  | Threw m => Threw (prefix ++ m)
  | Returned a => Returned a
  end.

(** *** Texts: [s.split(/\s+/)]

    A text whose characters the program looks at is the list of its UTF-16
    code units, which is what a pattern without the [u] flag matches
    against; [lit] gives the code units of an ASCII literal. *)

Definition utf16 : Type := list N.

Definition lit (s : string) : utf16 := map N_of_ascii (list_ascii_of_string s).

(** The code units that [\s] matches, the white space and the line
    terminators of ECMAScript: U+0009 to U+000D, U+0020, U+00A0, U+1680,
    U+2000 to U+200A, U+2028, U+2029, U+202F, U+205F, U+3000 and U+FEFF. *)
Definition is_space (c : N) : bool :=
  ((0x9 <=? c) && (c <=? 0xD) || (c =? 0x20) || (c =? 0xA0) || (c =? 0x1680)
   || (0x2000 <=? c) && (c <=? 0x200A) || (c =? 0x2028) || (c =? 0x2029)
   || (c =? 0x202F) || (c =? 0x205F) || (c =? 0x3000) || (c =? 0xFEFF))%N.

Fixpoint split_go (s piece : utf16) (in_separator : bool) : list utf16 :=
  match s with
  | [] => [piece]
  | c :: rest =>
      if is_space c then
        if in_separator then split_go rest piece true
        else piece :: split_go rest [] true
      else split_go rest (piece ++ [c]) false
  end.

Definition split_whitespace (s : utf16) : list utf16 :=
  split_go s [] false.

End JS.

Declare Scope js_scope.
Delimit Scope js_scope with js.
Bind Scope js_scope with JS.number.
Infix "+" := JS.add : js_scope.
Infix "-" := JS.sub : js_scope.
Infix "*" := JS.mul : js_scope.
Infix "/" := JS.div : js_scope.
Infix "<?" := JS.ltb : js_scope.
Infix ">?" := JS.gtb : js_scope.
Infix ">=?" := JS.geb : js_scope.
Notation "x <- o ;; k" := (JS.bind o (fun x => k))
  (at level 61, o at next level, right associativity).

Import JS.

Open Scope R_scope.

(* ================================================================= *)
(** ** What the image library hands back *)

(** [await image.metadata()]: every field may be [undefined]. *)
Module Metadata.
Record t : Type := {
  width : option Z;
  height : option Z;
  format : option string;
  size : option Z
}.
End Metadata.

(** [{ width: number; height: number }] *)
Module Size.
Record t : Type := {
  width : Z;
  height : Z
}.
End Size.

(** [await image.grayscale().raw().toBuffer({ resolveWithObject: true })]:
    the grayscale intensities and the [info] of the decoded image. *)
Module Raw.
Record t : Type := {
  data : Uint8Array;
  width : Z;
  height : Z
}.
End Raw.

(* ================================================================= *)
(** ** The blur-check route: [DocumentBlurDetector] *)

Module DocumentBlurDetector.

Record BlurDetectorOptions : Type := {
  opt_blurThreshold : option number;
  opt_minDocumentSize : option Size.t
}.

Record t : Type := {
  blurThreshold : number;
  minDocumentSize : Size.t
}.

Definition constructor (options : BlurDetectorOptions) : t :=
  {| blurThreshold := or_default (opt_blurThreshold options) (Num 0.15);
     minDocumentSize :=
       match opt_minDocumentSize options with
       | Some s => s
       | None => {| Size.width := 800; Size.height := 500 |}
       end |}.

Definition calculateVariance (data : Uint8Array) : number :=
  let mean := (reduce (fun sum value => sum + of_Z value) (Num 0) data
               / JS.length data)%js in
  let squareDiffs := map (fun value => pow2 (of_Z value - mean)%js) data in
  let avgSquareDiff :=
    (fold_left (fun sum value => sum + value) squareDiffs (Num 0)
     / of_Z (Z.of_nat (List.length squareDiffs)))%js in
  avgSquareDiff.

Record Quality : Type := {
  brightness : number;
  contrast : number;
  width : option Z;
  height : option Z;
  format : option string;
  size : option Z
}.

Record BlurResult : Type := {
  isBlurry : bool;
  blurScore : number;
  quality : Quality;
  threshold : number;
  recommendation : string
}.

(** [!d] for a dimension of the metadata. *)
Definition missing (d : option Z) : bool :=
  match d with
  | Some v => (v =? 0)%Z
  | None => true
  end.

(** [d < m] for a dimension of the metadata ([undefined < m] is false). *)
Definition below (d : option Z) (m : Z) : bool :=
  match d with
  | Some v => (v <? m)%Z
  | None => false
  end.

Definition resolution_message (m : Size.t) : string :=
  ("Image resolution too low. Minimum required: "
     ++ show (Size.width m) ++ "x" ++ show (Size.height m))%string.

(** [detectBlur]; [metadata] and [raw] are what the two awaited calls of
    the image library give for the uploaded buffer. *)
Definition detectBlur (this : t) (metadata : outcome Metadata.t)
    (raw : outcome Raw.t) : outcome BlurResult :=
  rethrow "Error analyzing image: " (
    metadata <- metadata ;;
    if missing (Metadata.width metadata) || missing (Metadata.height metadata)
       || below (Metadata.width metadata) (Size.width (minDocumentSize this))
       || below (Metadata.height metadata) (Size.height (minDocumentSize this))
    then Threw (resolution_message (minDocumentSize this))
    else
      raw <- raw ;;
      let pixelArray := Raw.data raw in
      let variance := calculateVariance pixelArray in
      let normalizedVariance := (variance / (Num 255 * Num 255))%js in
      let brightness :=
        (reduce (fun sum value => sum + of_Z value) (Num 0) pixelArray
         / JS.length pixelArray)%js in
      let contrast :=
        JS.sqrt
          (reduce (fun sum value => sum + pow2 (of_Z value - brightness))
                  (Num 0) pixelArray
           / JS.length pixelArray)%js in
      let isBlurry := (normalizedVariance <? blurThreshold this)%js in
      Returned
        {| isBlurry := isBlurry;
           blurScore := normalizedVariance;
           quality :=
             {| brightness := (brightness / Num 255)%js;
                contrast := (contrast / Num 255)%js;
                width := Metadata.width metadata;
                height := Metadata.height metadata;
                format := Metadata.format metadata;
                size := Metadata.size metadata |};
           threshold := blurThreshold this;
           recommendation :=
             if isBlurry
             then "Image is too blurry, please provide a clearer image"
             else "Image quality is acceptable" |}).

(** The detector that the route's [POST] handler builds. *)
Definition route_detector : t :=
  constructor
    {| opt_blurThreshold := Some (Num 0.15);
       opt_minDocumentSize := Some {| Size.width := 400; Size.height := 400 |} |}.

End DocumentBlurDetector.

(* ================================================================= *)
(** ** The readability route: [DocumentReadabilityChecker] *)

Module DocumentReadabilityChecker.

Record Options : Type := {
  opt_blurThreshold : option number;
  opt_minConfidence : option number;
  opt_minTextLength : option number
}.

Record t : Type := {
  blurThreshold : number;
  minConfidence : number;
  minTextLength : number
}.

Definition constructor (options : Options) : t :=
  {| blurThreshold := or_default (opt_blurThreshold options) (Num 0.15);
     minConfidence := or_default (opt_minConfidence options) (Num 60);
     minTextLength := or_default (opt_minTextLength options) (Num 10) |}.

(** *** [calculateBlurScore] *)

(** The loop variables [laplacianSum] and [count]. *)
Definition accumulator : Type := (number * Z)%type.

(** The body of the inner loop, at column [x] of row [y]. *)
Definition laplacian_body (pixels : Uint8Array) (width y : Z)
    (acc : accumulator) (x : Z) : accumulator :=
  let '(laplacianSum, count) := acc in
  let idx := (y * width + x)%Z in
  let val := (get pixels idx * Num 4
              - get pixels (idx - 1)
              - get pixels (idx + 1)
              - get pixels (idx - width)
              - get pixels (idx + width))%js in
  ((laplacianSum + JS.abs val)%js, (count + 1)%Z).

(** [for (let x = 1; x < width - 1; x++) { ... }] *)
Definition laplacian_row (pixels : Uint8Array) (width : Z)
    (acc : accumulator) (y : Z) : accumulator :=
  fold_left (laplacian_body pixels width y) (range 1 (width - 1)) acc.

(** [for (let y = 1; y < height - 1; y++) { ... }] *)
Definition laplacian_loop (pixels : Uint8Array) (width height : Z) : accumulator :=
  fold_left (laplacian_row pixels width) (range 1 (height - 1)) (Num 0, 0%Z).

Definition calculateBlurScore (pixels : Uint8Array) (width height : Z) : number :=
  let '(laplacianSum, count) := laplacian_loop pixels width height in
  let laplacianVariance := (laplacianSum / of_Z count)%js in
  JS.max (Num 0) (JS.min (Num 1) (Num 1 - laplacianVariance / Num 255)%js).

(** *** [analyzeImageQuality] *)

Record QualityMetrics : Type := {
  contrast : number;
  blurScore : number;
  brightness : number;
  resolution : Z
}.

Definition analyzeImageQuality (raw : outcome Raw.t) : outcome QualityMetrics :=
  raw <- raw ;;
  let pixels := Raw.data raw in
  let mean := (reduce (fun sum value => sum + of_Z value) (Num 0) pixels
               / JS.length pixels)%js in
  let variance :=
    (reduce (fun sum value => sum + pow2 (of_Z value - mean)) (Num 0) pixels
     / JS.length pixels)%js in
  let contrast := (JS.sqrt variance / Num 255)%js in
  let blurScore := calculateBlurScore pixels (Raw.width raw) (Raw.height raw) in
  Returned
    {| contrast := contrast;
       blurScore := blurScore;
       brightness := (mean / Num 255)%js;
       resolution := (Raw.width raw * Raw.height raw)%Z |}.

(** *** [calculateOCRConfidence]

    [recognized] is the second recognition of the image; when it returns,
    it carries the number that [parseFloat] reads from the capture of
    the pattern "Confidence: <decimal>", or nothing when the pattern does
    not match.  The capture is an unsigned decimal numeral, so the number
    is not negative; a numeral beyond the range of the doubles, which
    [parseFloat] reads as [Infinity], is not represented. *)
Definition calculateOCRConfidence (recognized : outcome (option R)) : outcome number :=
  ocrMatch <- recognized ;;
  Returned (match ocrMatch with
            | Some c => Num c
            | None => Num 0
            end).

(** *** [calculateReadabilityScore] *)

Module Factor.
Inductive t : Type := confidence | blur | contrast | wordCount.
End Factor.

(** The object literal [weights]; [keys] is [Object.keys(weights)]. *)
Definition weights (factor : Factor.t) : number :=
  match factor with
  | Factor.confidence => Num 0.4
  | Factor.blur => Num 0.3
  | Factor.contrast => Num 0.2
  | Factor.wordCount => Num 0.1
  end.

Definition keys : list Factor.t :=
  [Factor.confidence; Factor.blur; Factor.contrast; Factor.wordCount].

Definition calculateReadabilityScore
    (confidenceScore blurScore contrast wordCount : number) : number :=
  let scores (factor : Factor.t) : number :=
    match factor with
    | Factor.confidence => confidenceScore
    | Factor.blur => ((Num 1 - blurScore) * Num 100)%js
    | Factor.contrast => (contrast * Num 100)%js
    | Factor.wordCount => JS.min (wordCount / Num 10 * Num 100)%js (Num 100)
    end in
  fold_left (fun score factor => (score + scores factor * weights factor)%js)
            keys (Num 0).

(** *** [generateSuggestions] *)

Definition msg_poor : string :=
  "Overall document quality is poor. Consider recapturing with better lighting and focus.".
Definition msg_improve : string :=
  "Document quality could be improved for better text recognition.".
Definition msg_blurry : string :=
  "Document appears blurry. Try capturing a clearer image.".
Definition msg_contrast : string :=
  "Low contrast detected. Ensure good lighting and clear background.".
Definition msg_brightness : string :=
  "Suboptimal brightness. Adjust lighting conditions.".
Definition msg_confidence : string :=
  "Text recognition confidence is low. Ensure text is clear and well-aligned.".

(** [suggestions.push(message)] *)
Definition push (suggestions : list string) (message : string) : list string :=
  suggestions ++ [message].

Definition generateSuggestions (this : t) (readabilityScore : number)
    (qualityMetrics : QualityMetrics) (confidenceScore : number) : list string :=
  let suggestions : list string := [] in
  let suggestions :=
    if (readabilityScore <? Num 50)%js then push suggestions msg_poor
    else if (readabilityScore <? Num 70)%js then push suggestions msg_improve
    else suggestions in
  let suggestions :=
    if (blurScore qualityMetrics >? blurThreshold this)%js
    then push suggestions msg_blurry else suggestions in
  let suggestions :=
    if (contrast qualityMetrics <? Num 0.4)%js
    then push suggestions msg_contrast else suggestions in
  let suggestions :=
    if (brightness qualityMetrics <? Num 0.3)%js
       || (brightness qualityMetrics >? Num 0.8)%js
    then push suggestions msg_brightness else suggestions in
  let suggestions :=
    if (confidenceScore <? minConfidence this)%js
    then push suggestions msg_confidence else suggestions in
  suggestions.

(** *** [checkReadability] *)

(** What the awaited calls give for the uploaded buffer, in call order. *)
Record Collaborators : Type := {
  preprocessImage : outcome unit;
  metadata : outcome Metadata.t;
  raw : outcome Raw.t;
  recognize : outcome utf16;
  recognize_confidence : outcome (option R)
}.

Record ResultMetadata : Type := {
  width : option Z;
  height : option Z;
  format : option string
}.

Record Details : Type := {
  wordCount : Z;
  confidenceScore : number;
  imageQuality : QualityMetrics;
  details_metadata : ResultMetadata
}.

Record ReadabilityResult : Type := {
  isReadable : bool;
  readabilityScore : number;
  details : Details;
  text : utf16;
  suggestions : list string
}.

Definition checkReadability (this : t) (env : Collaborators)
    : outcome ReadabilityResult :=
  rethrow "Failed to analyze document readability: " (
    _ <- preprocessImage env ;;
    metadata <- metadata env ;;
    qualityMetrics <- analyzeImageQuality (raw env) ;;
    ocrResult <- recognize env ;;
    let words :=
      filter (fun word => (0 <? List.length word)%nat)
             (split_whitespace ocrResult) in
    confidenceScore <- calculateOCRConfidence (recognize_confidence env) ;;
    let words_length := Z.of_nat (List.length words) in
    let readabilityScore :=
      calculateReadabilityScore confidenceScore (blurScore qualityMetrics)
        (contrast qualityMetrics) (of_Z words_length) in
    Returned
      {| isReadable := (readabilityScore >=? Num 70)%js;
         readabilityScore := readabilityScore;
         details :=
           {| wordCount := words_length;
              confidenceScore := confidenceScore;
              imageQuality := qualityMetrics;
              details_metadata :=
                {| width := Metadata.width metadata;
                   height := Metadata.height metadata;
                   format := Metadata.format metadata |} |};
         text := ocrResult;
         suggestions :=
           generateSuggestions this readabilityScore qualityMetrics
             confidenceScore |}).

(** The checker that the route's [POST] handler builds. *)
Definition route_checker : t :=
  constructor
    {| opt_blurThreshold := Some (Num 0.15);
       opt_minConfidence := Some (Num 60);
       opt_minTextLength := Some (Num 10) |}.

End DocumentReadabilityChecker.

(* ================================================================= *)
(** ** The scoring rules as the specification words them *)

Module Spec.

(** Sum of a list of integers, of a list of reals. *)
Definition sumZ (l : list Z) : Z := fold_right Z.add 0%Z l.
Definition sumR (l : list R) : R := fold_right Rplus 0 l.

Definition clamp (v lo hi : R) : R := Rmax lo (Rmin hi v).

(** Intensity at column [x] of row [y] in a row-major array. *)
Definition pixel (pixels : list Z) (width x y : Z) : Z :=
  nth (Z.to_nat (y * width + x)) pixels 0%Z.

(** The discrete Laplacian [4*center - left - right - top - bottom]. *)
Definition laplacian (pixels : list Z) (width x y : Z) : Z :=
  (4 * pixel pixels width x y
   - pixel pixels width (x - 1) y
   - pixel pixels width (x + 1) y
   - pixel pixels width x (y - 1)
   - pixel pixels width x (y + 1))%Z.

(** The pixels that are not on the 1-pixel border, as [(x, y)]. *)
Definition interior (width height : Z) : list (Z * Z) :=
  flat_map (fun y => map (fun x => (x, y)) (range 1 (width - 1)))
           (range 1 (height - 1)).

(** The absolute value of the Laplacian at the pixel [p = (x, y)]. *)
Definition energy (pixels : list Z) (width : Z) (p : Z * Z) : Z :=
  Z.abs (laplacian pixels width (fst p) (snd p)).

(** Average of the absolute Laplacian over the interior pixels. *)
Definition laplacianVariance (pixels : list Z) (width height : Z) : R :=
  IZR (sumZ (map (energy pixels width) (interior width height)))
  / INR (List.length (interior width height)).

Definition laplacian_blur_score (pixels : list Z) (width height : Z) : R :=
  clamp (1 - laplacianVariance pixels width height / 255) 0 1.

(** Arithmetic mean, population variance and standard deviation. *)
Definition mean (l : list Z) : R :=
  sumR (map IZR l) / INR (List.length l).

Definition population_variance (l : list Z) : R :=
  sumR (map (fun v => Rsqr (IZR v - mean l)) l) / INR (List.length l).

(** The global-variance estimator: the variance divided by 255 squared. *)
Definition variance_blur_score (l : list Z) : R :=
  population_variance l / (255 * 255).

(** An order on numbers: no comparison with [NaN] holds. *)
Definition le (a b : number) : Prop :=
  match a, b with
  | Num x, Num y => x <= y
  | _, _ => False
  end.

(** A score that is a real number of the interval [0, 1]. *)
Definition in_unit_interval (a : number) : Prop :=
  exists v, a = Num v /\ 0 <= v <= 1.

(** Two scores are near each other when they differ by at most [tolerance]. *)
Definition near (tolerance : R) (a : number) (target : R) : Prop :=
  exists v, a = Num v /\ Rabs (v - target) <= tolerance.

(** The readability weighting, written out. *)
Definition readability (confidenceScore blurScore contrast wordCount : R) : R :=
  0.4 * confidenceScore
  + 0.3 * ((1 - blurScore) * 100)
  + 0.2 * (contrast * 100)
  + 0.1 * Rmin (wordCount / 10 * 100) 100.

(** The metadata give both dimensions, and one is below the minimum. *)
Definition below_minimum (minimum : Size.t) (metadata : Metadata.t) : Prop :=
  exists w h : Z,
    Metadata.width metadata = Some w /\ Metadata.height metadata = Some h
    /\ (w < Size.width minimum \/ h < Size.height minimum)%Z.

(** The metadata give both dimensions, non-zero and not below the minimum. *)
Definition meets_minimum (minimum : Size.t) (metadata : Metadata.t) : Prop :=
  exists w h : Z,
    Metadata.width metadata = Some w /\ Metadata.height metadata = Some h
    /\ w <> 0%Z /\ h <> 0%Z
    /\ (Size.width minimum <= w)%Z /\ (Size.height minimum <= h)%Z.

(** One optional message. *)
Definition when (condition : bool) (message : string) : list string :=
  if condition then [message] else [].

(** [l1] is obtained from [l2] by dropping entries, the order kept. *)
Inductive subsequence {A : Type} : list A -> list A -> Prop :=
| sub_nil : subsequence [] []
| sub_skip : forall x l1 l2, subsequence l1 l2 -> subsequence l1 (x :: l2)
| sub_keep : forall x l1 l2, subsequence l1 l2 -> subsequence (x :: l1) (x :: l2).

End Spec.

(* ================================================================= *)
(** ** Test images *)

Module Fixture.

(** A checkerboard of 1x1 black and white squares: maximal alternation. *)
Definition cell (x y : Z) : Z := if Z.even (x + y) then 0%Z else 255%Z.

Definition checkerboard (width height : Z) : Uint8Array :=
  flat_map (fun y => map (fun x => cell x y) (range 0 width)) (range 0 height).

(** A uniform image. *)
Definition uniform (v width height : Z) : Uint8Array :=
  repeat v (Z.to_nat (width * height)).

Definition metadata_of (width height : Z) : Metadata.t :=
  {| Metadata.width := Some width;
     Metadata.height := Some height;
     Metadata.format := Some "png"%string;
     Metadata.size := None |}.

Definition raw_of (pixels : Uint8Array) (width height : Z) : Raw.t :=
  {| Raw.data := pixels; Raw.width := width; Raw.height := height |}.

(** A detector that accepts images from 2x2 on, for small examples. *)
Definition small_detector : DocumentBlurDetector.t :=
  DocumentBlurDetector.constructor
    {| DocumentBlurDetector.opt_blurThreshold := Some (Num 0.15);
       DocumentBlurDetector.opt_minDocumentSize :=
         Some {| Size.width := 2; Size.height := 2 |} |}.

(** A text of [n] one-letter words. *)
Fixpoint words (n : nat) : string :=
  match n with
  | O => EmptyString
  | S m => String "w" (String " " (words m))
  end.

(** The collaborators' answers for an image of the given intensities whose
    recognition gives [text] with the confidence figure [confidence]. *)
Definition collaborators (pixels : Uint8Array) (width height : Z)
    (text : string) (confidence : R)
    : DocumentReadabilityChecker.Collaborators :=
  {| DocumentReadabilityChecker.preprocessImage := Returned tt;
     DocumentReadabilityChecker.metadata := Returned (metadata_of width height);
     DocumentReadabilityChecker.raw := Returned (raw_of pixels width height);
     DocumentReadabilityChecker.recognize := Returned (lit text);
     DocumentReadabilityChecker.recognize_confidence := Returned (Some confidence) |}.

End Fixture.

(* ================================================================= *)
(** ** Words of a text *)

Module Words.

(** A text of white space only (the empty text included). *)
Definition blank (s : utf16) : Prop := forallb is_space s = true.

(** A non-empty text without white space. *)
Definition is_word (w : utf16) : Prop :=
  w <> [] /\ forallb (fun c => negb (is_space c)) w = true.

(** [ocrResult.split(/\s+/).filter(word => word.length > 0)], as
    [checkReadability] computes it. *)
Definition of_text (ocrResult : utf16) : list utf16 :=
  filter (fun word => (0 <? List.length word)%nat) (split_whitespace ocrResult).

End Words.

(* ================================================================= *)
(** ** The route handlers *)

Module Http.

(** The body given to [NextResponse.json]: an [{ error }] object or a
    payload. *)
Inductive Body (A : Type) : Type :=
| ErrorBody (error : string)
| Payload (value : A).
Arguments ErrorBody {A} error.
Arguments Payload {A} value.

Record Response (A : Type) : Type := {
  status : Z;
  body : Body A
}.
Arguments status {A} _.
Arguments body {A} _.

(** [NextResponse.json(body)] and [NextResponse.json(body, { status })]. *)
Definition json {A : Type} (b : Body A) : Response A :=
  {| status := 200; body := b |}.
Definition json_status {A : Type} (b : Body A) (code : Z) : Response A :=
  {| status := code; body := b |}.

(** [message || fallback]: the empty string is falsy. *)
Definition message_or (message fallback : string) : string :=
  if String.eqb message EmptyString then fallback else message.

(** [response.ok] as [fetch] sets it. *)
Definition ok {A : Type} (r : Response A) : bool :=
  (200 <=? status r)%Z && (status r <=? 299)%Z.

End Http.

(** The blur-detection route. *)
Module BlurRoute.

(** The uploaded file: what reading its bytes and what the image library
    give for it. *)
Record File : Type := {
  arrayBuffer : outcome unit;
  metadata : outcome Metadata.t;
  raw : outcome Raw.t
}.

(** [POST]; [request] is [await request.formData()] followed by
    [formData.get('file')]. *)
Definition POST (request : outcome (option File))
    : Http.Response DocumentBlurDetector.BlurResult :=
  match (formData_file <- request ;;
         match formData_file with
         | None => Returned (Http.json_status (Http.ErrorBody "No file provided") 400)
         | Some file =>
             _ <- arrayBuffer file ;;
             let detector :=
               DocumentBlurDetector.constructor
                 {| DocumentBlurDetector.opt_blurThreshold := Some (Num 0.15);
                    DocumentBlurDetector.opt_minDocumentSize :=
                      Some {| Size.width := 400; Size.height := 400 |} |} in
             results <- DocumentBlurDetector.detectBlur detector (metadata file)
                          (raw file) ;;
             Returned (Http.json (Http.Payload results))
         end) with
  | Returned response => response
  | Threw message =>
      Http.json_status
        (Http.ErrorBody (Http.message_or message "Failed to analyze image")) 500
  end.

End BlurRoute.

(** The document-readability route. *)
Module ReadabilityRoute.

Record File : Type := {
  arrayBuffer : outcome unit;
  collaborators : DocumentReadabilityChecker.Collaborators
}.

(** [{ ...results, processingTime }] *)
Record Results : Type := {
  results : DocumentReadabilityChecker.ReadabilityResult;
  processingTime : number
}.

(** [POST]; [startTime] and [endTime] are the two readings of
    [performance.now()]. *)
Definition POST (request : outcome (option File)) (startTime endTime : number)
    : Http.Response Results :=
  match (formData_file <- request ;;
         match formData_file with
         | None => Returned (Http.json_status (Http.ErrorBody "No file provided") 400)
         | Some file =>
             _ <- arrayBuffer file ;;
             let checker :=
               DocumentReadabilityChecker.constructor
                 {| DocumentReadabilityChecker.opt_blurThreshold := Some (Num 0.15);
                    DocumentReadabilityChecker.opt_minConfidence := Some (Num 60);
                    DocumentReadabilityChecker.opt_minTextLength := Some (Num 10) |} in
             results <- DocumentReadabilityChecker.checkReadability checker
                          (collaborators file) ;;
             let processingTime := (endTime - startTime)%js in
             Returned (Http.json (Http.Payload
                         {| results := results; processingTime := processingTime |}))
         end) with
  | Returned response => response
  | Threw message =>
      Http.json_status
        (Http.ErrorBody
           (Http.message_or message "Failed to analyze document readability")) 500
  end.

End ReadabilityRoute.

(* ================================================================= *)
(** ** The upload page: [OCRUploader] *)

Module OCRUploader.

Record ProcessingTime : Type := {
  method : string;
  duration : number;
  timestamp : string
}.

(** The quality panel of the page; a field that the response lacks (or
    gives as [null]) is [None]. *)
Record Quality : Type := {
  brightness : option R;
  contrast : option R;
  width : option Z;
  height : option Z;
  format : option string
}.

Record BlurResults : Type := {
  isBlurry : bool;
  recommendation : string;
  blurScore : option R;
  quality : Quality
}.

(** The state of the component, one field per [useState]. *)
Record State : Type := {
  selectedFile : option string;
  previewUrl : option string;
  extractedText : option utf16;
  isLoading : bool;
  error : option string;
  blurResults : option BlurResults;
  processingTimes : list ProcessingTime
}.

Definition initial : State :=
  {| selectedFile := None;
     previewUrl := None;
     extractedText := Some [];
     isLoading := false;
     error := None;
     blurResults := None;
     processingTimes := [] |}.

(** The setters. *)
Definition setSelectedFile (s : State) (v : option string) : State :=
  {| selectedFile := v; previewUrl := previewUrl s;
     extractedText := extractedText s; isLoading := isLoading s;
     error := error s; blurResults := blurResults s;
     processingTimes := processingTimes s |}.
Definition setPreviewUrl (s : State) (v : option string) : State :=
  {| selectedFile := selectedFile s; previewUrl := v;
     extractedText := extractedText s; isLoading := isLoading s;
     error := error s; blurResults := blurResults s;
     processingTimes := processingTimes s |}.
Definition setExtractedText (s : State) (v : option utf16) : State :=
  {| selectedFile := selectedFile s; previewUrl := previewUrl s;
     extractedText := v; isLoading := isLoading s;
     error := error s; blurResults := blurResults s;
     processingTimes := processingTimes s |}.
Definition setIsLoading (s : State) (v : bool) : State :=
  {| selectedFile := selectedFile s; previewUrl := previewUrl s;
     extractedText := extractedText s; isLoading := v;
     error := error s; blurResults := blurResults s;
     processingTimes := processingTimes s |}.
Definition setError (s : State) (v : option string) : State :=
  {| selectedFile := selectedFile s; previewUrl := previewUrl s;
     extractedText := extractedText s; isLoading := isLoading s;
     error := v; blurResults := blurResults s;
     processingTimes := processingTimes s |}.
Definition setBlurResults (s : State) (v : option BlurResults) : State :=
  {| selectedFile := selectedFile s; previewUrl := previewUrl s;
     extractedText := extractedText s; isLoading := isLoading s;
     error := error s; blurResults := v;
     processingTimes := processingTimes s |}.
Definition setProcessingTimes (s : State)
    (update : list ProcessingTime -> list ProcessingTime) : State :=
  {| selectedFile := selectedFile s; previewUrl := previewUrl s;
     extractedText := extractedText s; isLoading := isLoading s;
     error := error s; blurResults := blurResults s;
     processingTimes := update (processingTimes s) |}.

(** The readings of [performance.now()] and of
    [new Date().toISOString()] when a request completes. *)
Record Clock : Type := {
  now : number;
  iso : string
}.

Definition addProcessingTime (s : State) (method : string) (startTime : number)
    (clock : Clock) : State :=
  let duration := (now clock - startTime)%js in
  setProcessingTimes s
    (fun prev => prev ++ [{| method := method; duration := duration;
                             timestamp := iso clock |}]).

(** [handleFileSelect]; [file] is [event.target.files?.[0]] and [url] what
    [URL.createObjectURL] gives for it. *)
Definition handleFileSelect (s : State) (file : option string) (url : string)
    : State :=
  match file with
  | Some f =>
      let s := setSelectedFile s (Some f) in
      let s := setPreviewUrl s (Some url) in
      let s := setError s None in
      let s := setExtractedText s (Some []) in
      setBlurResults s None
  | None => s
  end.

(** What [fetch] resolves to: [response.ok] and [await response.json()]. *)
Record Fetched (D : Type) : Type := {
  ok : bool;
  json : outcome D
}.
Arguments ok {D} _.
Arguments json {D} _.

(** [data.error || fallback] *)
Definition error_or (error : option string) (fallback : string) : string :=
  match error with
  | Some message => Http.message_or message fallback
  | None => fallback
  end.

(** The three statements that every handler runs on its request:
    [await fetch(...)], [await response.json()] and the [response.ok] test. *)
Definition receive {D : Type} (error_of : D -> option string) (fallback : string)
    (fetched : outcome (Fetched D)) : outcome D :=
  response <- fetched ;;
  data <- json response ;;
  if negb (ok response) then Threw (error_or (error_of data) fallback)
  else Returned data.

(** The data of a text-extraction response. *)
Record TextData : Type := {
  text_error : option string;
  text : option utf16
}.

Definition handleOCR (s : State) (startTime : number)
    (fetched : outcome (Fetched TextData)) (clock : Clock) : State :=
  match selectedFile s with
  | None => setError s (Some "Please select a file first"%string)
  | Some _ =>
      let s := setIsLoading s true in
      let s := setError s None in
      let s :=
        match receive text_error "Failed to process image" fetched with
        | Returned data =>
            let s := setExtractedText s (text data) in
            addProcessingTime s "Local OCR" startTime clock
        | Threw _ => setError s (Some "Error processing the file. Please try again."%string)
        end in
      setIsLoading s false
  end.

Definition handleExternalOCR (s : State) (startTime : number)
    (fetched : outcome (Fetched TextData)) (clock : Clock) : State :=
  match selectedFile s with
  | None => setError s (Some "Please select a file first"%string)
  | Some _ =>
      let s := setIsLoading s true in
      let s := setError s None in
      let s :=
        match receive text_error "Failed to process image" fetched with
        | Returned data =>
            let s := setExtractedText s (text data) in
            addProcessingTime s "External OCR" startTime clock
        | Threw _ =>
            setError s
              (Some "Error processing the file with external OCR. Please try again."%string)
        end in
      setIsLoading s false
  end.

Definition handleOpenAIOCR (s : State) (startTime : number)
    (fetched : outcome (Fetched TextData)) (clock : Clock) : State :=
  match selectedFile s with
  | None => setError s (Some "Please select a file first"%string)
  | Some _ =>
      let s := setIsLoading s true in
      let s := setError s None in
      let s :=
        match receive text_error "Failed to process image" fetched with
        | Returned data =>
            let s := setExtractedText s (text data) in
            addProcessingTime s "OpenAI OCR" startTime clock
        | Threw _ =>
            setError s
              (Some "Error processing the file with OpenAI. Please try again."%string)
        end in
      setIsLoading s false
  end.

Definition handleTextractOCR (s : State) (startTime : number)
    (fetched : outcome (Fetched TextData)) (clock : Clock) : State :=
  match selectedFile s with
  | None => setError s (Some "Please select a file first"%string)
  | Some _ =>
      let s := setIsLoading s true in
      let s := setError s None in
      let s :=
        match receive text_error "Failed to process image" fetched with
        | Returned data =>
            let s := setExtractedText s (text data) in
            addProcessingTime s "AWS Textract" startTime clock
        | Threw _ =>
            setError s
              (Some "Error processing the file with Textract. Please try again."%string)
        end in
      setIsLoading s false
  end.

(** The data of a blur-detection response: its [error] field and the
    object as the page shows it. *)
Record BlurData : Type := {
  blur_error : option string;
  shown : BlurResults
}.

Definition handleBlurCheck (s : State) (startTime : number)
    (fetched : outcome (Fetched BlurData)) (clock : Clock) : State :=
  match selectedFile s with
  | None => setError s (Some "Please select a file first"%string)
  | Some _ =>
      let s := setIsLoading s true in
      let s := setError s None in
      let s :=
        match receive blur_error "Failed to analyze image" fetched with
        | Returned data =>
            let s := setBlurResults s (Some (shown data)) in
            addProcessingTime s "Blur Detection" startTime clock
        | Threw _ => setError s (Some "Error analyzing the file. Please try again."%string)
        end in
      setIsLoading s false
  end.

(** The data of a document-readability response; an object that the
    response lacks is [None]. *)
Record ImageQuality : Type := {
  iq_blurScore : option R;
  iq_brightness : option R;
  iq_contrast : option R
}.

Record ResponseMetadata : Type := {
  md_width : option Z;
  md_height : option Z;
  md_format : option string
}.

Record ResponseDetails : Type := {
  imageQuality : option ImageQuality;
  metadata : option ResponseMetadata
}.

Record ReadabilityData : Type := {
  readability_error : option string;
  isReadable : option bool;
  readability_text : option utf16;
  suggestions : option (list string);
  details : option ResponseDetails
}.

(** Reading a property of [undefined] throws a [TypeError]. *)
Definition property {A : Type} (object : option A) : outcome A :=
  match object with
  | Some a => Returned a
  | None => Threw "Cannot read properties of undefined"
  end.

Definition newline : string := String (ascii_of_nat 10) EmptyString.

(** The object literal that [handleLocalReadability] passes to
    [setBlurResults], its properties evaluated in order. *)
Definition shown_readability (data : ReadabilityData) : outcome BlurResults :=
  let isBlurry := negb (match isReadable data with Some b => b | None => false end) in
  details_1 <- property (details data) ;;
  imageQuality_1 <- property (imageQuality details_1) ;;
  let blurScore := iq_blurScore imageQuality_1 in
  suggestions_1 <- property (suggestions data) ;;
  let recommendation := String.concat newline suggestions_1 in
  let brightness := iq_brightness imageQuality_1 in
  let contrast := iq_contrast imageQuality_1 in
  metadata_1 <- property (metadata details_1) ;;
  Returned
    {| isBlurry := isBlurry;
       blurScore := blurScore;
       recommendation := recommendation;
       quality :=
         {| brightness := brightness;
            contrast := contrast;
            width := md_width metadata_1;
            height := md_height metadata_1;
            format := md_format metadata_1 |} |}.

Definition handleLocalReadability (s : State) (startTime : number)
    (fetched : outcome (Fetched ReadabilityData)) (clock : Clock) : State :=
  match selectedFile s with
  | None => setError s (Some "Please select a file first"%string)
  | Some _ =>
      let s := setIsLoading s true in
      let s := setError s None in
      let s :=
        match receive readability_error "Failed to analyze document" fetched with
        | Returned data =>
            let s := setExtractedText s (readability_text data) in
            match shown_readability data with
            | Returned view =>
                let s := setBlurResults s (Some view) in
                addProcessingTime s "Local Readability" startTime clock
            | Threw _ =>
                setError s (Some "Error analyzing the document. Please try again."%string)
            end
        | Threw _ =>
            setError s (Some "Error analyzing the document. Please try again."%string)
        end in
      setIsLoading s false
  end.

End OCRUploader.

(** What a run of a handler of the page may do to the state. *)
Module Run.

(** No file is selected: only the error changes. *)
Definition refused (s s' : OCRUploader.State) : Prop :=
  s' = OCRUploader.setError s (Some "Please select a file first"%string).

(** The request succeeded: no error, and one record of the given method
    at the end of the log. *)
Definition succeeded (method : string) (s s' : OCRUploader.State) : Prop :=
  OCRUploader.isLoading s' = false
  /\ OCRUploader.error s' = None
  /\ exists duration timestamp,
       OCRUploader.processingTimes s'
       = OCRUploader.processingTimes s
         ++ [{| OCRUploader.method := method;
                OCRUploader.duration := duration;
                OCRUploader.timestamp := timestamp |}].

(** The request failed: the given error, and the log and the quality panel
    as they were. *)
Definition failed (message : string) (s s' : OCRUploader.State) : Prop :=
  OCRUploader.isLoading s' = false
  /\ OCRUploader.error s' = Some message
  /\ OCRUploader.processingTimes s' = OCRUploader.processingTimes s
  /\ OCRUploader.blurResults s' = OCRUploader.blurResults s.

(** The selected file and its preview stay. *)
Definition kept_file (s s' : OCRUploader.State) : Prop :=
  OCRUploader.selectedFile s' = OCRUploader.selectedFile s
  /\ OCRUploader.previewUrl s' = OCRUploader.previewUrl s.

(** The four text-extraction handlers with their method and their error. *)
Definition text_handlers
  : list ((OCRUploader.State -> number
           -> outcome (OCRUploader.Fetched OCRUploader.TextData)
           -> OCRUploader.Clock -> OCRUploader.State)
          * string * string) :=
  [ (OCRUploader.handleOCR, "Local OCR",
     "Error processing the file. Please try again.");
    (OCRUploader.handleExternalOCR, "External OCR",
     "Error processing the file with external OCR. Please try again.");
    (OCRUploader.handleOpenAIOCR, "OpenAI OCR",
     "Error processing the file with OpenAI. Please try again.");
    (OCRUploader.handleTextractOCR, "AWS Textract",
     "Error processing the file with Textract. Please try again.") ]%string.

(** The request came back with [response.ok] and a body that parses. *)
Definition delivered {D : Type} (fetched : outcome (OCRUploader.Fetched D))
    (data : D) : Prop :=
  exists response,
    fetched = Returned response
    /\ OCRUploader.ok response = true
    /\ OCRUploader.json response = Returned data.

(** One event of the page, run to its end: a file selection or a click on
    one of the six buttons. *)
Inductive step : OCRUploader.State -> OCRUploader.State -> Prop :=
| step_select : forall s file url,
    step s (OCRUploader.handleFileSelect s file url)
| step_ocr : forall s startTime fetched clock,
    step s (OCRUploader.handleOCR s startTime fetched clock)
| step_external : forall s startTime fetched clock,
    step s (OCRUploader.handleExternalOCR s startTime fetched clock)
| step_openai : forall s startTime fetched clock,
    step s (OCRUploader.handleOpenAIOCR s startTime fetched clock)
| step_textract : forall s startTime fetched clock,
    step s (OCRUploader.handleTextractOCR s startTime fetched clock)
| step_blur : forall s startTime fetched clock,
    step s (OCRUploader.handleBlurCheck s startTime fetched clock)
| step_readability : forall s startTime fetched clock,
    step s (OCRUploader.handleLocalReadability s startTime fetched clock).

(** The states that the page can reach from its initial state. *)
Inductive reachable : OCRUploader.State -> Prop :=
| reach_initial : reachable OCRUploader.initial
| reach_step : forall s s', reachable s -> step s s' -> reachable s'.

Definition methods : list string :=
  ["Local OCR"; "External OCR"; "OpenAI OCR"; "AWS Textract"; "Blur Detection";
   "Local Readability"]%string.

(** [l1] is a prefix of [l2]. *)
Definition prefix {A : Type} (l1 l2 : list A) : Prop :=
  exists rest, l2 = l1 ++ rest.

End Run.

(** What the page receives from the routes: the response serialised by
    [NextResponse.json] and read back by [response.json()]. *)
Module Transport.

(** [JSON.stringify] writes [NaN] as [null]. *)
Definition json_number (a : number) : option R :=
  match a with
  | Num r => Some r
  | NaN => None
  end.

Definition readability_data (b : Http.Body ReadabilityRoute.Results)
    : OCRUploader.ReadabilityData :=
  match b with
  | Http.ErrorBody e =>
      {| OCRUploader.readability_error := Some e;
         OCRUploader.isReadable := None;
         OCRUploader.readability_text := None;
         OCRUploader.suggestions := None;
         OCRUploader.details := None |}
  | Http.Payload r =>
      let result := ReadabilityRoute.results r in
      let details := DocumentReadabilityChecker.details result in
      let quality := DocumentReadabilityChecker.imageQuality details in
      let metadata := DocumentReadabilityChecker.details_metadata details in
      {| OCRUploader.readability_error := None;
         OCRUploader.isReadable :=
           Some (DocumentReadabilityChecker.isReadable result);
         OCRUploader.readability_text :=
           Some (DocumentReadabilityChecker.text result);
         OCRUploader.suggestions :=
           Some (DocumentReadabilityChecker.suggestions result);
         OCRUploader.details :=
           Some {| OCRUploader.imageQuality :=
                     Some {| OCRUploader.iq_blurScore :=
                               json_number (DocumentReadabilityChecker.blurScore quality);
                             OCRUploader.iq_brightness :=
                               json_number (DocumentReadabilityChecker.brightness quality);
                             OCRUploader.iq_contrast :=
                               json_number (DocumentReadabilityChecker.contrast quality) |};
                   OCRUploader.metadata :=
                     Some {| OCRUploader.md_width :=
                               DocumentReadabilityChecker.width metadata;
                             OCRUploader.md_height :=
                               DocumentReadabilityChecker.height metadata;
                             OCRUploader.md_format :=
                               DocumentReadabilityChecker.format metadata |} |} |}
  end.

(** What [fetch('/api/document-readability')] resolves to for a response of
    the route. *)
Definition fetch_readability (response : Http.Response ReadabilityRoute.Results)
    : outcome (OCRUploader.Fetched OCRUploader.ReadabilityData) :=
  Returned {| OCRUploader.ok := Http.ok response;
              OCRUploader.json := Returned (readability_data (Http.body response)) |}.

End Transport.

(** The local OCR route ([/api/ocr]). *)
Module OcrRoute.

(** The body of a successful response: [{ processingTime2 }]. *)
Record Timing : Type := {
  processingTime2 : number
}.

(** [POST]; [formData] is the awaited [request.formData()], [extractText]
    the call of [scribe.extractText] (whose promise is not awaited), and
    [startTime2], [endTime2] the two readings of [performance.now()]. *)
Definition POST (formData : outcome unit) (extractText : outcome unit)
    (startTime2 endTime2 : number) : Http.Response Timing :=
  match (_ <- formData ;;
         _ <- extractText ;;
         let processingTime2 := (endTime2 - startTime2)%js in
         Returned (Http.json (Http.Payload {| processingTime2 := processingTime2 |})))
  with
  | Returned response => response
  | Threw _ => Http.json_status (Http.ErrorBody "Failed to process image") 500
  end.

(** What [fetch('/api/ocr')] resolves to for a response of the route: the
    body has an [error] or a [processingTime2], never a [text]. *)
Definition fetched (response : Http.Response Timing)
    : outcome (OCRUploader.Fetched OCRUploader.TextData) :=
  Returned
    {| OCRUploader.ok := Http.ok response;
       OCRUploader.json :=
         Returned
           match Http.body response with
           | Http.ErrorBody e =>
               {| OCRUploader.text_error := Some e; OCRUploader.text := None |}
           | Http.Payload _ =>
               {| OCRUploader.text_error := None; OCRUploader.text := None |}
           end |}.

End OcrRoute.

(** The Textract route ([/api/textract]). *)
Module TextractRoute.

Record Block : Type := {
  BlockType : option string;
  Text : option string;
  Confidence : option number
}.

(** [block.BlockType === 'LINE'] *)
Definition is_line (block : Block) : bool :=
  match BlockType block with
  | Some t => String.eqb t "LINE"
  | None => false
  end.

(** [texts.join('\n')]: an [undefined] entry is written as the empty
    string. *)
Definition join_lines (texts : list (option string)) : string :=
  String.concat OCRUploader.newline
    (map (fun t => match t with Some s => s | None => EmptyString end) texts).

(** [response.Blocks?.filter(...).map(block => block.Text).join('\n') || ''] *)
Definition extractedText (Blocks : option (list Block)) : string :=
  match Blocks with
  | Some blocks =>
      let joined := join_lines (map Text (filter is_line blocks)) in
      if String.eqb joined EmptyString then EmptyString else joined
  | None => EmptyString
  end.

(** [response.Blocks?.[0]?.Confidence || 0] *)
Definition confidence (Blocks : option (list Block)) : number :=
  match Blocks with
  | Some (first :: _) =>
      match Confidence first with
      | Some c => if truthy c then c else Num 0
      | None => Num 0
      end
  | _ => Num 0
  end.

Record Extraction : Type := {
  text : string;
  processingTime : number;
  extraction_confidence : number
}.

(** [POST]; [request] is the file of the form, [sent] the answer of
    [textractClient.send]. *)
Definition POST (request : outcome (option (outcome unit)))
    (sent : outcome (option (list Block))) (startTime endTime : number)
    : Http.Response Extraction :=
  match (formData_file <- request ;;
         match formData_file with
         | None => Returned (Http.json_status (Http.ErrorBody "No file provided") 400)
         | Some arrayBuffer =>
             _ <- arrayBuffer ;;
             Blocks <- sent ;;
             let extractedText := extractedText Blocks in
             let processingTime := (endTime - startTime)%js in
             Returned (Http.json (Http.Payload
                         {| text := extractedText;
                            processingTime := processingTime;
                            extraction_confidence := confidence Blocks |}))
         end) with
  | Returned response => response
  | Threw message =>
      Http.json_status
        (Http.ErrorBody
           (Http.message_or message "Failed to process image with Textract")) 500
  end.

End TextractRoute.

(* ================================================================= *)
(** * Properties *)

Import DocumentReadabilityChecker.

(** ** Numbers, ranges and arrays *)

(** Deciding comparisons and defaults on numerals. *)
Ltac js_numerals :=
  repeat (cbn;
          match goal with
          | |- context [Rlt_dec ?x ?y] => destruct (Rlt_dec x y); try lra
          | |- context [Rle_dec ?x ?y] => destruct (Rle_dec x y); try lra
          | |- context [Req_dec_T ?x ?y] => destruct (Req_dec_T x y); try lra
          end);
  cbn; try reflexivity.

Lemma range_nil (lo hi : Z) : (hi <= lo)%Z -> range lo hi = [].
Proof.
  intros H. unfold range.
  replace (Z.to_nat (hi - lo)) with O by lia. reflexivity.
Qed.

Lemma range_cons (lo hi : Z) :
  (lo < hi)%Z -> range lo hi = lo :: range (lo + 1) hi.
Proof.
  intros H. unfold range.
  replace (Z.to_nat (hi - lo)) with (S (Z.to_nat (hi - (lo + 1)))) by lia.
  cbn [seq map]. f_equal; [lia|].
  rewrite <- seq_shift, map_map. apply map_ext. intros; lia.
Qed.

Lemma range_length (lo hi : Z) : List.length (range lo hi) = Z.to_nat (hi - lo).
Proof. unfold range. now rewrite length_map, length_seq. Qed.

Lemma range_In (lo hi x : Z) : In x (range lo hi) <-> (lo <= x < hi)%Z.
Proof.
  unfold range. rewrite in_map_iff. split.
  - intros (i & <- & Hi). apply in_seq in Hi. lia.
  - intros H. exists (Z.to_nat (x - lo)). split; [lia|]. apply in_seq. lia.
Qed.

Lemma ltb_Num (x y : R) : (Num x <? Num y)%js = true <-> x < y.
Proof. cbn. destruct (Rlt_dec x y); split; intros; (congruence || tauto). Qed.

Lemma geb_Num (x y : R) : (Num x >=? Num y)%js = true <-> y <= x.
Proof. cbn. destruct (Rle_dec y x); split; intros; (congruence || tauto). Qed.

Lemma div_Num (x y : R) : y <> 0 -> (Num x / Num y)%js = Num (x / y).
Proof. intros H. cbn. destruct (Req_dec_T y 0); [contradiction|reflexivity]. Qed.

Lemma Rmin_mono_l (a b c : R) : a <= b -> Rmin a c <= Rmin b c.
Proof. intros H. unfold Rmin. repeat destruct Rle_dec; lra. Qed.

(** ** The readability score *)

(** C1: [calculateReadabilityScore] is the weighted sum of its four
    sub-scores, with the weights 0.4 (confidence), 0.3 (blur), 0.2 (contrast)
    and 0.1 (word count) on the confidence, [(1 - blurScore) * 100],
    [contrast * 100] and [min(wordCount / 10 * 100, 100)]: as an equation
    between JavaScript numbers for all inputs ([NaN] included), and as a
    real number for real inputs. *)
Theorem C1_readability_score_weighted_sum :
  (forall confidenceScore blurScore contrast wordCount : number,
      calculateReadabilityScore confidenceScore blurScore contrast wordCount
      = (Num 0.4 * confidenceScore
         + Num 0.3 * ((Num 1 - blurScore) * Num 100)
         + Num 0.2 * (contrast * Num 100)
         + Num 0.1 * JS.min (wordCount / Num 10 * Num 100) (Num 100))%js)
  /\ (forall c b k w : R,
         calculateReadabilityScore (Num c) (Num b) (Num k) (Num w)
         = Num (Spec.readability c b k w)).
Proof.
  split.
  - intros [|c] [|b] [|k] [|w]; cbn; try reflexivity;
      destruct (Req_dec_T 10 0); try lra; cbn; try reflexivity;
      f_equal; ring.
  - intros c b k w. cbn. destruct (Req_dec_T 10 0); [lra|].
    cbn. f_equal. unfold Spec.readability. ring.
Qed.

Lemma readability_score_real (c b k w : R) :
  calculateReadabilityScore (Num c) (Num b) (Num k) (Num w)
  = Num (Spec.readability c b k w).
Proof.
  cbn. destruct (Req_dec_T 10 0); [lra|].
  cbn. f_equal. unfold Spec.readability. ring.
Qed.

(** C3 as stated fails for [blurScore]: with everything else at 0, a blur
    score of 0 scores 30 and a blur score of 1 scores 0, so raising
    [blurScore] lowers the readability score. *)
Lemma C3_blur_lowers_score :
  0 <= 1
  /\ ~ Spec.le (calculateReadabilityScore (Num 0) (Num 0) (Num 0) (Num 0))
               (calculateReadabilityScore (Num 0) (Num 1) (Num 0) (Num 0)).
Proof.
  split; [lra|].
  rewrite !readability_score_real. unfold Spec.le, Spec.readability, Rmin.
  destruct Rle_dec; lra.
Qed.

(** C3 (amended): with the other three inputs held fixed,
    [calculateReadabilityScore] is non-decreasing in [confidenceScore], in
    [contrast] and in [wordCount], and non-increasing in [blurScore]. *)
Theorem C3_readability_score_monotone :
  forall c1 c2 b1 b2 k1 k2 w1 w2 : R,
    c1 <= c2 -> b1 <= b2 -> k1 <= k2 -> w1 <= w2 ->
    forall c b k w : R,
      Spec.le (calculateReadabilityScore (Num c1) (Num b) (Num k) (Num w))
              (calculateReadabilityScore (Num c2) (Num b) (Num k) (Num w))
      /\ Spec.le (calculateReadabilityScore (Num c) (Num b2) (Num k) (Num w))
                 (calculateReadabilityScore (Num c) (Num b1) (Num k) (Num w))
      /\ Spec.le (calculateReadabilityScore (Num c) (Num b) (Num k1) (Num w))
                 (calculateReadabilityScore (Num c) (Num b) (Num k2) (Num w))
      /\ Spec.le (calculateReadabilityScore (Num c) (Num b) (Num k) (Num w1))
                 (calculateReadabilityScore (Num c) (Num b) (Num k) (Num w2)).
Proof.
  intros c1 c2 b1 b2 k1 k2 w1 w2 Hc Hb Hk Hw c b k w.
  rewrite !readability_score_real. unfold Spec.le, Spec.readability.
  repeat split; try lra.
  assert (Rmin (w1 / 10 * 100) 100 <= Rmin (w2 / 10 * 100) 100)
    by (apply Rmin_mono_l; lra).
  lra.
Qed.

Lemma C3_readability_score_monotone_witness :
  Spec.le (calculateReadabilityScore (Num 50) (Num 0.5) (Num 0.5) (Num 5))
          (calculateReadabilityScore (Num 90) (Num 0.5) (Num 0.5) (Num 5))
  /\ Spec.le (calculateReadabilityScore (Num 50) (Num 1) (Num 0.5) (Num 5))
             (calculateReadabilityScore (Num 50) (Num 0) (Num 0.5) (Num 5))
  /\ Spec.le (calculateReadabilityScore (Num 50) (Num 0.5) (Num 0.2) (Num 5))
             (calculateReadabilityScore (Num 50) (Num 0.5) (Num 0.7) (Num 5))
  /\ Spec.le (calculateReadabilityScore (Num 50) (Num 0.5) (Num 0.5) (Num 3))
             (calculateReadabilityScore (Num 50) (Num 0.5) (Num 0.5) (Num 20)).
Proof.
  apply (C3_readability_score_monotone 50 90 0 1 0.2 0.7 3 20); lra.
Defined.

(** ** Suggestions *)

Lemma subsequence_when (c : bool) (m : string) (l1 l2 : list string) :
  Spec.subsequence l1 l2 -> Spec.subsequence (Spec.when c m ++ l1) (m :: l2).
Proof. intros H. destruct c; cbn; now constructor. Qed.

(** C9: [generateSuggestions] evaluates its rules in a fixed order: a score
    below 50 gives the poor-quality message, else a score below 70 the
    could-be-improved message; then a blur score above the blur threshold, a
    contrast below 0.4, a brightness below 0.3 or above 0.8, and a confidence
    below the minimum confidence each append their message.  The result keeps
    that order, and it is empty when no condition holds. *)
Theorem C9_generateSuggestions_ordered_rules :
  forall (this : DocumentReadabilityChecker.t) (readabilityScore : number)
         (qualityMetrics : QualityMetrics) (confidenceScore : number),
    let suggestions :=
      generateSuggestions this readabilityScore qualityMetrics confidenceScore in
    suggestions
    = Spec.when (readabilityScore <? Num 50)%js msg_poor
      ++ Spec.when (negb (readabilityScore <? Num 50)%js
                    && (readabilityScore <? Num 70)%js) msg_improve
      ++ Spec.when (blurScore qualityMetrics >? blurThreshold this)%js msg_blurry
      ++ Spec.when (contrast qualityMetrics <? Num 0.4)%js msg_contrast
      ++ Spec.when ((brightness qualityMetrics <? Num 0.3)%js
                    || (brightness qualityMetrics >? Num 0.8)%js) msg_brightness
      ++ Spec.when (confidenceScore <? minConfidence this)%js msg_confidence
    /\ Spec.subsequence suggestions
         [msg_poor; msg_improve; msg_blurry; msg_contrast; msg_brightness;
          msg_confidence]
    /\ ((readabilityScore <? Num 70)%js = false ->
        (blurScore qualityMetrics >? blurThreshold this)%js = false ->
        (contrast qualityMetrics <? Num 0.4)%js = false ->
        (brightness qualityMetrics <? Num 0.3)%js = false ->
        (brightness qualityMetrics >? Num 0.8)%js = false ->
        (confidenceScore <? minConfidence this)%js = false ->
        (readabilityScore <? Num 50)%js = false /\ suggestions = []).
Proof.
  intros this s q conf suggestions.
  assert (E : suggestions
    = Spec.when (s <? Num 50)%js msg_poor
      ++ Spec.when (negb (s <? Num 50)%js && (s <? Num 70)%js) msg_improve
      ++ Spec.when (blurScore q >? blurThreshold this)%js msg_blurry
      ++ Spec.when (contrast q <? Num 0.4)%js msg_contrast
      ++ Spec.when ((brightness q <? Num 0.3)%js
                    || (brightness q >? Num 0.8)%js) msg_brightness
      ++ Spec.when (conf <? minConfidence this)%js msg_confidence).
  { subst suggestions. unfold generateSuggestions, push.
    destruct (s <? Num 50)%js, (s <? Num 70)%js,
      (blurScore q >? blurThreshold this)%js, (contrast q <? Num 0.4)%js,
      (brightness q <? Num 0.3)%js, (brightness q >? Num 0.8)%js,
      (conf <? minConfidence this)%js; reflexivity. }
  split; [exact E|]. split.
  - rewrite E.
    assert (P : forall c, Spec.when c msg_poor
             ++ Spec.when (negb c && (s <? Num 70)%js) msg_improve
             = Spec.when c msg_poor
               ++ Spec.when (negb c && (s <? Num 70)%js) msg_improve ++ [])
      by (intros; now rewrite app_nil_r).
    repeat (apply subsequence_when with (l1 := _ ++ _)
            || apply subsequence_when with (l1 := Spec.when _ _)).
    rewrite <- (app_nil_r (Spec.when _ _)).
    apply subsequence_when. constructor.
  - intros H70 Hb Hc Hl Hh Hm.
    assert (H50 : (s <? Num 50)%js = false).
    { destruct s as [|x]; [reflexivity|].
      destruct (Num x <? Num 50)%js eqn:E50; [|reflexivity].
      apply ltb_Num in E50.
      assert (E70 : (Num x <? Num 70)%js = true) by (apply ltb_Num; lra).
      congruence. }
    split; [exact H50|].
    rewrite E, H50, H70, Hb, Hc, Hl, Hh, Hm. reflexivity.
Qed.

(** ** The Laplacian estimator *)

Lemma get_inside (pixels : Uint8Array) (idx : Z) :
  (0 <= idx < Z.of_nat (List.length pixels))%Z ->
  get pixels idx = of_Z (nth (Z.to_nat idx) pixels 0%Z).
Proof.
  intros H. unfold get.
  destruct (Z.ltb_spec idx 0); [lia|].
  destruct (nth_error pixels (Z.to_nat idx)) eqn:E.
  - now rewrite (nth_error_nth _ _ _ E).
  - apply nth_error_None in E. lia.
Qed.

Lemma sumZ_app (l1 l2 : list Z) :
  Spec.sumZ (l1 ++ l2) = (Spec.sumZ l1 + Spec.sumZ l2)%Z.
Proof.
  unfold Spec.sumZ. induction l1 as [|a l1 IH]; cbn; [reflexivity|].
  rewrite IH. lia.
Qed.

Section Laplacian.

Variable pixels : Uint8Array.
Variables width height : Z.
Hypothesis row_major : Z.of_nat (List.length pixels) = (width * height)%Z.

Lemma laplacian_body_inside (s : R) (c x y : Z) :
  (1 <= x <= width - 2)%Z -> (1 <= y <= height - 2)%Z ->
  laplacian_body pixels width y (Num s, c) x
  = (Num (s + IZR (Spec.energy pixels width (x, y))), (c + 1)%Z).
Proof.
  intros Hx Hy. unfold laplacian_body.
  rewrite !get_inside by nia.
  unfold Spec.energy, Spec.laplacian, Spec.pixel, of_Z. cbn [fst snd].
  cbn [JS.mul JS.sub JS.add JS.abs lift1 lift2].
  f_equal. f_equal. f_equal.
  rewrite abs_IZR, !minus_IZR, mult_IZR.
  replace ((y * width + (x - 1))%Z) with ((y * width + x - 1)%Z) by lia.
  replace ((y * width + (x + 1))%Z) with ((y * width + x + 1)%Z) by lia.
  replace (((y - 1) * width + x)%Z) with ((y * width + x - width)%Z) by lia.
  replace (((y + 1) * width + x)%Z) with ((y * width + x + width)%Z) by lia.
  f_equal. ring.
Qed.

Lemma laplacian_row_inside (y : Z) (xs : list Z) :
  (1 <= y <= height - 2)%Z ->
  Forall (fun x => 1 <= x <= width - 2)%Z xs ->
  forall (s : R) (c : Z),
    fold_left (laplacian_body pixels width y) xs (Num s, c)
    = (Num (s + IZR (Spec.sumZ (map (fun x => Spec.energy pixels width (x, y)) xs))),
       (c + Z.of_nat (List.length xs))%Z).
Proof.
  intros Hy Hxs. induction Hxs as [|x xs Hx _ IH]; intros s c.
  - cbn. f_equal; [f_equal; lra | lia].
  - cbn [fold_left]. rewrite laplacian_body_inside by assumption.
    rewrite IH. cbn [map Spec.sumZ fold_right List.length].
    fold (Spec.sumZ (map (fun x0 => Spec.energy pixels width (x0, y)) xs)).
    f_equal; [f_equal; rewrite plus_IZR; lra | lia].
Qed.

Lemma laplacian_rows_inside (ys : list Z) :
  Forall (fun y => 1 <= y <= height - 2)%Z ys ->
  forall (s : R) (c : Z),
    let visited :=
      flat_map (fun y => map (fun x => (x, y)) (range 1 (width - 1))) ys in
    fold_left (laplacian_row pixels width) ys (Num s, c)
    = (Num (s + IZR (Spec.sumZ (map (Spec.energy pixels width) visited))),
       (c + Z.of_nat (List.length visited))%Z).
Proof.
  intros Hys. induction Hys as [|y ys Hy _ IH]; intros s c visited.
  - cbn. f_equal; [f_equal; lra | lia].
  - cbn [fold_left]. unfold laplacian_row at 2.
    rewrite laplacian_row_inside; [|assumption|].
    2:{ apply Forall_forall. intros x Hx. apply range_In in Hx. lia. }
    rewrite IH. subst visited. cbn [flat_map].
    rewrite map_app, sumZ_app, length_app, map_map, length_map, plus_IZR.
    cbn [fst snd].
    f_equal; [f_equal; lra | lia].
Qed.

Lemma laplacian_loop_inside :
  laplacian_loop pixels width height
  = (Num (IZR (Spec.sumZ (map (Spec.energy pixels width) (Spec.interior width height)))),
     Z.of_nat (List.length (Spec.interior width height))).
Proof.
  unfold laplacian_loop. rewrite laplacian_rows_inside.
  - cbn zeta. fold (Spec.interior width height). f_equal. f_equal. lra.
  - apply Forall_forall. intros y Hy. apply range_In in Hy. lia.
Qed.

End Laplacian.

Lemma flat_map_length_uniform {A B : Type} (f : A -> list B) (n : nat) (l : list A) :
  (forall a, List.length (f a) = n) ->
  List.length (flat_map f l) = (List.length l * n)%nat.
Proof.
  intros H. induction l as [|a l IH]; cbn; [reflexivity|].
  now rewrite length_app, H, IH.
Qed.

Lemma interior_length (width height : Z) :
  (2 <= width)%Z -> (2 <= height)%Z ->
  Z.of_nat (List.length (Spec.interior width height))
  = ((width - 2) * (height - 2))%Z.
Proof.
  intros Hw Hh. unfold Spec.interior.
  rewrite (flat_map_length_uniform _ (Z.to_nat (width - 2))).
  - rewrite range_length. nia.
  - intros y. rewrite length_map, range_length. lia.
Qed.

Lemma clamp_unit (v : R) : 0 <= Spec.clamp v 0 1 <= 1.
Proof. unfold Spec.clamp, Rmax, Rmin. repeat destruct Rle_dec; lra. Qed.

Lemma laplacian_loop_empty (pixels : Uint8Array) (width height : Z) :
  (width <= 2 \/ height <= 2)%Z ->
  laplacian_loop pixels width height = (Num 0, 0%Z).
Proof.
  intros H. unfold laplacian_loop.
  destruct (Z_le_gt_dec height 2) as [Hh|Hh].
  - rewrite (range_nil 1 (height - 1)) by lia. reflexivity.
  - assert (Hw : (width <= 2)%Z) by lia.
    induction (range 1 (height - 1)) as [|y ys IH]; [reflexivity|].
    cbn [fold_left]. unfold laplacian_row at 2.
    rewrite (range_nil 1 (width - 1)) by lia. exact IH.
Qed.

Lemma calculateBlurScore_inside (pixels : Uint8Array) (width height : Z) :
  (3 <= width)%Z -> (3 <= height)%Z ->
  Z.of_nat (List.length pixels) = (width * height)%Z ->
  calculateBlurScore pixels width height
  = Num (Spec.laplacian_blur_score pixels width height).
Proof.
  intros Hw Hh Hlen.
  unfold calculateBlurScore.
  rewrite (laplacian_loop_inside pixels width height Hlen).
  pose proof (interior_length width height ltac:(lia) ltac:(lia)) as Hn.
  assert (Hpos : IZR (Z.of_nat (List.length (Spec.interior width height))) <> 0).
  { apply not_0_IZR. nia. }
  unfold of_Z. rewrite div_Num by exact Hpos.
  rewrite div_Num by lra.
  unfold Spec.laplacian_blur_score, Spec.laplacianVariance, Spec.clamp.
  rewrite INR_IZR_INZ. reflexivity.
Qed.

(** C4: on a row-major array of [width * height] intensities with
    [width >= 3] and [height >= 3], [calculateBlurScore] returns
    [clamp(1 - laplacianVariance / 255, 0, 1)], where [laplacianVariance] is
    the average over the interior pixels of
    [|4*center - left - right - top - bottom|]. *)
Theorem C4_calculateBlurScore_laplacian :
  forall (pixels : Uint8Array) (width height : Z),
    (3 <= width)%Z -> (3 <= height)%Z ->
    Z.of_nat (List.length pixels) = (width * height)%Z ->
    calculateBlurScore pixels width height
    = Num (Spec.laplacian_blur_score pixels width height).
Proof. exact calculateBlurScore_inside. Qed.

Lemma C4_calculateBlurScore_laplacian_witness :
  calculateBlurScore [10; 20; 30; 40; 50; 60; 70; 80; 90]%Z 3 3
  = Num (Spec.laplacian_blur_score [10; 20; 30; 40; 50; 60; 70; 80; 90]%Z 3 3).
Proof.
  apply C4_calculateBlurScore_laplacian; [lia | lia | reflexivity].
Defined.

(** C10: [calculateBlurScore] divides the accumulated edge energy by the
    number of visited pixels without a guard.  When [width <= 2] or
    [height <= 2] nothing is visited, the division is [0 / 0] and the
    result is [NaN]; when [width >= 3] and [height >= 3] the divisor is
    [(width - 2) * (height - 2) > 0] and the result is a real number of
    [0, 1]. *)
Theorem C10_calculateBlurScore_division :
  forall (pixels : Uint8Array) (width height : Z),
    ((width <= 2 \/ height <= 2)%Z ->
     laplacian_loop pixels width height = (Num 0, 0%Z)
     /\ calculateBlurScore pixels width height = NaN)
    /\ ((3 <= width)%Z -> (3 <= height)%Z ->
        Z.of_nat (List.length pixels) = (width * height)%Z ->
        snd (laplacian_loop pixels width height)
        = ((width - 2) * (height - 2))%Z
        /\ (0 < (width - 2) * (height - 2))%Z
        /\ Spec.in_unit_interval (calculateBlurScore pixels width height)).
Proof.
  intros pixels width height. split.
  - intros Hsmall. split; [now apply laplacian_loop_empty|].
    unfold calculateBlurScore. rewrite laplacian_loop_empty by assumption.
    cbn. destruct (Req_dec_T 0 0); [reflexivity | lra].
  - intros Hw Hh Hlen. split; [|split].
    + rewrite (laplacian_loop_inside pixels width height Hlen). cbn [snd].
      apply interior_length; lia.
    + nia.
    + rewrite calculateBlurScore_inside by assumption.
      eexists. split; [reflexivity|]. apply clamp_unit.
Qed.

Lemma C10_calculateBlurScore_division_witness :
  calculateBlurScore [10; 20; 30; 40]%Z 2 2 = NaN
  /\ Spec.in_unit_interval
       (calculateBlurScore [10; 20; 30; 40; 50; 60; 70; 80; 90]%Z 3 3).
Proof.
  split.
  - apply (C10_calculateBlurScore_division [10; 20; 30; 40]%Z 2 2). lia.
  - apply (C10_calculateBlurScore_division
             [10; 20; 30; 40; 50; 60; 70; 80; 90]%Z 3 3);
      [lia | lia | reflexivity].
Defined.

(** ** Mean and variance of the intensities *)

Lemma reduce_sum (l : Uint8Array) (s : R) :
  reduce (fun sum value => (sum + of_Z value)%js) (Num s) l
  = Num (s + Spec.sumR (map IZR l)).
Proof.
  unfold reduce, Spec.sumR. revert s.
  induction l as [|v l IH]; intros s; cbn.
  - f_equal. lra.
  - rewrite IH. f_equal. lra.
Qed.

Lemma reduce_square_diffs (l : Uint8Array) (m s : R) :
  reduce (fun sum value => (sum + pow2 (of_Z value - Num m))%js) (Num s) l
  = Num (s + Spec.sumR (map (fun v => Rsqr (IZR v - m)) l)).
Proof.
  unfold reduce, Spec.sumR. revert s.
  induction l as [|v l IH]; intros s; cbn.
  - f_equal. lra.
  - rewrite IH. f_equal. unfold Rsqr. lra.
Qed.

Lemma fold_square_diffs (l : Uint8Array) (m s : R) :
  fold_left (fun sum value => (sum + value)%js)
            (map (fun value => pow2 (of_Z value - Num m)%js) l) (Num s)
  = Num (s + Spec.sumR (map (fun v => Rsqr (IZR v - m)) l)).
Proof.
  unfold Spec.sumR. revert s.
  induction l as [|v l IH]; intros s; cbn.
  - f_equal. lra.
  - rewrite IH. f_equal. unfold Rsqr. lra.
Qed.

Lemma length_nonzero (l : Uint8Array) :
  l <> [] -> IZR (Z.of_nat (List.length l)) <> 0.
Proof.
  intros H. apply not_0_IZR. destruct l; [contradiction|]. cbn. lia.
Qed.

Lemma mean_nonempty (l : Uint8Array) :
  l <> [] ->
  (reduce (fun sum value => sum + of_Z value) (Num 0) l / JS.length l)%js
  = Num (Spec.mean l).
Proof.
  intros H. rewrite reduce_sum. unfold JS.length, of_Z.
  rewrite div_Num by now apply length_nonzero.
  unfold Spec.mean. rewrite INR_IZR_INZ. f_equal. f_equal. lra.
Qed.

Lemma variance_nonempty (l : Uint8Array) :
  l <> [] ->
  (reduce (fun sum value => sum + pow2 (of_Z value - Num (Spec.mean l)))
          (Num 0) l / JS.length l)%js
  = Num (Spec.population_variance l).
Proof.
  intros H. rewrite reduce_square_diffs. unfold JS.length, of_Z.
  rewrite div_Num by now apply length_nonzero.
  unfold Spec.population_variance. rewrite INR_IZR_INZ. f_equal. f_equal. lra.
Qed.

Lemma calculateVariance_nonempty (l : Uint8Array) :
  l <> [] ->
  DocumentBlurDetector.calculateVariance l = Num (Spec.population_variance l).
Proof.
  intros H. unfold DocumentBlurDetector.calculateVariance.
  rewrite mean_nonempty by assumption.
  rewrite fold_square_diffs, length_map. unfold of_Z.
  rewrite div_Num by now apply length_nonzero.
  unfold Spec.population_variance. rewrite INR_IZR_INZ. f_equal. f_equal. lra.
Qed.

(** The counter of the Laplacian loop does not depend on the intensities. *)
Lemma laplacian_count (pixels : Uint8Array) (width height : Z) :
  snd (laplacian_loop pixels width height)
  = Z.of_nat (List.length (Spec.interior width height)).
Proof.
  assert (Row : forall y xs acc,
             snd (fold_left (laplacian_body pixels width y) xs acc)
             = (snd acc + Z.of_nat (List.length xs))%Z).
  { intros y xs. induction xs as [|x xs IH]; intros [a c]; cbn [fold_left].
    - cbn. lia.
    - rewrite IH. cbn. lia. }
  assert (Rows : forall ys acc,
             snd (fold_left (laplacian_row pixels width) ys acc)
             = (snd acc
                + Z.of_nat (List.length
                    (flat_map (fun y => map (fun x => (x, y)) (range 1 (width - 1)))
                              ys)))%Z).
  { induction ys as [|y ys IH]; intros acc; cbn [fold_left flat_map].
    - cbn. lia.
    - rewrite IH. unfold laplacian_row. rewrite Row.
      rewrite length_app, length_map. lia. }
  unfold laplacian_loop. rewrite Rows. reflexivity.
Qed.

(** Where the program can divide by zero, the dividend is zero. *)
Lemma zero_divisor_sites :
  reduce (fun sum value => (sum + of_Z value)%js) (Num 0) [] = Num 0
  /\ JS.length [] = Num 0
  /\ DocumentBlurDetector.calculateVariance [] = NaN
  /\ (forall pixels width height,
         snd (laplacian_loop pixels width height) = 0%Z ->
         laplacian_loop pixels width height = (Num 0, 0%Z)).
Proof.
  repeat split.
  - cbn. destruct (Req_dec_T 0 0); [reflexivity | lra].
  - intros pixels width height H. apply laplacian_loop_empty.
    rewrite laplacian_count in H.
    destruct (Z_le_gt_dec width 2); [lia|].
    destruct (Z_le_gt_dec height 2); [lia|].
    rewrite interior_length in H by lia. nia.
Qed.

Lemma div_nonneg (a n : R) : 0 <= a -> 0 < n -> 0 <= a / n.
Proof.
  intros Ha Hn. apply Rmult_le_pos; [exact Ha|].
  left. now apply Rinv_0_lt_compat.
Qed.

Lemma div_le_bound (a n b : R) : 0 < n -> a <= b * n -> a / n <= b.
Proof.
  intros Hn H. replace b with (b * n / n) by (field; lra).
  apply Rmult_le_compat_r; [|exact H].
  left. now apply Rinv_0_lt_compat.
Qed.

Lemma sumR_intensities_bounds (l : Uint8Array) :
  well_formed l ->
  0 <= Spec.sumR (map IZR l) <= 255 * INR (List.length l).
Proof.
  unfold Spec.sumR. induction 1 as [|v l [Hlo Hhi] _ IH].
  - cbn. lra.
  - cbn [map fold_right List.length]. rewrite S_INR.
    apply IZR_le in Hlo, Hhi. lra.
Qed.

Lemma sumR_squares_le (l : Uint8Array) :
  well_formed l ->
  Spec.sumR (map (fun v => Rsqr (IZR v)) l) <= 255 * Spec.sumR (map IZR l).
Proof.
  unfold Spec.sumR. induction 1 as [|v l [Hlo Hhi] _ IH].
  - cbn. lra.
  - cbn [map fold_right]. apply IZR_le in Hlo, Hhi.
    assert (Rsqr (IZR v) <= 255 * IZR v)
      by (unfold Rsqr; apply Rmult_le_compat_r; lra).
    lra.
Qed.

Lemma sumR_square_diffs_expand (l : Uint8Array) (m : R) :
  Spec.sumR (map (fun v => Rsqr (IZR v - m)) l)
  = Spec.sumR (map (fun v => Rsqr (IZR v)) l)
    - 2 * m * Spec.sumR (map IZR l)
    + INR (List.length l) * Rsqr m.
Proof.
  unfold Spec.sumR. induction l as [|v l IH].
  - cbn. unfold Rsqr. lra.
  - cbn [map fold_right List.length]. rewrite S_INR, IH. unfold Rsqr. ring.
Qed.

Lemma sumR_square_diffs_nonneg (l : Uint8Array) (m : R) :
  0 <= Spec.sumR (map (fun v => Rsqr (IZR v - m)) l).
Proof.
  unfold Spec.sumR. induction l as [|v l IH]; cbn; [lra|].
  pose proof (Rle_0_sqr (IZR v - m)). lra.
Qed.

Lemma INR_length_pos (l : Uint8Array) : l <> [] -> 0 < INR (List.length l).
Proof.
  intros H. apply lt_0_INR. destruct l; [contradiction | cbn; lia].
Qed.

Lemma mean_bounds (l : Uint8Array) :
  well_formed l -> l <> [] -> 0 <= Spec.mean l <= 255.
Proof.
  intros Hwf Hne. unfold Spec.mean.
  pose proof (sumR_intensities_bounds l Hwf) as [Hlo Hhi].
  pose proof (INR_length_pos l Hne) as Hn.
  split.
  - apply div_nonneg; lra.
  - apply div_le_bound; lra.
Qed.

(** The variance in terms of the sums of the intensities and of their
    squares. *)
Lemma population_variance_sums (l : Uint8Array) :
  l <> [] ->
  Spec.population_variance l
  = Spec.sumR (map (fun v => Rsqr (IZR v)) l) / INR (List.length l)
    - Rsqr (Spec.mean l).
Proof.
  intros Hne. pose proof (INR_length_pos l Hne) as Hn.
  unfold Spec.population_variance. rewrite sumR_square_diffs_expand.
  assert (E : Spec.sumR (map IZR l) = INR (List.length l) * Spec.mean l).
  { unfold Spec.mean. field. lra. }
  rewrite E. unfold Rsqr. field. lra.
Qed.

Lemma population_variance_bounds (l : Uint8Array) :
  well_formed l -> l <> [] ->
  0 <= Spec.population_variance l <= 255 * 255 / 4.
Proof.
  intros Hwf Hne. pose proof (INR_length_pos l Hne) as Hn. split.
  - unfold Spec.population_variance.
    apply div_nonneg; [apply sumR_square_diffs_nonneg | exact Hn].
  - rewrite population_variance_sums by assumption.
    pose proof (sumR_squares_le l Hwf) as Hsq.
    assert (E : Spec.sumR (map IZR l) = INR (List.length l) * Spec.mean l).
    { unfold Spec.mean. field. lra. }
    rewrite E in Hsq.
    assert (Hq : Spec.sumR (map (fun v => Rsqr (IZR v)) l) / INR (List.length l)
                 <= 255 * Spec.mean l).
    { apply div_le_bound; lra. }
    pose proof (Rle_0_sqr (Spec.mean l - 255 / 2)) as Hm.
    unfold Rsqr in *. lra.
Qed.

Lemma variance_blur_score_bounds (l : Uint8Array) :
  well_formed l -> l <> [] ->
  0 <= Spec.variance_blur_score l <= 1 / 4.
Proof.
  intros Hwf Hne.
  pose proof (population_variance_bounds l Hwf Hne) as [Hlo Hhi].
  unfold Spec.variance_blur_score. split.
  - apply div_nonneg; lra.
  - apply div_le_bound; lra.
Qed.

Lemma sqrt_variance_bounds (l : Uint8Array) :
  well_formed l -> l <> [] ->
  0 <= R_sqrt.sqrt (Spec.population_variance l) / 255 <= 1 / 2.
Proof.
  intros Hwf Hne.
  pose proof (population_variance_bounds l Hwf Hne) as [Hlo Hhi].
  pose proof (sqrt_pos (Spec.population_variance l)) as Hs.
  assert (Hle : R_sqrt.sqrt (Spec.population_variance l) <= 255 / 2).
  { rewrite <- (sqrt_square (255 / 2)) by lra.
    apply sqrt_le_1_alt. lra. }
  split.
  - apply div_nonneg; lra.
  - apply div_le_bound; lra.
Qed.

Lemma sqrt_Num (x : R) : 0 <= x -> JS.sqrt (Num x) = Num (R_sqrt.sqrt x).
Proof. intros H. cbn. destruct (Rlt_dec x 0); [lra | reflexivity]. Qed.

(** ** The blur-check route *)

Lemma detectBlur_accepts (this : DocumentBlurDetector.t) (metadata : Metadata.t)
    (raw : Raw.t) :
  Spec.meets_minimum (DocumentBlurDetector.minDocumentSize this) metadata ->
  Raw.data raw <> [] ->
  let pixels := Raw.data raw in
  let isBlurry := (Num (Spec.variance_blur_score pixels)
                   <? DocumentBlurDetector.blurThreshold this)%js in
  DocumentBlurDetector.detectBlur this (Returned metadata) (Returned raw)
  = Returned
      {| DocumentBlurDetector.isBlurry := isBlurry;
         DocumentBlurDetector.blurScore := Num (Spec.variance_blur_score pixels);
         DocumentBlurDetector.quality :=
           {| DocumentBlurDetector.brightness := Num (Spec.mean pixels / 255);
              DocumentBlurDetector.contrast :=
                Num (R_sqrt.sqrt (Spec.population_variance pixels) / 255);
              DocumentBlurDetector.width := Metadata.width metadata;
              DocumentBlurDetector.height := Metadata.height metadata;
              DocumentBlurDetector.format := Metadata.format metadata;
              DocumentBlurDetector.size := Metadata.size metadata |};
         DocumentBlurDetector.threshold := DocumentBlurDetector.blurThreshold this;
         DocumentBlurDetector.recommendation :=
           if isBlurry
           then "Image is too blurry, please provide a clearer image"%string
           else "Image quality is acceptable"%string |}.
Proof.
  intros (w & h & Ew & Eh & Hw0 & Hh0 & Hw & Hh) Hne pixels isBlurry.
  unfold DocumentBlurDetector.detectBlur. cbn [bind rethrow].
  rewrite Ew, Eh. cbn [DocumentBlurDetector.missing DocumentBlurDetector.below].
  destruct (Z.eqb_spec w 0); [contradiction|].
  destruct (Z.eqb_spec h 0); [contradiction|].
  destruct (Z.ltb_spec w (Size.width (DocumentBlurDetector.minDocumentSize this)));
    [lia|].
  destruct (Z.ltb_spec h (Size.height (DocumentBlurDetector.minDocumentSize this)));
    [lia|].
  cbn [orb bind rethrow].
  rewrite calculateVariance_nonempty by assumption.
  rewrite mean_nonempty by assumption.
  rewrite variance_nonempty by assumption.
  assert (Hv : 0 <= Spec.population_variance (Raw.data raw)).
  { unfold Spec.population_variance.
    apply div_nonneg; [apply sumR_square_diffs_nonneg|].
    now apply INR_length_pos. }
  rewrite sqrt_Num by exact Hv.
  rewrite !div_Num by lra.
  cbn [JS.mul lift2]. rewrite div_Num by lra.
  reflexivity.
Qed.




(** C2 as stated fails on the readability path: an image of 200x200 is
    below the 400x400 minimum of the blur-check route, and
    [checkReadability] returns a result for it. *)
Lemma C2_readability_accepts_small_image :
  Spec.below_minimum
    (DocumentBlurDetector.minDocumentSize DocumentBlurDetector.route_detector)
    (Fixture.metadata_of 200 200)
  /\ exists result : ReadabilityResult,
       checkReadability route_checker
         (Fixture.collaborators (Fixture.uniform 128 200 200) 200 200
            "some text" 90)
       = Returned result.
Proof.
  split.
  - exists 200%Z, 200%Z. cbn. repeat split. lia.
  - eexists. reflexivity.
Qed.

(** C2 (amended): on the blur-check path, an image whose width or height
    is below the detector's minimum document size makes [detectBlur] throw
    an error whose message names the required minimum, whatever the pixel
    data are (they are not read).  The readability path has no such test:
    [checkReadability] returns a result whenever its collaborators return. *)
Theorem C2_resolution_check :
  (forall (this : DocumentBlurDetector.t) (metadata : Metadata.t)
          (raw : outcome Raw.t),
      Spec.below_minimum (DocumentBlurDetector.minDocumentSize this) metadata ->
      DocumentBlurDetector.detectBlur this (Returned metadata) raw
      = Threw ("Error analyzing image: Image resolution too low. Minimum required: "
               ++ show (Size.width (DocumentBlurDetector.minDocumentSize this))
               ++ "x"
               ++ show (Size.height (DocumentBlurDetector.minDocumentSize this))))
  /\ (forall (this : DocumentReadabilityChecker.t) (env : Collaborators),
         (exists b m r t c,
             preprocessImage env = Returned b /\ metadata env = Returned m
             /\ DocumentReadabilityChecker.raw env = Returned r
             /\ recognize env = Returned t
             /\ recognize_confidence env = Returned c) ->
         exists result : ReadabilityResult,
           checkReadability this env = Returned result).
Proof.
  split.
  - intros this metadata raw (w & h & Ew & Eh & Hsmall).
    unfold DocumentBlurDetector.detectBlur. cbn [bind].
    rewrite Ew, Eh. cbn [DocumentBlurDetector.missing DocumentBlurDetector.below].
    destruct (Z.eqb_spec w 0); destruct (Z.eqb_spec h 0);
      destruct (Z.ltb_spec w (Size.width (DocumentBlurDetector.minDocumentSize this)));
      destruct (Z.ltb_spec h (Size.height (DocumentBlurDetector.minDocumentSize this)));
      cbn [orb]; try lia; reflexivity.
  - intros this env (b & m & r & t & c & Eb & Em & Er & Et & Ec).
    unfold checkReadability. rewrite Eb, Em, Er, Et, Ec.
    eexists. reflexivity.
Qed.

Lemma C2_resolution_check_witness :
  DocumentBlurDetector.detectBlur DocumentBlurDetector.route_detector
    (Returned (Fixture.metadata_of 200 200)) (Threw "not decoded")
  = Threw "Error analyzing image: Image resolution too low. Minimum required: 400x400"
  /\ exists result : ReadabilityResult,
       checkReadability route_checker
         (Fixture.collaborators [10; 20; 30; 40]%Z 2 2 "two words" 90)
       = Returned result.
Proof.
  split.
  - apply (proj1 C2_resolution_check DocumentBlurDetector.route_detector
             (Fixture.metadata_of 200 200) (Threw "not decoded")).
    exists 200%Z, 200%Z. cbn. repeat split. lia.
  - apply (proj2 C2_resolution_check route_checker
             (Fixture.collaborators [10; 20; 30; 40]%Z 2 2 "two words" 90)).
    cbn. repeat eexists.
Defined.

(** ** The readability route's image analysis *)

Lemma analyzeImageQuality_inside (raw : Raw.t) :
  (3 <= Raw.width raw)%Z -> (3 <= Raw.height raw)%Z ->
  Z.of_nat (List.length (Raw.data raw)) = (Raw.width raw * Raw.height raw)%Z ->
  analyzeImageQuality (Returned raw)
  = Returned
      {| contrast := Num (R_sqrt.sqrt (Spec.population_variance (Raw.data raw)) / 255);
         blurScore :=
           Num (Spec.laplacian_blur_score (Raw.data raw) (Raw.width raw)
                  (Raw.height raw));
         brightness := Num (Spec.mean (Raw.data raw) / 255);
         resolution := (Raw.width raw * Raw.height raw)%Z |}.
Proof.
  intros Hw Hh Hlen.
  assert (Hne : Raw.data raw <> []).
  { intros E. rewrite E in Hlen. cbn in Hlen. nia. }
  unfold analyzeImageQuality. cbn [bind].
  rewrite mean_nonempty by assumption.
  rewrite variance_nonempty by assumption.
  rewrite calculateBlurScore_inside by assumption.
  assert (Hv : 0 <= Spec.population_variance (Raw.data raw)).
  { unfold Spec.population_variance.
    apply div_nonneg; [apply sumR_square_diffs_nonneg|].
    now apply INR_length_pos. }
  rewrite sqrt_Num by exact Hv.
  rewrite !div_Num by lra.
  reflexivity.
Qed.

Lemma in_unit_interval_Num (v : R) :
  0 <= v <= 1 -> Spec.in_unit_interval (Num v).
Proof. intros H. exists v. split; [reflexivity | exact H]. Qed.

Lemma brightness_bounds (l : Uint8Array) :
  well_formed l -> l <> [] -> 0 <= Spec.mean l / 255 <= 1.
Proof.
  intros Hwf Hne. pose proof (mean_bounds l Hwf Hne) as [Hlo Hhi].
  split; [apply div_nonneg | apply div_le_bound]; lra.
Qed.

(** C6: for a well-formed grayscale input, the brightness, the contrast
    and the blur score are real numbers of [0, 1]: on the blur-check path
    (global-variance estimator) for every accepted non-empty pixel array,
    and on the readability path (Laplacian estimator) for every row-major
    array of at least 3x3 pixels. *)
Theorem C6_scores_in_unit_interval :
  (forall (this : DocumentBlurDetector.t) (metadata : Metadata.t) (raw : Raw.t),
      Spec.meets_minimum (DocumentBlurDetector.minDocumentSize this) metadata ->
      Raw.data raw <> [] ->
      well_formed (Raw.data raw) ->
      exists result : DocumentBlurDetector.BlurResult,
        DocumentBlurDetector.detectBlur this (Returned metadata) (Returned raw)
        = Returned result
        /\ Spec.in_unit_interval
             (DocumentBlurDetector.brightness (DocumentBlurDetector.quality result))
        /\ Spec.in_unit_interval
             (DocumentBlurDetector.contrast (DocumentBlurDetector.quality result))
        /\ Spec.in_unit_interval (DocumentBlurDetector.blurScore result))
  /\ (forall raw : Raw.t,
         (3 <= Raw.width raw)%Z -> (3 <= Raw.height raw)%Z ->
         Z.of_nat (List.length (Raw.data raw))
         = (Raw.width raw * Raw.height raw)%Z ->
         well_formed (Raw.data raw) ->
         exists metrics : QualityMetrics,
           analyzeImageQuality (Returned raw) = Returned metrics
           /\ Spec.in_unit_interval (brightness metrics)
           /\ Spec.in_unit_interval (contrast metrics)
           /\ Spec.in_unit_interval (blurScore metrics)).
Proof.
  split.
  - intros this metadata raw Hdim Hne Hwf.
    eexists. split; [apply detectBlur_accepts; assumption|].
    cbn [DocumentBlurDetector.brightness DocumentBlurDetector.contrast
         DocumentBlurDetector.blurScore DocumentBlurDetector.quality].
    pose proof (brightness_bounds _ Hwf Hne).
    pose proof (sqrt_variance_bounds _ Hwf Hne).
    pose proof (variance_blur_score_bounds _ Hwf Hne).
    repeat split; apply in_unit_interval_Num; lra.
  - intros raw Hw Hh Hlen Hwf.
    assert (Hne : Raw.data raw <> []).
    { intros E. rewrite E in Hlen. cbn in Hlen. nia. }
    eexists. split; [apply analyzeImageQuality_inside; assumption|].
    cbn [brightness contrast blurScore].
    pose proof (brightness_bounds _ Hwf Hne).
    pose proof (sqrt_variance_bounds _ Hwf Hne).
    repeat split; apply in_unit_interval_Num; try lra.
    apply clamp_unit.
Qed.

(** ** The checkerboard image *)

Lemma range_snoc (lo hi : Z) :
  (lo <= hi)%Z -> range lo (hi + 1) = range lo hi ++ [hi].
Proof.
  intros H. unfold range.
  replace (Z.to_nat (hi + 1 - lo)) with (Z.to_nat (hi - lo) + 1)%nat by lia.
  rewrite seq_app, map_app. cbn. do 2 f_equal. lia.
Qed.

Lemma range_nth (lo hi : Z) (i : nat) (d : Z) :
  (Z.of_nat i < hi - lo)%Z -> nth i (range lo hi) d = (lo + Z.of_nat i)%Z.
Proof.
  intros H. unfold range.
  rewrite (nth_indep _ d (lo + Z.of_nat 0)%Z) by (rewrite length_map, length_seq; lia).
  rewrite (map_nth (fun i => (lo + Z.of_nat i)%Z)), seq_nth by lia.
  reflexivity.
Qed.

Lemma nth_flat_map_uniform {A B : Type} (f : A -> list B) (n : nat)
    (l : list A) (i j : nat) (a : A) (d : B) :
  (forall x, List.length (f x) = n) ->
  (j < n)%nat -> (i < List.length l)%nat ->
  nth (i * n + j) (flat_map f l) d = nth j (f (nth i l a)) d.
Proof.
  intros Hf Hj. revert i. induction l as [|x l IH]; intros i Hi.
  - cbn in Hi. lia.
  - cbn [flat_map]. destruct i as [|i].
    + cbn [Nat.mul Nat.add nth]. apply app_nth1. now rewrite Hf.
    + rewrite app_nth2 by (rewrite Hf; cbn; lia).
      rewrite Hf. replace (S i * n + j - n)%nat with (i * n + j)%nat by (cbn; lia).
      cbn [nth]. apply IH. cbn in Hi. lia.
Qed.

Lemma checkerboard_length (width height : Z) :
  (0 <= width)%Z -> (0 <= height)%Z ->
  Z.of_nat (List.length (Fixture.checkerboard width height))
  = (width * height)%Z.
Proof.
  intros Hw Hh. unfold Fixture.checkerboard.
  rewrite (flat_map_length_uniform _ (Z.to_nat width)).
  - rewrite range_length. nia.
  - intros y. rewrite length_map, range_length. f_equal. lia.
Qed.

Lemma checkerboard_pixel (width height x y : Z) :
  (0 <= x < width)%Z -> (0 <= y < height)%Z ->
  Spec.pixel (Fixture.checkerboard width height) width x y = Fixture.cell x y.
Proof.
  intros Hx Hy. unfold Spec.pixel, Fixture.checkerboard.
  replace (Z.to_nat (y * width + x))
    with (Z.to_nat y * Z.to_nat width + Z.to_nat x)%nat by nia.
  rewrite (nth_flat_map_uniform _ (Z.to_nat width) _ _ _ 0%Z).
  - rewrite range_nth by lia.
    rewrite (nth_indep _ 0%Z (Fixture.cell 0 (0 + Z.of_nat (Z.to_nat y))))
      by (rewrite length_map, range_length; lia).
    rewrite (map_nth (fun x => Fixture.cell x _)), range_nth by lia.
    f_equal; lia.
  - intros y'. rewrite length_map, range_length. f_equal. lia.
  - lia.
  - rewrite range_length. lia.
Qed.

Lemma checkerboard_well_formed (width height : Z) :
  well_formed (Fixture.checkerboard width height).
Proof.
  apply Forall_forall. intros v Hv. unfold Fixture.checkerboard in Hv.
  apply in_flat_map in Hv. destruct Hv as (y & _ & Hv).
  apply in_map_iff in Hv. destruct Hv as (x & <- & _).
  unfold Fixture.cell, is_uint8. destruct (Z.even (x + y)); lia.
Qed.

Lemma cell_values (x y : Z) :
  Fixture.cell x y = (255 * ((x + y) mod 2))%Z.
Proof.
  unfold Fixture.cell. rewrite Zeven_mod.
  destruct (Z.eqb_spec ((x + y) mod 2) 0) as [E|E]; [rewrite E; lia|].
  assert (0 <= (x + y) mod 2 < 2)%Z by (apply Z.mod_pos_bound; lia). lia.
Qed.

Lemma checkerboard_energy (width height x y : Z) :
  (1 <= x <= width - 2)%Z -> (1 <= y <= height - 2)%Z ->
  Z.abs (Spec.laplacian (Fixture.checkerboard width height) width x y) = 1020%Z.
Proof.
  intros Hx Hy. unfold Spec.laplacian.
  rewrite !checkerboard_pixel by lia. rewrite !cell_values.
  Z.div_mod_to_equations. lia.
Qed.

Lemma sumZ_constant {A : Type} (f : A -> Z) (c : Z) (l : list A) :
  Forall (fun a => f a = c) l ->
  Spec.sumZ (map f l) = (c * Z.of_nat (List.length l))%Z.
Proof.
  unfold Spec.sumZ. induction 1 as [|a l Ha _ IH]; cbn [map fold_right List.length].
  - lia.
  - rewrite IH, Ha. lia.
Qed.

Lemma interior_In (width height x y : Z) :
  In (x, y) (Spec.interior width height)
  <-> (1 <= x <= width - 2)%Z /\ (1 <= y <= height - 2)%Z.
Proof.
  unfold Spec.interior. rewrite in_flat_map. split.
  - intros (y' & Hy & H).
    apply in_map_iff in H. destruct H as (x' & E & Hx).
    inversion E; subst. apply range_In in Hx, Hy. lia.
  - intros [Hx Hy]. exists y. split; [apply range_In; lia|].
    apply in_map_iff. exists x. split; [reflexivity | apply range_In; lia].
Qed.

Lemma checkerboard_laplacian_blur_score (width height : Z) :
  (3 <= width)%Z -> (3 <= height)%Z ->
  calculateBlurScore (Fixture.checkerboard width height) width height = Num 0.
Proof.
  intros Hw Hh.
  rewrite calculateBlurScore_inside
    by (try apply checkerboard_length; lia).
  f_equal. unfold Spec.laplacian_blur_score, Spec.laplacianVariance.
  rewrite (sumZ_constant _ 1020%Z).
  2:{ apply Forall_forall. intros [x y] Hp. apply interior_In in Hp.
      unfold Spec.energy. cbn [fst snd]. apply checkerboard_energy; lia. }
  pose proof (interior_length width height ltac:(lia) ltac:(lia)) as Hn.
  assert (Hpos : 0 < INR (List.length (Spec.interior width height))).
  { apply lt_0_INR. nia. }
  rewrite mult_IZR, <- INR_IZR_INZ.
  replace (1020 * INR (List.length (Spec.interior width height))
           / INR (List.length (Spec.interior width height))) with 1020
    by (field; lra).
  unfold Spec.clamp, Rmax, Rmin. repeat destruct Rle_dec; lra.
Qed.

Lemma checkerboard_row_sum (y width : Z) :
  (0 <= width)%Z ->
  Spec.sumZ (map (fun x => Fixture.cell x y) (range 0 width))
  = (255 * ((width + y mod 2) / 2))%Z.
Proof.
  revert width. apply natlike_ind.
  - rewrite range_nil by lia. unfold Spec.sumZ. cbn [map fold_right].
    Z.div_mod_to_equations. lia.
  - intros w Hw IH. unfold Z.succ.
    rewrite range_snoc, map_app, sumZ_app, IH by lia.
    unfold Spec.sumZ. cbn [map fold_right]. rewrite cell_values.
    Z.div_mod_to_equations. lia.
Qed.

Lemma half_product_step (w h : Z) :
  (0 <= w)%Z -> (0 <= h)%Z ->
  ((w * (h + 1)) / 2 = (w * h) / 2 + (w + h mod 2) / 2)%Z.
Proof.
  intros Hw Hh.
  assert (E : (w * (h + 1) = w * h + w)%Z) by ring. rewrite E.
  assert (Bw : (0 <= w mod 2 < 2)%Z) by (apply Z.mod_pos_bound; lia).
  assert (Bh : (0 <= h mod 2 < 2)%Z) by (apply Z.mod_pos_bound; lia).
  assert (P : ((w * h) mod 2 = (w mod 2) * (h mod 2))%Z).
  { rewrite Z.mul_mod by lia. apply Z.mod_small. nia. }
  generalize dependent (w * h)%Z. intros p _ P.
  assert (C : ((w mod 2) * (h mod 2) = 0 /\ (w mod 2 = 0 \/ h mod 2 = 0)
              \/ (w mod 2 = 1 /\ h mod 2 = 1 /\ (w mod 2) * (h mod 2) = 1))%Z)
    by nia.
  Z.div_mod_to_equations. lia.
Qed.

Lemma checkerboard_sum (width height : Z) :
  (0 <= width)%Z -> (0 <= height)%Z ->
  Spec.sumZ (Fixture.checkerboard width height)
  = (255 * ((width * height) / 2))%Z.
Proof.
  intros Hw. revert height. apply natlike_ind.
  - rewrite Z.mul_0_r. reflexivity.
  - intros h Hh IH. unfold Z.succ. unfold Fixture.checkerboard in *.
    rewrite range_snoc, flat_map_app, sumZ_app, IH by lia.
    cbn [flat_map]. rewrite app_nil_r, checkerboard_row_sum by lia.
    rewrite (half_product_step width h) by lia. lia.
Qed.

Lemma sumR_IZR (l : list Z) : Spec.sumR (map IZR l) = IZR (Spec.sumZ l).
Proof.
  unfold Spec.sumR, Spec.sumZ. induction l as [|v l IH]; cbn; [reflexivity|].
  now rewrite plus_IZR, IH.
Qed.

Lemma checkerboard_sum_squares (width height : Z) :
  Spec.sumR (map (fun v => Rsqr (IZR v)) (Fixture.checkerboard width height))
  = 255 * Spec.sumR (map IZR (Fixture.checkerboard width height)).
Proof.
  assert (G : forall l : list Z,
             Forall (fun v => v = 0%Z \/ v = 255%Z) l ->
             Spec.sumR (map (fun v => Rsqr (IZR v)) l)
             = 255 * Spec.sumR (map IZR l)).
  { unfold Spec.sumR. induction 1 as [|v l Hv _ IH]; cbn [map fold_right].
    - lra.
    - rewrite IH. destruct Hv as [-> | ->]; unfold Rsqr; lra. }
  apply G. apply Forall_forall. intros v Hv.
  unfold Fixture.checkerboard in Hv.
  apply in_flat_map in Hv. destruct Hv as (y & _ & Hv).
  apply in_map_iff in Hv. destruct Hv as (x & <- & _).
  unfold Fixture.cell. destruct (Z.even (x + y)); auto.
Qed.

Section EvenCheckerboard.

Variables width height : Z.
Hypothesis width_pos : (0 < width)%Z.
Hypothesis height_pos : (0 < height)%Z.
Hypothesis even_size : ((width * height) mod 2 = 0)%Z.

Lemma checkerboard_nonempty : Fixture.checkerboard width height <> [].
Proof.
  intros E.
  pose proof (checkerboard_length width height ltac:(lia) ltac:(lia)) as H.
  rewrite E in H. cbn in H. nia.
Qed.

Lemma checkerboard_mean :
  Spec.mean (Fixture.checkerboard width height) = 255 / 2.
Proof.
  pose proof (INR_length_pos _ checkerboard_nonempty) as Hn.
  unfold Spec.mean. rewrite sumR_IZR, checkerboard_sum by lia.
  rewrite INR_IZR_INZ in *. rewrite checkerboard_length in * by lia.
  assert (E : (width * height = 2 * (width * height / 2))%Z)
    by (Z.div_mod_to_equations; lia).
  rewrite E at 2. rewrite E in Hn. rewrite !mult_IZR in *.
  field. lra.
Qed.

Lemma checkerboard_variance :
  Spec.population_variance (Fixture.checkerboard width height) = Rsqr (255 / 2).
Proof.
  pose proof (INR_length_pos _ checkerboard_nonempty) as Hn.
  rewrite population_variance_sums by apply checkerboard_nonempty.
  rewrite checkerboard_sum_squares.
  set (board := Fixture.checkerboard width height) in *.
  assert (E : Spec.sumR (map IZR board) = INR (List.length board) * Spec.mean board).
  { unfold Spec.mean. field. lra. }
  rewrite E. subst board. rewrite checkerboard_mean. unfold Rsqr. field. lra.
Qed.

Lemma checkerboard_variance_blur_score :
  Spec.variance_blur_score (Fixture.checkerboard width height) = 1 / 4.
Proof.
  unfold Spec.variance_blur_score. rewrite checkerboard_variance.
  unfold Rsqr. field.
Qed.

Lemma checkerboard_contrast :
  R_sqrt.sqrt (Spec.population_variance (Fixture.checkerboard width height)) / 255
  = 1 / 2.
Proof.
  rewrite checkerboard_variance, sqrt_Rsqr by lra. field.
Qed.

End EvenCheckerboard.

Lemma checkerboard_image_quality (width height : Z) :
  (3 <= width)%Z -> (3 <= height)%Z -> ((width * height) mod 2 = 0)%Z ->
  analyzeImageQuality
    (Returned (Fixture.raw_of (Fixture.checkerboard width height) width height))
  = Returned
      {| contrast := Num (1 / 2);
         blurScore := Num 0;
         brightness := Num (1 / 2);
         resolution := (width * height)%Z |}.
Proof.
  intros Hw Hh Heven.
  rewrite analyzeImageQuality_inside; cbn [Fixture.raw_of Raw.data Raw.width Raw.height];
    try lia; [|apply checkerboard_length; lia].
  rewrite checkerboard_contrast, checkerboard_mean by lia.
  rewrite <- calculateBlurScore_inside by (try apply checkerboard_length; lia).
  rewrite checkerboard_laplacian_blur_score by lia.
  do 2 f_equal. f_equal. field.
Qed.

(** The variance score of a checkerboard is within 1/324 of 1/4: of its
    [n >= 9] pixels, [n / 2] (rounded down) are white. *)
Lemma checkerboard_variance_blur_score_near (width height : Z) :
  (3 <= width)%Z -> (3 <= height)%Z ->
  Rabs (Spec.variance_blur_score (Fixture.checkerboard width height) - 1 / 4)
  <= 1 / 100.
Proof.
  intros Hw Hh.
  assert (Hne : Fixture.checkerboard width height <> [])
    by (apply checkerboard_nonempty; lia).
  pose proof (INR_length_pos _ Hne) as Hn.
  unfold Spec.variance_blur_score.
  rewrite population_variance_sums by exact Hne.
  rewrite checkerboard_sum_squares.
  unfold Spec.mean. rewrite sumR_IZR, checkerboard_sum by lia.
  rewrite INR_IZR_INZ in *. rewrite checkerboard_length in * by lia.
  assert (Hn9 : (9 <= width * height)%Z) by nia.
  assert (Hk : (2 * (width * height / 2) <= width * height
                <= 2 * (width * height / 2) + 1)%Z)
    by (Z.div_mod_to_equations; lia).
  rewrite mult_IZR.
  generalize dependent (width * height / 2)%Z. intros k Hk.
  generalize dependent (width * height)%Z. intros n Hn Hn9 Hk.
  apply IZR_le in Hn9. destruct Hk as [Hk1 Hk2].
  apply IZR_le in Hk1, Hk2.
  rewrite mult_IZR in Hk1. rewrite plus_IZR, mult_IZR in Hk2.
  set (x := IZR k) in *. set (y := IZR n) in *.
  set (d := (y - 2 * x) / (2 * y)).
  assert (Ed : d * (2 * y) = y - 2 * x) by (unfold d; field; lra).
  assert (Hd0 : 0 <= d) by (unfold d; apply div_nonneg; lra).
  assert (Hd1 : d <= 1 / 18) by nra.
  replace ((255 * (255 * x) / y - Rsqr (255 * x / y)) / (255 * 255) - 1 / 4)
    with (- (d * d)) by (unfold d, Rsqr; field; lra).
  rewrite Rabs_Ropp, Rabs_pos_eq by nra. nra.
Qed.

(** C7 (amended): for a checkerboard of at least 3x3 pixels the Laplacian
    estimator gives a blur score of exactly 0, and the global-variance
    estimator gives a blur score near 1/4 (within 1/100), which is not near
    1 (not within 1/2 of it). *)
Theorem C7_checkerboard_blur_scores :
  forall (this : DocumentBlurDetector.t) (width height : Z),
    (3 <= width)%Z -> (3 <= height)%Z ->
    Spec.meets_minimum (DocumentBlurDetector.minDocumentSize this)
      (Fixture.metadata_of width height) ->
    let board := Fixture.checkerboard width height in
    calculateBlurScore board width height = Num 0
    /\ exists result : DocumentBlurDetector.BlurResult,
         DocumentBlurDetector.detectBlur this
           (Returned (Fixture.metadata_of width height))
           (Returned (Fixture.raw_of board width height))
         = Returned result
         /\ Spec.near (1 / 100) (DocumentBlurDetector.blurScore result) (1 / 4)
         /\ ~ Spec.near (1 / 2) (DocumentBlurDetector.blurScore result) 1.
Proof.
  intros this width height Hw Hh Hdim board.
  split; [apply checkerboard_laplacian_blur_score; lia|].
  assert (Hne : board <> []) by (apply checkerboard_nonempty; lia).
  pose proof (checkerboard_variance_blur_score_near width height Hw Hh) as Hnear.
  fold board in Hnear.
  eexists. split; [apply detectBlur_accepts; assumption|].
  cbn [DocumentBlurDetector.blurScore Fixture.raw_of Raw.data].
  split.
  - eexists. split; [reflexivity | exact Hnear].
  - intros (v & E & Hv). injection E as <-.
    revert Hv Hnear. unfold Rabs. repeat destruct Rcase_abs; lra.
Qed.

(** C7 as stated fails for the global-variance estimator: on the 400x400
    checkerboard the blur-check route computes a blur score of 1/4, which
    is not within 1/2 of 1. *)
Lemma C7_variance_score_not_near_one :
  exists result : DocumentBlurDetector.BlurResult,
    DocumentBlurDetector.detectBlur DocumentBlurDetector.route_detector
      (Returned (Fixture.metadata_of 400 400))
      (Returned (Fixture.raw_of (Fixture.checkerboard 400 400) 400 400))
    = Returned result
    /\ DocumentBlurDetector.blurScore result = Num (1 / 4)
    /\ ~ Spec.near (1 / 2) (DocumentBlurDetector.blurScore result) 1.
Proof.
  assert (Hne : Fixture.checkerboard 400 400 <> [])
    by (apply checkerboard_nonempty; lia).
  eexists. split.
  - apply detectBlur_accepts; [|exact Hne].
    exists 400%Z, 400%Z. cbn. repeat split; lia.
  - cbn [DocumentBlurDetector.blurScore Fixture.raw_of Raw.data].
    rewrite checkerboard_variance_blur_score by (reflexivity || lia).
    split; [reflexivity|].
    intros (v & E & Hv). injection E as <-.
    replace (1 / 4 - 1) with (- (3 / 4)) in Hv by lra.
    rewrite Rabs_Ropp, Rabs_pos_eq in Hv by lra. lra.
Qed.

Lemma C7_checkerboard_blur_scores_witness :
  calculateBlurScore (Fixture.checkerboard 4 4) 4 4 = Num 0
  /\ exists result : DocumentBlurDetector.BlurResult,
       DocumentBlurDetector.detectBlur Fixture.small_detector
         (Returned (Fixture.metadata_of 4 4))
         (Returned (Fixture.raw_of (Fixture.checkerboard 4 4) 4 4))
       = Returned result
       /\ Spec.near (1 / 100) (DocumentBlurDetector.blurScore result) (1 / 4)
       /\ ~ Spec.near (1 / 2) (DocumentBlurDetector.blurScore result) 1.
Proof.
  apply (C7_checkerboard_blur_scores Fixture.small_detector 4 4); [lia | lia |].
  exists 4%Z, 4%Z. cbn. repeat split; lia.
Defined.

Lemma C6_scores_in_unit_interval_witness :
  (exists result : DocumentBlurDetector.BlurResult,
      DocumentBlurDetector.detectBlur Fixture.small_detector
        (Returned (Fixture.metadata_of 2 2))
        (Returned (Fixture.raw_of [0; 255; 255; 0]%Z 2 2))
      = Returned result
      /\ Spec.in_unit_interval
           (DocumentBlurDetector.brightness (DocumentBlurDetector.quality result))
      /\ Spec.in_unit_interval
           (DocumentBlurDetector.contrast (DocumentBlurDetector.quality result))
      /\ Spec.in_unit_interval (DocumentBlurDetector.blurScore result))
  /\ (exists metrics : QualityMetrics,
         analyzeImageQuality
           (Returned (Fixture.raw_of [10; 20; 30; 40; 50; 60; 70; 80; 90]%Z 3 3))
         = Returned metrics
         /\ Spec.in_unit_interval (brightness metrics)
         /\ Spec.in_unit_interval (contrast metrics)
         /\ Spec.in_unit_interval (blurScore metrics)).
Proof.
  split.
  - apply (proj1 C6_scores_in_unit_interval Fixture.small_detector
             (Fixture.metadata_of 2 2) (Fixture.raw_of [0; 255; 255; 0]%Z 2 2)).
    + exists 2%Z, 2%Z. cbn. repeat split; lia.
    + discriminate.
    + repeat constructor; lia.
  - apply (proj2 C6_scores_in_unit_interval
             (Fixture.raw_of [10; 20; 30; 40; 50; 60; 70; 80; 90]%Z 3 3)).
    + cbn. lia.
    + cbn. lia.
    + reflexivity.
    + repeat constructor; lia.
Defined.

Lemma C9_generateSuggestions_ordered_rules_witness :
  generateSuggestions route_checker (Num 86)
    {| contrast := Num 0.5; blurScore := Num 0; brightness := Num 0.5;
       resolution := 160000 |}
    (Num 90)
  = [].
Proof.
  apply (C9_generateSuggestions_ordered_rules route_checker (Num 86)
           {| contrast := Num 0.5; blurScore := Num 0; brightness := Num 0.5;
              resolution := 160000 |}
           (Num 90));
    js_numerals.
Defined.

(** ** The readability route on the checkerboard *)

Lemma fifty_words :
  List.length
    (filter (fun word => (0 <? List.length word)%nat)
            (split_whitespace (lit (Fixture.words 50))))
  = 50%nat.
Proof. vm_compute. reflexivity. Qed.

Lemma readability_of_checkerboard :
  calculateReadabilityScore (Num 90) (Num 0) (Num (1 / 2)) (of_Z 50) = Num 86.
Proof.
  unfold of_Z. rewrite readability_score_real. f_equal.
  unfold Spec.readability, Rmin. destruct Rle_dec; lra.
Qed.

(** C8: for the 400x400 checkerboard with a recognition confidence of 90
    and a text of 50 words, [checkReadability] computes a Laplacian blur
    score of 0 and a contrast of 1/2, hence a readability score of 86, which
    is at least 70, and sets [isReadable] to [true]. *)
Theorem C8_checkerboard_is_readable :
  exists result : ReadabilityResult,
    checkReadability route_checker
      (Fixture.collaborators (Fixture.checkerboard 400 400) 400 400
         (Fixture.words 50) 90)
    = Returned result
    /\ wordCount (details result) = 50%Z
    /\ confidenceScore (details result) = Num 90
    /\ blurScore (imageQuality (details result)) = Num 0
    /\ contrast (imageQuality (details result)) = Num (1 / 2)
    /\ readabilityScore result = Num 86
    /\ Spec.le (Num 70) (readabilityScore result)
    /\ isReadable result = true.
Proof.
  unfold checkReadability.
  cbn [Fixture.collaborators preprocessImage metadata raw recognize
       recognize_confidence bind calculateOCRConfidence].
  rewrite checkerboard_image_quality by (reflexivity || lia).
  cbn [bind rethrow blurScore contrast].
  rewrite fifty_words. change (Z.of_nat 50) with 50%Z.
  rewrite readability_of_checkerboard.
  eexists. split; [reflexivity|].
  cbn [wordCount confidenceScore details imageQuality blurScore contrast
       readabilityScore isReadable].
  repeat split; try reflexivity.
  - cbn. lra.
  - apply geb_Num. lra.
Qed.

(* ================================================================= *)
(** * Further properties of the two scorers *)

(** ** Affine changes of the intensities *)

Lemma pixel_map (f : Z -> Z) (pixels : Uint8Array) (width x y : Z) :
  (0 <= y * width + x < Z.of_nat (List.length pixels))%Z ->
  Spec.pixel (map f pixels) width x y = f (Spec.pixel pixels width x y).
Proof.
  intros H. unfold Spec.pixel.
  rewrite (nth_indep _ 0%Z (f 0%Z)) by (rewrite length_map; lia).
  apply map_nth.
Qed.

Lemma energy_affine (a c : Z) (pixels : Uint8Array) (width height x y : Z) :
  Z.of_nat (List.length pixels) = (width * height)%Z ->
  (1 <= x <= width - 2)%Z -> (1 <= y <= height - 2)%Z ->
  Spec.energy (map (fun v => a * v + c)%Z pixels) width (x, y)
  = (Z.abs a * Spec.energy pixels width (x, y))%Z.
Proof.
  intros Hlen Hx Hy. unfold Spec.energy, Spec.laplacian. cbn [fst snd].
  rewrite !pixel_map by nia.
  rewrite <- Z.abs_mul. f_equal. ring.
Qed.

Lemma sumZ_scale {A : Type} (f g : A -> Z) (k : Z) (l : list A) :
  (forall p, In p l -> f p = (k * g p)%Z) ->
  Spec.sumZ (map f l) = (k * Spec.sumZ (map g l))%Z.
Proof.
  unfold Spec.sumZ. induction l as [|p l IH]; intros H; cbn [map fold_right].
  - lia.
  - rewrite IH by (intros q Hq; apply H; now right).
    rewrite (H p) by now left. lia.
Qed.

Lemma laplacianVariance_affine (a c : Z) (pixels : Uint8Array) (width height : Z) :
  Z.of_nat (List.length pixels) = (width * height)%Z ->
  Spec.laplacianVariance (map (fun v => a * v + c)%Z pixels) width height
  = IZR (Z.abs a) * Spec.laplacianVariance pixels width height.
Proof.
  intros Hlen. unfold Spec.laplacianVariance.
  rewrite (sumZ_scale _ (Spec.energy pixels width) (Z.abs a)).
  - rewrite mult_IZR. unfold Rdiv. ring.
  - intros [x y] Hp. apply interior_In in Hp.
    apply (energy_affine a c pixels width height); tauto.
Qed.

Lemma sumR_affine (a c : Z) (l : Uint8Array) :
  Spec.sumR (map IZR (map (fun v => a * v + c)%Z l))
  = IZR a * Spec.sumR (map IZR l) + IZR c * INR (List.length l).
Proof.
  unfold Spec.sumR. induction l as [|v l IH].
  - cbn. lra.
  - cbn [map fold_right List.length]. rewrite S_INR, IH, plus_IZR, mult_IZR. lra.
Qed.

Lemma mean_affine (a c : Z) (l : Uint8Array) :
  l <> [] ->
  Spec.mean (map (fun v => a * v + c)%Z l) = IZR a * Spec.mean l + IZR c.
Proof.
  intros Hne. pose proof (INR_length_pos l Hne) as Hn.
  unfold Spec.mean. rewrite sumR_affine, length_map. field. lra.
Qed.

Lemma square_diffs_affine (a c : Z) (m : R) (l : Uint8Array) :
  Spec.sumR (map (fun v => Rsqr (IZR v - (IZR a * m + IZR c)))
                 (map (fun v => a * v + c)%Z l))
  = Rsqr (IZR a) * Spec.sumR (map (fun v => Rsqr (IZR v - m)) l).
Proof.
  unfold Spec.sumR. induction l as [|v l IH].
  - cbn. lra.
  - cbn [map fold_right]. rewrite IH, plus_IZR, mult_IZR. unfold Rsqr. ring.
Qed.

Lemma population_variance_affine (a c : Z) (l : Uint8Array) :
  l <> [] ->
  Spec.population_variance (map (fun v => a * v + c)%Z l)
  = Rsqr (IZR a) * Spec.population_variance l.
Proof.
  intros Hne. unfold Spec.population_variance.
  rewrite mean_affine by assumption.
  rewrite square_diffs_affine, length_map. unfold Rdiv. ring.
Qed.

Lemma population_variance_nonneg (l : Uint8Array) :
  l <> [] -> 0 <= Spec.population_variance l.
Proof.
  intros Hne. unfold Spec.population_variance.
  apply div_nonneg; [apply sumR_square_diffs_nonneg | now apply INR_length_pos].
Qed.

Lemma sqrt_variance_affine (a c : Z) (l : Uint8Array) :
  l <> [] ->
  R_sqrt.sqrt (Spec.population_variance (map (fun v => a * v + c)%Z l))
  = Rabs (IZR a) * R_sqrt.sqrt (Spec.population_variance l).
Proof.
  intros Hne. rewrite population_variance_affine by assumption.
  rewrite sqrt_mult_alt by apply Rle_0_sqr.
  now rewrite sqrt_Rsqr_abs.
Qed.

Lemma row_major_nonempty (pixels : Uint8Array) (width height : Z) :
  (3 <= width)%Z -> (3 <= height)%Z ->
  Z.of_nat (List.length pixels) = (width * height)%Z -> pixels <> [].
Proof. intros Hw Hh Hlen E. rewrite E in Hlen. cbn in Hlen. nia. Qed.

(** What [analyzeImageQuality] gives after the intensities went through
    [v => a * v + c]. *)
Lemma analyzeImageQuality_affine (a c : Z) (pixels : Uint8Array) (width height : Z) :
  (3 <= width)%Z -> (3 <= height)%Z ->
  Z.of_nat (List.length pixels) = (width * height)%Z ->
  analyzeImageQuality
    (Returned (Fixture.raw_of (map (fun v => a * v + c)%Z pixels) width height))
  = Returned
      {| contrast :=
           Num (Rabs (IZR a) * R_sqrt.sqrt (Spec.population_variance pixels) / 255);
         blurScore :=
           Num (Spec.clamp
                  (1 - IZR (Z.abs a) * Spec.laplacianVariance pixels width height / 255)
                  0 1);
         brightness := Num ((IZR a * Spec.mean pixels + IZR c) / 255);
         resolution := (width * height)%Z |}.
Proof.
  intros Hw Hh Hlen.
  pose proof (row_major_nonempty pixels width height Hw Hh Hlen) as Hne.
  rewrite analyzeImageQuality_inside;
    cbn [Fixture.raw_of Raw.data Raw.width Raw.height];
    try lia; [|now rewrite length_map].
  unfold Spec.laplacian_blur_score.
  rewrite sqrt_variance_affine, mean_affine, laplacianVariance_affine
    by assumption.
  reflexivity.
Qed.

(** What [detectBlur] gives after the intensities went through
    [v => a * v + c]. *)
Lemma detectBlur_affine (a c : Z) (this : DocumentBlurDetector.t)
    (metadata : Metadata.t) (pixels : Uint8Array) (width height : Z) :
  Spec.meets_minimum (DocumentBlurDetector.minDocumentSize this) metadata ->
  pixels <> [] ->
  exists result : DocumentBlurDetector.BlurResult,
    DocumentBlurDetector.detectBlur this (Returned metadata)
      (Returned (Fixture.raw_of (map (fun v => a * v + c)%Z pixels) width height))
    = Returned result
    /\ DocumentBlurDetector.blurScore result
       = Num (Rsqr (IZR a) * Spec.variance_blur_score pixels)
    /\ DocumentBlurDetector.isBlurry result
       = (Num (Rsqr (IZR a) * Spec.variance_blur_score pixels)
          <? DocumentBlurDetector.blurThreshold this)%js
    /\ DocumentBlurDetector.contrast (DocumentBlurDetector.quality result)
       = Num (Rabs (IZR a) * R_sqrt.sqrt (Spec.population_variance pixels) / 255)
    /\ DocumentBlurDetector.brightness (DocumentBlurDetector.quality result)
       = Num ((IZR a * Spec.mean pixels + IZR c) / 255).
Proof.
  intros Hdim Hne.
  assert (Hne' : map (fun v => a * v + c)%Z pixels <> [])
    by (destruct pixels; [contradiction | discriminate]).
  eexists. split.
  - apply detectBlur_accepts; [exact Hdim | exact Hne'].
  - cbn [DocumentBlurDetector.blurScore DocumentBlurDetector.isBlurry
         DocumentBlurDetector.contrast DocumentBlurDetector.brightness
         DocumentBlurDetector.quality Fixture.raw_of Raw.data].
    unfold Spec.variance_blur_score.
    rewrite sqrt_variance_affine, mean_affine, population_variance_affine
      by assumption.
    replace (Rsqr (IZR a) * Spec.population_variance pixels / (255 * 255))
      with (Rsqr (IZR a) * (Spec.population_variance pixels / (255 * 255)))
      by (unfold Rdiv; ring).
    repeat split; reflexivity.
Qed.

Lemma fold_left_ext_in {A B : Type} (f g : A -> B -> A) (l : list B) :
  (forall a b, In b l -> f a b = g a b) ->
  forall a, fold_left f l a = fold_left g l a.
Proof.
  induction l as [|b l IH]; intros H a; cbn; [reflexivity|].
  rewrite (H a b) by now left.
  apply IH. intros a' b' Hb. apply H. now right.
Qed.

(** An entry of the array after [f] went over the intensities. *)
Lemma get_map_cases (f : Z -> Z) (pixels : Uint8Array) (idx : Z) :
  (get pixels idx = NaN /\ get (map f pixels) idx = NaN)
  \/ (exists v : Z, get pixels idx = Num (IZR v)
                    /\ get (map f pixels) idx = Num (IZR (f v))).
Proof.
  unfold get. destruct (idx <? 0)%Z; [now left|].
  rewrite nth_error_map.
  destruct (nth_error pixels (Z.to_nat idx)) as [v|]; cbn [option_map];
    [right; now exists v | now left].
Qed.

(** A change of the intensities that keeps the size of every Laplacian
    keeps every term that the loop adds up. *)
Lemma laplacian_body_map (f : Z -> Z) (pixels : Uint8Array) (width y : Z)
    (acc : accumulator) (x : Z) :
  (forall v0 v1 v2 v3 v4 : Z,
      Z.abs (f v0 * 4 - f v1 - f v2 - f v3 - f v4)
      = Z.abs (v0 * 4 - v1 - v2 - v3 - v4)) ->
  laplacian_body (map f pixels) width y acc x
  = laplacian_body pixels width y acc x.
Proof.
  intros Hf. unfold laplacian_body. destruct acc as [laplacianSum count].
  set (idx := (y * width + x)%Z).
  f_equal. f_equal.
  destruct (get_map_cases f pixels idx) as [[E0 E0'] | (v0 & E0 & E0')],
    (get_map_cases f pixels (idx - 1)) as [[E1 E1'] | (v1 & E1 & E1')],
    (get_map_cases f pixels (idx + 1)) as [[E2 E2'] | (v2 & E2 & E2')],
    (get_map_cases f pixels (idx - width)) as [[E3 E3'] | (v3 & E3 & E3')],
    (get_map_cases f pixels (idx + width)) as [[E4 E4'] | (v4 & E4 & E4')];
    rewrite E0, E0', E1, E1', E2, E2', E3, E3', E4, E4';
    cbn [JS.mul JS.sub JS.abs lift1 lift2]; try reflexivity.
  f_equal. rewrite <- !mult_IZR, <- !minus_IZR, <- !abs_IZR.
  f_equal. apply Hf.
Qed.

Lemma calculateBlurScore_map (f : Z -> Z) (pixels : Uint8Array) (width height : Z) :
  (forall v0 v1 v2 v3 v4 : Z,
      Z.abs (f v0 * 4 - f v1 - f v2 - f v3 - f v4)
      = Z.abs (v0 * 4 - v1 - v2 - v3 - v4)) ->
  calculateBlurScore (map f pixels) width height
  = calculateBlurScore pixels width height.
Proof.
  intros Hf. unfold calculateBlurScore, laplacian_loop.
  rewrite (fold_left_ext_in (laplacian_row (map f pixels) width)
             (laplacian_row pixels width)); [reflexivity|].
  intros acc y _. unfold laplacian_row. apply fold_left_ext_in.
  intros acc' x _. now apply laplacian_body_map.
Qed.

(** X1: the Laplacian blur score does not see the brightness.  Adding a
    constant [c] to every intensity (the intensities being in 0..255 before
    and after) leaves [calculateBlurScore] unchanged, whatever the
    dimensions and the length of the array, and with it the [blurScore]
    that [analyzeImageQuality] reports. *)
Theorem X1_brightness_shift :
  forall (pixels : Uint8Array) (width height c : Z),
    let shifted := map (fun v => v + c)%Z pixels in
    well_formed pixels -> well_formed shifted ->
    calculateBlurScore shifted width height
    = calculateBlurScore pixels width height
    /\ exists before after : QualityMetrics,
         analyzeImageQuality (Returned (Fixture.raw_of pixels width height))
         = Returned before
         /\ analyzeImageQuality (Returned (Fixture.raw_of shifted width height))
            = Returned after
         /\ blurScore after = blurScore before.
Proof.
  intros pixels width height c shifted _ _.
  assert (E : calculateBlurScore shifted width height
              = calculateBlurScore pixels width height).
  { apply calculateBlurScore_map. intros. f_equal. ring. }
  split; [exact E|].
  do 2 eexists. split; [reflexivity|]. split; [reflexivity|].
  cbn [blurScore Fixture.raw_of Raw.data Raw.width Raw.height]. exact E.
Qed.

Lemma X1_brightness_shift_witness :
  calculateBlurScore
    (map (fun v => v + 100)%Z [10; 20; 30; 40; 50; 60; 70; 80; 90]%Z) 3 3
  = calculateBlurScore [10; 20; 30; 40; 50; 60; 70; 80; 90]%Z 3 3
  /\ exists before after : QualityMetrics,
       analyzeImageQuality
         (Returned (Fixture.raw_of [10; 20; 30; 40; 50; 60; 70; 80; 90]%Z 3 3))
       = Returned before
       /\ analyzeImageQuality
            (Returned
               (Fixture.raw_of
                  (map (fun v => v + 100)%Z [10; 20; 30; 40; 50; 60; 70; 80; 90]%Z)
                  3 3))
          = Returned after
       /\ blurScore after = blurScore before.
Proof.
  apply (X1_brightness_shift [10; 20; 30; 40; 50; 60; 70; 80; 90]%Z 3 3 100);
    cbn [map]; repeat constructor; lia.
Defined.

(** X2: the Laplacian blur score of the negative.  The negative of an
    image of intensities in 0..255 ([v => 255 - v]) is such an image, and
    it gets the same [calculateBlurScore], whatever the dimensions and the
    length of the array; so [analyzeImageQuality] reports the same
    [blurScore] for both. *)
Theorem X2_negative_image :
  forall (pixels : Uint8Array) (width height : Z),
    let negative := map (fun v => 255 - v)%Z pixels in
    well_formed pixels ->
    well_formed negative
    /\ calculateBlurScore negative width height
       = calculateBlurScore pixels width height
    /\ exists before after : QualityMetrics,
         analyzeImageQuality (Returned (Fixture.raw_of pixels width height))
         = Returned before
         /\ analyzeImageQuality (Returned (Fixture.raw_of negative width height))
            = Returned after
         /\ blurScore after = blurScore before.
Proof.
  intros pixels width height negative Hwf.
  assert (E : calculateBlurScore negative width height
              = calculateBlurScore pixels width height).
  { apply calculateBlurScore_map. intros. lia. }
  split; [|split; [exact E|]].
  - subst negative. unfold well_formed in *. apply Forall_map.
    eapply Forall_impl; [|exact Hwf]. unfold is_uint8. intros v Hv. lia.
  - do 2 eexists. split; [reflexivity|]. split; [reflexivity|].
    cbn [blurScore Fixture.raw_of Raw.data Raw.width Raw.height]. exact E.
Qed.

Lemma X2_negative_image_witness :
  well_formed (map (fun v => 255 - v)%Z [10; 20; 30; 40; 50; 60; 70; 80; 90]%Z)
  /\ calculateBlurScore
       (map (fun v => 255 - v)%Z [10; 20; 30; 40; 50; 60; 70; 80; 90]%Z) 3 3
     = calculateBlurScore [10; 20; 30; 40; 50; 60; 70; 80; 90]%Z 3 3
  /\ exists before after : QualityMetrics,
       analyzeImageQuality
         (Returned (Fixture.raw_of [10; 20; 30; 40; 50; 60; 70; 80; 90]%Z 3 3))
       = Returned before
       /\ analyzeImageQuality
            (Returned
               (Fixture.raw_of
                  (map (fun v => 255 - v)%Z [10; 20; 30; 40; 50; 60; 70; 80; 90]%Z)
                  3 3))
          = Returned after
       /\ blurScore after = blurScore before.
Proof.
  apply (X2_negative_image [10; 20; 30; 40; 50; 60; 70; 80; 90]%Z 3 3).
  repeat constructor; lia.
Defined.

Lemma uniform_as_affine (v width height : Z) :
  Fixture.uniform v width height
  = map (fun x => 0 * x + v)%Z (Fixture.uniform 0 width height).
Proof. unfold Fixture.uniform. now rewrite map_repeat. Qed.

Lemma uniform_length (v width height : Z) :
  (0 <= width * height)%Z ->
  Z.of_nat (List.length (Fixture.uniform v width height)) = (width * height)%Z.
Proof. intros H. unfold Fixture.uniform. rewrite repeat_length. lia. Qed.

(** X3: an image of one constant intensity [v] has contrast 0 on both
    paths; the Laplacian estimator gives it the blur score 1 (maximal
    blur), the global-variance estimator the blur score 0, so that
    [detectBlur] flags it as blurry exactly when the threshold is
    positive. *)
Theorem X3_uniform_image :
  forall (this : DocumentBlurDetector.t) (metadata : Metadata.t)
         (v width height : Z),
    (3 <= width)%Z -> (3 <= height)%Z ->
    Spec.meets_minimum (DocumentBlurDetector.minDocumentSize this) metadata ->
    let image := Fixture.raw_of (Fixture.uniform v width height) width height in
    (exists metrics : QualityMetrics,
        analyzeImageQuality (Returned image) = Returned metrics
        /\ contrast metrics = Num 0
        /\ blurScore metrics = Num 1
        /\ brightness metrics = Num (IZR v / 255))
    /\ (exists result : DocumentBlurDetector.BlurResult,
           DocumentBlurDetector.detectBlur this (Returned metadata) (Returned image)
           = Returned result
           /\ DocumentBlurDetector.blurScore result = Num 0
           /\ DocumentBlurDetector.contrast (DocumentBlurDetector.quality result)
              = Num 0
           /\ DocumentBlurDetector.isBlurry result
              = (Num 0 <? DocumentBlurDetector.blurThreshold this)%js).
Proof.
  intros this metadata v width height Hw Hh Hdim image. subst image.
  assert (Hlen : Z.of_nat (List.length (Fixture.uniform 0 width height))
                 = (width * height)%Z) by (apply uniform_length; nia).
  pose proof (row_major_nonempty _ width height Hw Hh Hlen) as Hne.
  rewrite uniform_as_affine. split.
  - eexists. split; [apply analyzeImageQuality_affine; assumption|].
    cbn [contrast blurScore brightness]. rewrite Rabs_R0. cbn [Z.abs].
    repeat split; f_equal.
    + unfold Rdiv. ring.
    + replace (1 - 0 * Spec.laplacianVariance (Fixture.uniform 0 width height)
                         width height / 255) with 1 by (unfold Rdiv; ring).
      unfold Spec.clamp, Rmax, Rmin. repeat destruct Rle_dec; lra.
    + unfold Rdiv. ring.
  - destruct (detectBlur_affine 0 v this metadata _ width height Hdim Hne)
      as (result & E & Hs & Hb & Hc & _).
    exists result. split; [exact E|].
    rewrite Hs, Hb, Hc, Rabs_R0. unfold Rsqr.
    replace (0 * 0 * Spec.variance_blur_score (Fixture.uniform 0 width height))
      with 0 by ring.
    repeat split. f_equal. unfold Rdiv. ring.
Qed.

Lemma X3_uniform_image_witness :
  (exists metrics : QualityMetrics,
      analyzeImageQuality
        (Returned (Fixture.raw_of (Fixture.uniform 128 3 3) 3 3))
      = Returned metrics
      /\ contrast metrics = Num 0
      /\ blurScore metrics = Num 1
      /\ brightness metrics = Num (IZR 128 / 255))
  /\ (exists result : DocumentBlurDetector.BlurResult,
         DocumentBlurDetector.detectBlur Fixture.small_detector
           (Returned (Fixture.metadata_of 3 3))
           (Returned (Fixture.raw_of (Fixture.uniform 128 3 3) 3 3))
         = Returned result
         /\ DocumentBlurDetector.blurScore result = Num 0
         /\ DocumentBlurDetector.contrast (DocumentBlurDetector.quality result)
            = Num 0
         /\ DocumentBlurDetector.isBlurry result
            = (Num 0 <? DocumentBlurDetector.blurThreshold Fixture.small_detector)%js).
Proof.
  apply (X3_uniform_image Fixture.small_detector (Fixture.metadata_of 3 3) 128 3 3);
    [lia | lia |].
  exists 3%Z, 3%Z. cbn. repeat split; lia.
Defined.

(** ** Outcomes of the blur check *)

Lemma size_check_spec (minimum : Size.t) (metadata : Metadata.t) :
  DocumentBlurDetector.missing (Metadata.width metadata)
  || DocumentBlurDetector.missing (Metadata.height metadata)
  || DocumentBlurDetector.below (Metadata.width metadata) (Size.width minimum)
  || DocumentBlurDetector.below (Metadata.height metadata) (Size.height minimum)
  = false
  <-> Spec.meets_minimum minimum metadata.
Proof.
  unfold Spec.meets_minimum, DocumentBlurDetector.missing,
    DocumentBlurDetector.below.
  destruct (Metadata.width metadata) as [w|], (Metadata.height metadata) as [h|].
  - split.
    + intros H. apply orb_false_elim in H. destruct H as [H H4].
      apply orb_false_elim in H. destruct H as [H H3].
      apply orb_false_elim in H. destruct H as [H1 H2].
      exists w, h. rewrite Z.eqb_neq in H1, H2. rewrite Z.ltb_ge in H3, H4.
      repeat split; assumption.
    + intros (w' & h' & Ew & Eh & Hw0 & Hh0 & Hw & Hh).
      injection Ew as <-. injection Eh as <-.
      apply Z.eqb_neq in Hw0, Hh0. apply Z.ltb_ge in Hw, Hh.
      now rewrite Hw0, Hh0, Hw, Hh.
  - split.
    + destruct (w =? 0)%Z, (w <? Size.width minimum)%Z; discriminate.
    + intros (w' & h' & _ & Eh & _). discriminate.
  - split.
    + discriminate.
    + intros (w' & h' & Ew & _). discriminate.
  - split.
    + discriminate.
    + intros (w' & h' & Ew & _). discriminate.
Qed.

(** X5: the outcomes of [detectBlur].  It throws exactly when reading the
    metadata throws, when the metadata lack a dimension or give one that
    is 0 or below the minimum, or when decoding the pixels throws; every
    message it throws starts with "Error analyzing image: " followed by the
    cause; otherwise it returns a result. *)
Theorem X5_detectBlur_outcomes :
  forall (this : DocumentBlurDetector.t) (metadata : outcome Metadata.t)
         (raw : outcome Raw.t),
    let minimum := DocumentBlurDetector.minDocumentSize this in
    let run := DocumentBlurDetector.detectBlur this metadata raw in
    (forall cause, metadata = Threw cause ->
                   run = Threw ("Error analyzing image: " ++ cause))
    /\ (forall m, metadata = Returned m -> ~ Spec.meets_minimum minimum m ->
                  run = Threw ("Error analyzing image: "
                               ++ DocumentBlurDetector.resolution_message minimum))
    /\ (forall m cause, metadata = Returned m -> Spec.meets_minimum minimum m ->
                        raw = Threw cause ->
                        run = Threw ("Error analyzing image: " ++ cause))
    /\ (forall m r, metadata = Returned m -> Spec.meets_minimum minimum m ->
                    raw = Returned r ->
                    exists result, run = Returned result)
    /\ (forall message, run = Threw message ->
                        exists cause, message = ("Error analyzing image: " ++ cause)%string).
Proof.
  intros this metadata raw minimum run. subst run minimum.
  unfold DocumentBlurDetector.detectBlur.
  repeat split.
  - intros cause ->. reflexivity.
  - intros m -> Hno. cbn [bind].
    destruct (_ || _ || _ || _) eqn:E; [reflexivity|].
    apply size_check_spec in E. contradiction.
  - intros m cause -> Hok ->. cbn [bind].
    apply size_check_spec in Hok. rewrite Hok. reflexivity.
  - intros m r -> Hok ->. cbn [bind].
    apply size_check_spec in Hok. rewrite Hok. cbn [bind rethrow].
    eexists. reflexivity.
  - intros message.
    destruct metadata as [cause|m]; cbn [bind rethrow].
    + intros E. injection E as <-. now exists cause.
    + destruct (_ || _ || _ || _).
      * intros E. injection E as <-. eexists. reflexivity.
      * destruct raw as [cause|r]; cbn [bind rethrow].
        -- intros E. injection E as <-. now exists cause.
        -- discriminate.
Qed.

Lemma X5_detectBlur_outcomes_witness :
  DocumentBlurDetector.detectBlur DocumentBlurDetector.route_detector
    (Threw "Input buffer contains unsupported image format")
    (Threw "Input buffer contains unsupported image format")
  = Threw "Error analyzing image: Input buffer contains unsupported image format"
  /\ DocumentBlurDetector.detectBlur DocumentBlurDetector.route_detector
       (Returned {| Metadata.width := Some 1000%Z; Metadata.height := None;
                    Metadata.format := None; Metadata.size := None |})
       (Returned (Fixture.raw_of [1; 2; 3; 4]%Z 2 2))
     = Threw "Error analyzing image: Image resolution too low. Minimum required: 400x400"
  /\ DocumentBlurDetector.detectBlur Fixture.small_detector
       (Returned (Fixture.metadata_of 2 2)) (Threw "out of memory")
     = Threw "Error analyzing image: out of memory"
  /\ exists result,
       DocumentBlurDetector.detectBlur Fixture.small_detector
         (Returned (Fixture.metadata_of 2 2))
         (Returned (Fixture.raw_of [1; 2; 3; 4]%Z 2 2))
       = Returned result.
Proof.
  assert (Hok : Spec.meets_minimum
                  (DocumentBlurDetector.minDocumentSize Fixture.small_detector)
                  (Fixture.metadata_of 2 2))
    by (exists 2%Z, 2%Z; cbn; repeat split; lia).
  split; [|split; [|split]].
  - apply (X5_detectBlur_outcomes DocumentBlurDetector.route_detector
             (Threw "Input buffer contains unsupported image format")
             (Threw "Input buffer contains unsupported image format")).
    reflexivity.
  - apply (proj1 (proj2 (X5_detectBlur_outcomes DocumentBlurDetector.route_detector
             (Returned {| Metadata.width := Some 1000%Z; Metadata.height := None;
                          Metadata.format := None; Metadata.size := None |})
             (Returned (Fixture.raw_of [1; 2; 3; 4]%Z 2 2))))
             {| Metadata.width := Some 1000%Z; Metadata.height := None;
                Metadata.format := None; Metadata.size := None |}).
    + reflexivity.
    + intros (w & h & _ & E & _). discriminate.
  - apply (proj1 (proj2 (proj2 (X5_detectBlur_outcomes Fixture.small_detector
             (Returned (Fixture.metadata_of 2 2)) (Threw "out of memory"))))
             (Fixture.metadata_of 2 2) "out of memory"%string);
      [reflexivity | exact Hok | reflexivity].
  - apply (proj1 (proj2 (proj2 (proj2 (X5_detectBlur_outcomes Fixture.small_detector
             (Returned (Fixture.metadata_of 2 2))
             (Returned (Fixture.raw_of [1; 2; 3; 4]%Z 2 2))))))
             (Fixture.metadata_of 2 2) (Fixture.raw_of [1; 2; 3; 4]%Z 2 2));
      [reflexivity | exact Hok | reflexivity].
Defined.

(** ** Which entries the Laplacian loop reads *)

(** The loop reads the entries of index 1 to [width * height - 2] only. *)
Lemma laplacian_loop_ext (p q : Uint8Array) (width height : Z) :
  (forall idx, (1 <= idx <= width * height - 2)%Z -> get p idx = get q idx) ->
  laplacian_loop p width height = laplacian_loop q width height.
Proof.
  intros H. unfold laplacian_loop.
  apply fold_left_ext_in. intros acc y Hy. apply range_In in Hy.
  unfold laplacian_row. apply fold_left_ext_in. intros acc' x Hx.
  apply range_In in Hx. unfold laplacian_body. destruct acc' as [s c].
  rewrite !(H _) by nia. reflexivity.
Qed.

Lemma calculateBlurScore_ext (p q : Uint8Array) (width height : Z) :
  (forall idx, (1 <= idx <= width * height - 2)%Z -> get p idx = get q idx) ->
  calculateBlurScore p width height = calculateBlurScore q width height.
Proof.
  intros H. unfold calculateBlurScore.
  now rewrite (laplacian_loop_ext p q width height H).
Qed.

Lemma get_outside (pixels : Uint8Array) (idx : Z) :
  (Z.of_nat (List.length pixels) <= idx)%Z -> get pixels idx = NaN.
Proof.
  intros H. unfold get. destruct (Z.ltb_spec idx 0); [reflexivity|].
  destruct (nth_error pixels (Z.to_nat idx)) eqn:E; [|reflexivity].
  assert (nth_error pixels (Z.to_nat idx) <> None) by congruence.
  apply nth_error_Some in H1. lia.
Qed.

(** An undefined lower neighbour makes the accumulated sum [NaN]. *)
Lemma laplacian_body_undefined (pixels : Uint8Array) (width y x : Z)
    (acc : accumulator) :
  get pixels (y * width + x + width) = NaN ->
  fst (laplacian_body pixels width y acc x) = NaN.
Proof.
  intros H. unfold laplacian_body. destruct acc as [s c]. rewrite H.
  cbn [fst].
  assert (Hsub : forall a : number, (a - NaN)%js = NaN) by (now intros [|a]).
  assert (Hadd : forall a : number, (a + NaN)%js = NaN) by (now intros [|a]).
  rewrite Hsub. cbn [JS.abs lift1]. apply Hadd.
Qed.

Lemma laplacian_loop_short (pixels : Uint8Array) (width height : Z) :
  (3 <= width)%Z -> (3 <= height)%Z ->
  (Z.of_nat (List.length pixels) < width * height - 1)%Z ->
  fst (laplacian_loop pixels width height) = NaN.
Proof.
  intros Hw Hh Hlen. unfold laplacian_loop.
  replace (height - 1)%Z with (height - 2 + 1)%Z by lia.
  rewrite range_snoc, fold_left_app by lia. cbn [fold_left].
  unfold laplacian_row at 1.
  replace (width - 1)%Z with (width - 2 + 1)%Z by lia.
  rewrite range_snoc, fold_left_app by lia. cbn [fold_left].
  apply laplacian_body_undefined. apply get_outside. nia.
Qed.

Lemma calculateBlurScore_short (pixels : Uint8Array) (width height : Z) :
  (3 <= width)%Z -> (3 <= height)%Z ->
  (Z.of_nat (List.length pixels) < width * height - 1)%Z ->
  calculateBlurScore pixels width height = NaN.
Proof.
  intros Hw Hh Hlen. unfold calculateBlurScore.
  pose proof (laplacian_loop_short pixels width height Hw Hh Hlen) as H.
  destruct (laplacian_loop pixels width height) as [s c]. cbn [fst] in H.
  subst s. reflexivity.
Qed.

Lemma calculateBlurScore_long (pixels : Uint8Array) (width height : Z) :
  (3 <= width)%Z -> (3 <= height)%Z ->
  (width * height - 1 <= Z.of_nat (List.length pixels))%Z ->
  Spec.in_unit_interval (calculateBlurScore pixels width height).
Proof.
  intros Hw Hh Hlen.
  set (n := Z.to_nat (width * height)).
  set (q := firstn n (pixels ++ [0%Z])).
  assert (Hq : Z.of_nat (List.length q) = (width * height)%Z).
  { subst q. rewrite firstn_length_le; [subst n; nia|].
    rewrite length_app. cbn [List.length]. subst n. nia. }
  rewrite (calculateBlurScore_ext pixels q width height).
  - rewrite calculateBlurScore_inside by assumption.
    apply in_unit_interval_Num, clamp_unit.
  - intros idx Hidx. unfold get.
    destruct (Z.ltb_spec idx 0); [reflexivity|].
    subst q. rewrite nth_error_firstn.
    destruct (Nat.ltb_spec (Z.to_nat idx) n); [|subst n; nia].
    rewrite nth_error_app1 by nia. reflexivity.
Qed.

(** X6: for [width >= 3] and [height >= 3], [calculateBlurScore] reads the
    entries of index 1 to [width * height - 2] and no others: arrays that
    agree there get the same score.  Hence the score is a real number of
    [0, 1] when the array has at least [width * height - 1] entries
    (whatever follows is ignored) and [NaN] when it has fewer. *)
Theorem X6_calculateBlurScore_entries_read :
  forall (pixels : Uint8Array) (width height : Z),
    (3 <= width)%Z -> (3 <= height)%Z ->
    (forall other : Uint8Array,
        (forall idx, (1 <= idx <= width * height - 2)%Z ->
                     get pixels idx = get other idx) ->
        calculateBlurScore pixels width height
        = calculateBlurScore other width height)
    /\ ((width * height - 1 <= Z.of_nat (List.length pixels))%Z ->
        Spec.in_unit_interval (calculateBlurScore pixels width height))
    /\ ((Z.of_nat (List.length pixels) < width * height - 1)%Z ->
        calculateBlurScore pixels width height = NaN).
Proof.
  intros pixels width height Hw Hh. split; [|split].
  - intros other H. now apply calculateBlurScore_ext.
  - now apply calculateBlurScore_long.
  - now apply calculateBlurScore_short.
Qed.

Lemma X6_calculateBlurScore_entries_read_witness :
  calculateBlurScore [10; 20; 30; 40; 50; 60; 70; 80; 90]%Z 3 3
  = calculateBlurScore [0; 20; 30; 40; 50; 60; 70; 80; 255; 7; 7]%Z 3 3
  /\ Spec.in_unit_interval
       (calculateBlurScore [10; 20; 30; 40; 50; 60; 70; 80]%Z 3 3)
  /\ calculateBlurScore [10; 20; 30; 40; 50; 60; 70]%Z 3 3 = NaN.
Proof.
  split; [|split].
  - apply (X6_calculateBlurScore_entries_read
             [10; 20; 30; 40; 50; 60; 70; 80; 90]%Z 3 3); [lia | lia |].
    intros idx Hidx.
    assert (idx = 1 \/ idx = 2 \/ idx = 3 \/ idx = 4 \/ idx = 5 \/ idx = 6
            \/ idx = 7)%Z as Hcases by lia.
    repeat (destruct Hcases as [-> | Hcases]; [reflexivity|]).
    subst idx. reflexivity.
  - apply (X6_calculateBlurScore_entries_read
             [10; 20; 30; 40; 50; 60; 70; 80]%Z 3 3); [lia | lia |].
    cbn. lia.
  - apply (X6_calculateBlurScore_entries_read
             [10; 20; 30; 40; 50; 60; 70]%Z 3 3); [lia | lia |].
    cbn. lia.
Defined.

(** The loop reads every interior pixel and its four neighbours only. *)
Lemma laplacian_loop_ext_neighbours (p q : Uint8Array) (width height : Z) :
  (forall x y, (1 <= x <= width - 2)%Z -> (1 <= y <= height - 2)%Z ->
               get p (y * width + x) = get q (y * width + x)
               /\ get p (y * width + x - 1) = get q (y * width + x - 1)
               /\ get p (y * width + x + 1) = get q (y * width + x + 1)
               /\ get p (y * width + x - width) = get q (y * width + x - width)
               /\ get p (y * width + x + width) = get q (y * width + x + width)) ->
  laplacian_loop p width height = laplacian_loop q width height.
Proof.
  intros H. unfold laplacian_loop.
  apply fold_left_ext_in. intros acc y Hy. apply range_In in Hy.
  unfold laplacian_row. apply fold_left_ext_in. intros acc' x Hx.
  apply range_In in Hx. unfold laplacian_body. destruct acc' as [s c].
  destruct (H x y ltac:(lia) ltac:(lia)) as (E0 & E1 & E2 & E3 & E4).
  now rewrite E0, E1, E2, E3, E4.
Qed.

(** X7: the four corner pixels of the image never influence the Laplacian
    blur score: two arrays that agree on every index of
    [0 .. width * height - 1] other than the four corners get the same
    score. *)
Theorem X7_corners_do_not_matter :
  forall (p q : Uint8Array) (width height : Z),
    (3 <= width)%Z -> (3 <= height)%Z ->
    (forall idx,
        (0 <= idx < width * height)%Z ->
        idx <> 0%Z -> idx <> (width - 1)%Z ->
        idx <> ((height - 1) * width)%Z -> idx <> (width * height - 1)%Z ->
        get p idx = get q idx) ->
    calculateBlurScore p width height = calculateBlurScore q width height.
Proof.
  intros p q width height Hw Hh H. unfold calculateBlurScore.
  rewrite (laplacian_loop_ext_neighbours p q width height); [reflexivity|].
  intros x y Hx Hy.
  assert (B1 : (width <= y * width)%Z) by nia.
  assert (B2 : (y * width <= (height - 2) * width)%Z) by nia.
  assert (B3 : ((height - 1) * width = (height - 2) * width + width)%Z) by ring.
  assert (B4 : (width * height = (height - 2) * width + 2 * width)%Z) by ring.
  assert (B5 : (y = 1 \/ 2 * width <= y * width)%Z) by nia.
  assert (B6 : (y = height - 2 \/ y * width <= (height - 2) * width - width)%Z)
    by nia.
  repeat split; apply H; destruct B5 as [-> | B5], B6 as [B6 | B6]; lia.
Qed.

Lemma X7_corners_do_not_matter_witness :
  calculateBlurScore [10; 20; 30; 40; 50; 60; 70; 80; 90]%Z 3 3
  = calculateBlurScore [255; 20; 0; 40; 50; 60; 1; 80; 2]%Z 3 3.
Proof.
  apply X7_corners_do_not_matter; [lia | lia |].
  intros idx Hidx H0 H2 H6 H8.
  assert (idx = 1 \/ idx = 3 \/ idx = 4 \/ idx = 5 \/ idx = 7)%Z as Hcases by lia.
  repeat (destruct Hcases as [-> | Hcases]; [reflexivity|]).
  subst idx. reflexivity.
Defined.

(** ** The readability score *)

(** X8: for a confidence in [0, 100], a blur score and a contrast in
    [0, 1] and a word count that is not negative, the readability score is
    a real number of [0, 100]. *)
Theorem X8_readability_score_range :
  forall c b k w : R,
    0 <= c <= 100 -> 0 <= b <= 1 -> 0 <= k <= 1 -> 0 <= w ->
    exists s : R,
      calculateReadabilityScore (Num c) (Num b) (Num k) (Num w) = Num s
      /\ 0 <= s <= 100.
Proof.
  intros c b k w Hc Hb Hk Hw. rewrite readability_score_real.
  eexists. split; [reflexivity|].
  unfold Spec.readability, Rmin. destruct Rle_dec; lra.
Qed.

Lemma X8_readability_score_range_witness :
  exists s : R,
    calculateReadabilityScore (Num 90) (Num 0) (Num 0.5) (Num 50) = Num s
    /\ 0 <= s <= 100.
Proof. apply X8_readability_score_range; lra. Defined.

(** X9: the word count contributes one point per word up to ten words and
    nothing beyond: the score is the score for no words plus
    [min(wordCount, 10)], so all texts of ten words or more score alike. *)
Theorem X9_word_count_saturates :
  forall c b k w : R,
    exists s0 : R,
      calculateReadabilityScore (Num c) (Num b) (Num k) (Num 0) = Num s0
      /\ calculateReadabilityScore (Num c) (Num b) (Num k) (Num w)
         = Num (s0 + Rmin w 10)
      /\ (10 <= w ->
          calculateReadabilityScore (Num c) (Num b) (Num k) (Num w)
          = calculateReadabilityScore (Num c) (Num b) (Num k) (Num 10)).
Proof.
  intros c b k w. rewrite !readability_score_real.
  eexists. split; [reflexivity|]. split.
  - f_equal. unfold Spec.readability, Rmin. repeat destruct Rle_dec; lra.
  - intros Hw. f_equal. unfold Spec.readability, Rmin.
    repeat destruct Rle_dec; lra.
Qed.

Lemma X9_word_count_saturates_witness :
  calculateReadabilityScore (Num 90) (Num 0) (Num 0.5) (Num 50)
  = calculateReadabilityScore (Num 90) (Num 0) (Num 0.5) (Num 10).
Proof.
  destruct (X9_word_count_saturates 90 0 0.5 50) as (s0 & _ & _ & H).
  apply H. lra.
Defined.

(** ** Outcomes of the readability check *)

Lemma generateSuggestions_rules (this : DocumentReadabilityChecker.t)
    (s : number) (q : QualityMetrics) (conf : number) :
  generateSuggestions this s q conf
  = Spec.when (s <? Num 50)%js msg_poor
    ++ Spec.when (negb (s <? Num 50)%js && (s <? Num 70)%js) msg_improve
    ++ Spec.when (blurScore q >? blurThreshold this)%js msg_blurry
    ++ Spec.when (contrast q <? Num 0.4)%js msg_contrast
    ++ Spec.when ((brightness q <? Num 0.3)%js || (brightness q >? Num 0.8)%js)
         msg_brightness
    ++ Spec.when (conf <? minConfidence this)%js msg_confidence.
Proof.
  unfold generateSuggestions, push.
  destruct (s <? Num 50)%js, (s <? Num 70)%js,
    (blurScore q >? blurThreshold this)%js, (contrast q <? Num 0.4)%js,
    (brightness q <? Num 0.3)%js, (brightness q >? Num 0.8)%js,
    (conf <? minConfidence this)%js; reflexivity.
Qed.

(** What [checkReadability] returns when every collaborator returns. *)
Lemma checkReadability_returns (this : DocumentReadabilityChecker.t)
    (env : Collaborators) (u : unit) (m : Metadata.t) (r : Raw.t)
    (ocrResult : utf16) (ocrMatch : option R) (q : QualityMetrics) :
  preprocessImage env = Returned u ->
  metadata env = Returned m ->
  DocumentReadabilityChecker.raw env = Returned r ->
  recognize env = Returned ocrResult ->
  recognize_confidence env = Returned ocrMatch ->
  analyzeImageQuality (Returned r) = Returned q ->
  let confidence := match ocrMatch with Some c => Num c | None => Num 0 end in
  let words := Z.of_nat (List.length
                           (filter (fun word => (0 <? List.length word)%nat)
                                   (split_whitespace ocrResult))) in
  let score := calculateReadabilityScore confidence (blurScore q) (contrast q)
                 (of_Z words) in
  checkReadability this env
  = Returned
      {| isReadable := (score >=? Num 70)%js;
         readabilityScore := score;
         details :=
           {| wordCount := words;
              confidenceScore := confidence;
              imageQuality := q;
              details_metadata :=
                {| width := Metadata.width m;
                   height := Metadata.height m;
                   format := Metadata.format m |} |};
         text := ocrResult;
         suggestions := generateSuggestions this score q confidence |}.
Proof.
  intros Eu Em Er Et Ec Eq confidence words score.
  unfold checkReadability. rewrite Eu, Em, Er, Et, Ec, Eq. reflexivity.
Qed.

Lemma readability_confidence_bound :
  forall (this : DocumentReadabilityChecker.t) (env : Collaborators)
         (u : unit) (m : Metadata.t) (r : Raw.t) (ocrResult : utf16)
         (ocrMatch : option R),
    preprocessImage env = Returned u ->
    metadata env = Returned m ->
    DocumentReadabilityChecker.raw env = Returned r ->
    recognize env = Returned ocrResult ->
    recognize_confidence env = Returned ocrMatch ->
    (3 <= Raw.width r)%Z -> (3 <= Raw.height r)%Z ->
    Z.of_nat (List.length (Raw.data r)) = (Raw.width r * Raw.height r)%Z ->
    well_formed (Raw.data r) ->
    exists (result : ReadabilityResult) (s c : R),
      checkReadability this env = Returned result
      /\ readabilityScore result = Num s
      /\ confidenceScore (details result) = Num c
      /\ s <= 0.4 * c + 50
      /\ (isReadable result = true -> ocrMatch = Some c /\ 50 <= c)
      /\ (ocrMatch = None -> isReadable result = false).
Proof.
  intros this env u m r ocrResult ocrMatch Eu Em Er Et Ec Hw Hh Hlen Hwf.
  pose proof (row_major_nonempty _ _ _ Hw Hh Hlen) as Hne.
  pose proof (analyzeImageQuality_inside r Hw Hh Hlen) as Eq.
  pose proof (checkReadability_returns this env u m r ocrResult ocrMatch _
                Eu Em Er Et Ec Eq) as E.
  cbn zeta in E. cbn [blurScore contrast] in E.
  pose proof (sqrt_variance_bounds _ Hwf Hne) as Hk.
  pose proof (clamp_unit (1 - Spec.laplacianVariance (Raw.data r) (Raw.width r)
                                (Raw.height r) / 255)) as Hb.
  fold (Spec.laplacian_blur_score (Raw.data r) (Raw.width r) (Raw.height r)) in Hb.
  set (c := match ocrMatch with Some c => c | None => 0 end).
  assert (Ecf : match ocrMatch with Some c => Num c | None => Num 0 end = Num c)
    by (subst c; now destruct ocrMatch).
  rewrite Ecf in E. unfold of_Z in E. rewrite readability_score_real in E.
  match type of E with
  | _ = Returned {| isReadable := _; readabilityScore := Num ?v;
                    details := _; text := _; suggestions := _ |} =>
      set (s := v) in *
  end.
  assert (Hs : s <= 0.4 * c + 50).
  { subst s. unfold Spec.readability.
    pose proof (Rmin_r (IZR (Z.of_nat
       (List.length (filter (fun word => (0 <? List.length word)%nat)
                            (split_whitespace ocrResult)))) / 10 * 100) 100).
    lra. }
  eexists. exists s, c. split; [exact E|].
  cbn [readabilityScore confidenceScore details isReadable].
  repeat split; try assumption.
  - subst c. destruct ocrMatch; [reflexivity|].
    apply geb_Num in H. lra.
  - apply geb_Num in H. subst c. destruct ocrMatch; lra.
  - intros ->. subst c.
    destruct (Num s >=? Num 70)%js eqn:G; [|reflexivity].
    apply geb_Num in G. lra.
Qed.

(** X10: without a sufficient confidence figure a document is never
    reported as readable.  On an image of intensities in 0..255 of at least
    3x3 pixels, the blur, contrast and word-count factors contribute 50
    points at most and 70 are needed; so [checkReadability] sets
    [isReadable] to [false] when the recognition output carries no
    confidence figure (the confidence is then 0), and when it carries one of
    at most 49. *)
Theorem X10_readable_needs_confidence :
  forall (this : DocumentReadabilityChecker.t) (env : Collaborators)
         (u : unit) (m : Metadata.t) (r : Raw.t) (ocrResult : utf16)
         (ocrMatch : option R),
    preprocessImage env = Returned u ->
    metadata env = Returned m ->
    DocumentReadabilityChecker.raw env = Returned r ->
    recognize env = Returned ocrResult ->
    recognize_confidence env = Returned ocrMatch ->
    (3 <= Raw.width r)%Z -> (3 <= Raw.height r)%Z ->
    Z.of_nat (List.length (Raw.data r)) = (Raw.width r * Raw.height r)%Z ->
    well_formed (Raw.data r) ->
    exists result : ReadabilityResult,
      checkReadability this env = Returned result
      /\ (ocrMatch = None ->
          confidenceScore (details result) = Num 0
          /\ isReadable result = false)
      /\ (forall c : R,
             ocrMatch = Some c -> c <= 49 -> isReadable result = false).
Proof.
  intros this env u m r ocrResult ocrMatch Eu Em Er Et Ec Hw Hh Hlen Hwf.
  destruct (readability_confidence_bound this env u m r ocrResult ocrMatch
              Eu Em Er Et Ec Hw Hh Hlen Hwf)
    as (result & s & c & E & _ & Econf & _ & Hreadable & Hnone).
  exists result. split; [exact E|]. split.
  - intros Enone. split; [|now apply Hnone].
    pose proof (checkReadability_returns this env u m r ocrResult ocrMatch _
                  Eu Em Er Et Ec (analyzeImageQuality_inside r Hw Hh Hlen)) as E'.
    cbn zeta in E'. rewrite E in E'. injection E' as ->.
    cbn [confidenceScore details]. now rewrite Enone.
  - intros c' Esome Hc'.
    destruct (isReadable result) eqn:G; [|reflexivity].
    destruct (Hreadable eq_refl) as [Ec' Hc].
    rewrite Esome in Ec'. injection Ec' as ->. lra.
Qed.

Lemma X10_readable_needs_confidence_witness :
  exists result : ReadabilityResult,
    checkReadability route_checker
      (Fixture.collaborators [10; 20; 30; 40; 50; 60; 70; 80; 90]%Z 3 3
         "two words" 49)
    = Returned result
    /\ isReadable result = false.
Proof.
  destruct (X10_readable_needs_confidence route_checker
              (Fixture.collaborators [10; 20; 30; 40; 50; 60; 70; 80; 90]%Z 3 3
                 "two words" 49)
              tt (Fixture.metadata_of 3 3)
              (Fixture.raw_of [10; 20; 30; 40; 50; 60; 70; 80; 90]%Z 3 3)
              (lit "two words") (Some 49)
              eq_refl eq_refl eq_refl eq_refl eq_refl
              ltac:(cbn; lia) ltac:(cbn; lia) eq_refl
              ltac:(repeat constructor; lia))
    as (result & E & _ & H).
  exists result. split; [exact E|]. apply (H 49); [reflexivity | lra].
Defined.

Lemma messages_distinct :
  NoDup [msg_poor; msg_improve; msg_blurry; msg_contrast; msg_brightness;
         msg_confidence].
Proof.
  repeat constructor; cbn; intros H;
    repeat (destruct H as [H | H]; [discriminate H|]); exact H.
Qed.

Lemma subsequence_In {A : Type} (l1 l2 : list A) (x : A) :
  Spec.subsequence l1 l2 -> In x l1 -> In x l2.
Proof.
  induction 1 as [| y l1 l2 _ IH | y l1 l2 _ IH]; cbn; intros H.
  - exact H.
  - right. now apply IH.
  - destruct H as [H | H]; [now left | right; now apply IH].
Qed.

Lemma subsequence_NoDup {A : Type} (l1 l2 : list A) :
  Spec.subsequence l1 l2 -> NoDup l2 -> NoDup l1.
Proof.
  induction 1 as [| y l1 l2 Hs IH | y l1 l2 Hs IH]; intros Hnd.
  - constructor.
  - inversion Hnd; subst. now apply IH.
  - inversion Hnd; subst. constructor; [|now apply IH].
    intros Hin. apply (subsequence_In _ _ _ Hs) in Hin. contradiction.
Qed.

Lemma suggestions_subsequence (this : DocumentReadabilityChecker.t)
    (s : number) (q : QualityMetrics) (conf : number) :
  Spec.subsequence (generateSuggestions this s q conf)
    [msg_poor; msg_improve; msg_blurry; msg_contrast; msg_brightness;
     msg_confidence].
Proof.
  rewrite generateSuggestions_rules.
  repeat (apply subsequence_when with (l1 := _ ++ _)
          || apply subsequence_when with (l1 := Spec.when _ _)).
  rewrite <- (app_nil_r (Spec.when _ _)).
  apply subsequence_when. constructor.
Qed.

(** X11: whatever its inputs, [generateSuggestions] gives no message
    twice, never gives both the poor-quality and the could-be-improved
    message, and so gives at most five messages. *)
Theorem X11_suggestions_shape :
  forall (this : DocumentReadabilityChecker.t) (readabilityScore : number)
         (qualityMetrics : QualityMetrics) (confidenceScore : number),
    let suggestions :=
      generateSuggestions this readabilityScore qualityMetrics confidenceScore in
    NoDup suggestions
    /\ ~ (In msg_poor suggestions /\ In msg_improve suggestions)
    /\ (List.length suggestions <= 5)%nat.
Proof.
  intros this s q conf suggestions. split; [|split].
  - apply (subsequence_NoDup _ _ (suggestions_subsequence this s q conf)).
    apply messages_distinct.
  - subst suggestions. rewrite generateSuggestions_rules.
    destruct (s <? Num 50)%js; cbn [negb andb Spec.when app].
    + intros [_ [H | H]]; [discriminate H|].
      rewrite !in_app_iff in H. unfold Spec.when in H.
      repeat match type of H with
             | _ \/ _ => destruct H as [H | H]
             | In _ (if ?b then _ else _) => destruct b
             | In _ [_] => destruct H as [H | H]; [discriminate H|]
             | In _ [] => exact H
             end.
    + intros [H _]. rewrite !in_app_iff in H. unfold Spec.when in H.
      repeat match type of H with
             | _ \/ _ => destruct H as [H | H]
             | In _ (if ?b then _ else _) => destruct b
             | In _ [_] => destruct H as [H | H]; [discriminate H|]
             | In _ [] => exact H
             end.
  - subst suggestions. rewrite generateSuggestions_rules. unfold Spec.when.
    rewrite !length_app.
    destruct (s <? Num 50)%js, (s <? Num 70)%js,
      (blurScore q >? blurThreshold this)%js, (contrast q <? Num 0.4)%js,
      ((brightness q <? Num 0.3)%js || (brightness q >? Num 0.8)%js),
      (conf <? minConfidence this)%js; cbn; lia.
Qed.

(** What a returned result says about itself. *)
Lemma checkReadability_result (this : DocumentReadabilityChecker.t)
    (env : Collaborators) (result : ReadabilityResult) :
  checkReadability this env = Returned result ->
  isReadable result = (readabilityScore result >=? Num 70)%js
  /\ suggestions result
     = generateSuggestions this (readabilityScore result)
         (imageQuality (details result)) (confidenceScore (details result))
  /\ readabilityScore result
     = calculateReadabilityScore (confidenceScore (details result))
         (blurScore (imageQuality (details result)))
         (contrast (imageQuality (details result)))
         (of_Z (wordCount (details result)))
  /\ analyzeImageQuality (DocumentReadabilityChecker.raw env)
     = Returned (imageQuality (details result))
  /\ recognize env = Returned (text result).
Proof.
  unfold checkReadability.
  destruct (preprocessImage env) as [e|u]; [discriminate|].
  destruct (metadata env) as [e|m]; [discriminate|].
  cbn [bind]. destruct (analyzeImageQuality (DocumentReadabilityChecker.raw env))
    as [e|q]; [discriminate|].
  cbn [bind]. destruct (recognize env) as [e|ocrResult]; [discriminate|].
  cbn [bind]. destruct (recognize_confidence env) as [e|ocrMatch]; [discriminate|].
  cbn [bind calculateOCRConfidence rethrow].
  intros E. injection E as <-. cbn. repeat split; reflexivity.
Qed.

Lemma later_messages_not_generic (a b c d : bool) :
  let rest := Spec.when a msg_blurry ++ Spec.when b msg_contrast
              ++ Spec.when c msg_brightness ++ Spec.when d msg_confidence in
  ~ In msg_poor rest /\ ~ In msg_improve rest /\ (a = false -> ~ In msg_blurry rest).
Proof.
  destruct a, b, c, d; cbn; repeat split; intros H; try discriminate;
    repeat (destruct H as [H | H]; [discriminate H|]); try exact H;
    intros H'; repeat (destruct H' as [H' | H']; [discriminate H'|]); exact H'.
Qed.

(** X12: in every result of [checkReadability], [isReadable] and the
    suggestions agree.  A readable document gets neither the poor-quality
    nor the could-be-improved message; a document that is not readable and
    has a real score gets one of the two as its first suggestion; with a
    [NaN] score the document is not readable and gets neither. *)
Theorem X12_readable_agrees_with_suggestions :
  forall (this : DocumentReadabilityChecker.t) (env : Collaborators)
         (result : ReadabilityResult),
    checkReadability this env = Returned result ->
    (isReadable result = true ->
     ~ In msg_poor (suggestions result) /\ ~ In msg_improve (suggestions result))
    /\ (forall s : R,
           readabilityScore result = Num s ->
           (isReadable result = true <-> 70 <= s)
           /\ (isReadable result = false ->
               exists rest,
                 suggestions result = msg_poor :: rest
                 \/ suggestions result = msg_improve :: rest))
    /\ (readabilityScore result = NaN ->
        isReadable result = false
        /\ ~ In msg_poor (suggestions result)
        /\ ~ In msg_improve (suggestions result)).
Proof.
  intros this env result E.
  destruct (checkReadability_result this env result E) as (Hr & Hs & _).
  rewrite Hs, generateSuggestions_rules, Hr.
  pose proof (later_messages_not_generic
                (blurScore (imageQuality (details result)) >? blurThreshold this)%js
                (contrast (imageQuality (details result)) <? Num 0.4)%js
                ((brightness (imageQuality (details result)) <? Num 0.3)%js
                 || (brightness (imageQuality (details result)) >? Num 0.8)%js)
                (confidenceScore (details result) <? minConfidence this)%js)
    as (Hp & Hi & _).
  cbn zeta in Hp, Hi.
  destruct (readabilityScore result) as [|s]; split; [| split | | split].
  - discriminate.
  - discriminate.
  - intros _. cbn [JS.ltb JS.geb negb andb Spec.when app]. tauto.
  - intros G. apply geb_Num in G.
    assert (E50 : (Num s <? Num 50)%js = false).
    { destruct (Num s <? Num 50)%js eqn:L; [apply ltb_Num in L; lra | reflexivity]. }
    assert (E70 : (Num s <? Num 70)%js = false).
    { destruct (Num s <? Num 70)%js eqn:L; [apply ltb_Num in L; lra | reflexivity]. }
    rewrite E50, E70. cbn [negb andb Spec.when app]. tauto.
  - intros s' Es. injection Es as <-. split; [apply geb_Num|].
    intros G.
    assert (H70 : s < 70).
    { destruct (Rlt_dec s 70) as [L|L]; [exact L|].
      assert ((Num s >=? Num 70)%js = true) by (apply geb_Num; lra). congruence. }
    destruct (Num s <? Num 50)%js eqn:L; cbn [negb andb Spec.when app].
    + eexists. left. reflexivity.
    + assert (E70 : (Num s <? Num 70)%js = true) by (now apply ltb_Num).
      rewrite E70. cbn [Spec.when app]. eexists. right. reflexivity.
  - discriminate.
Qed.

Lemma X12_readable_agrees_with_suggestions_witness :
  exists result : ReadabilityResult,
    checkReadability route_checker
      (Fixture.collaborators [10; 20; 30; 40; 50; 60; 70; 80; 90]%Z 3 3
         "two words" 90)
    = Returned result
    /\ (isReadable result = true ->
        ~ In msg_poor (suggestions result)
        /\ ~ In msg_improve (suggestions result)).
Proof.
  eexists. split; [reflexivity|].
  apply (X12_readable_agrees_with_suggestions route_checker
           (Fixture.collaborators [10; 20; 30; 40; 50; 60; 70; 80; 90]%Z 3 3
              "two words" 90)).
  reflexivity.
Defined.

Lemma readability_score_undefined_blur (c k w : number) :
  calculateReadabilityScore c NaN k w = NaN.
Proof. destruct c; reflexivity. Qed.

Lemma suggestions_undefined_score (this : DocumentReadabilityChecker.t)
    (q : QualityMetrics) (conf : number) :
  blurScore q = NaN ->
  ~ In msg_poor (generateSuggestions this NaN q conf)
  /\ ~ In msg_improve (generateSuggestions this NaN q conf)
  /\ ~ In msg_blurry (generateSuggestions this NaN q conf).
Proof.
  intros Hq. rewrite generateSuggestions_rules, Hq.
  assert (G : (NaN >? blurThreshold this)%js = false)
    by (unfold JS.gtb, JS.ltb; now destruct (blurThreshold this)).
  rewrite G.
  change (NaN <? Num 50)%js with false. change (NaN <? Num 70)%js with false.
  cbn [negb andb].
  pose proof (later_messages_not_generic false
                (contrast q <? Num 0.4)%js
                ((brightness q <? Num 0.3)%js || (brightness q >? Num 0.8)%js)
                (conf <? minConfidence this)%js) as (Hp & Hi & Hb).
  cbn zeta in Hp, Hi, Hb.
  set (rest := Spec.when false msg_blurry ++ _) in *.
  cbn [Spec.when app]. auto.
Qed.

(** X13: an image that is at most 2 pixels wide or high is not rejected by
    [checkReadability].  Its blur score and its readability score are
    [NaN], it is reported as not readable, and its suggestions contain
    neither of the two general messages nor the blur message. *)
Theorem X13_narrow_image :
  forall (this : DocumentReadabilityChecker.t) (env : Collaborators)
         (u : unit) (m : Metadata.t) (r : Raw.t) (ocrResult : utf16)
         (ocrMatch : option R),
    preprocessImage env = Returned u ->
    metadata env = Returned m ->
    DocumentReadabilityChecker.raw env = Returned r ->
    recognize env = Returned ocrResult ->
    recognize_confidence env = Returned ocrMatch ->
    (Raw.width r <= 2 \/ Raw.height r <= 2)%Z ->
    exists result : ReadabilityResult,
      checkReadability this env = Returned result
      /\ blurScore (imageQuality (details result)) = NaN
      /\ readabilityScore result = NaN
      /\ isReadable result = false
      /\ ~ In msg_poor (suggestions result)
      /\ ~ In msg_improve (suggestions result)
      /\ ~ In msg_blurry (suggestions result).
Proof.
  intros this env u m r ocrResult ocrMatch Eu Em Er Et Ec Hsmall.
  assert (Hb : calculateBlurScore (Raw.data r) (Raw.width r) (Raw.height r) = NaN).
  { unfold calculateBlurScore. rewrite laplacian_loop_empty by assumption.
    cbn. destruct (Req_dec_T 0 0); [reflexivity | lra]. }
  eexists. split.
  - eapply checkReadability_returns; try eassumption.
    unfold analyzeImageQuality. cbn [bind]. reflexivity.
  - cbn [blurScore imageQuality details readabilityScore isReadable suggestions].
    rewrite Hb, readability_score_undefined_blur.
    split; [reflexivity|]. split; [reflexivity|]. split; [reflexivity|].
    apply suggestions_undefined_score. reflexivity.
Qed.

Lemma X13_narrow_image_witness :
  exists result : ReadabilityResult,
    checkReadability route_checker
      (Fixture.collaborators [10; 20; 30; 40]%Z 2 2 "two words" 90)
    = Returned result
    /\ blurScore (imageQuality (details result)) = NaN
    /\ readabilityScore result = NaN
    /\ isReadable result = false
    /\ ~ In msg_poor (suggestions result)
    /\ ~ In msg_improve (suggestions result)
    /\ ~ In msg_blurry (suggestions result).
Proof.
  apply (X13_narrow_image route_checker
           (Fixture.collaborators [10; 20; 30; 40]%Z 2 2 "two words" 90)
           tt (Fixture.metadata_of 2 2) (Fixture.raw_of [10; 20; 30; 40]%Z 2 2)
           (lit "two words") (Some 90));
    try reflexivity.
  cbn. lia.
Defined.

(** X14: the outcomes of [checkReadability].  The collaborators are asked
    in the order preprocessing, metadata, pixels, recognition, confidence;
    the first one that throws decides the message, which is
    "Failed to analyze document readability: " followed by the cause.  When
    none throws, a result is returned.  Every message thrown starts with
    that prefix. *)
Theorem X14_checkReadability_outcomes :
  forall (this : DocumentReadabilityChecker.t) (env : Collaborators),
    let run := checkReadability this env in
    let failed cause :=
      run = Threw ("Failed to analyze document readability: " ++ cause) in
    (forall e, preprocessImage env = Threw e -> failed e)
    /\ (forall u e, preprocessImage env = Returned u ->
                    metadata env = Threw e -> failed e)
    /\ (forall u m e, preprocessImage env = Returned u ->
                      metadata env = Returned m ->
                      DocumentReadabilityChecker.raw env = Threw e -> failed e)
    /\ (forall u m r e, preprocessImage env = Returned u ->
                        metadata env = Returned m ->
                        DocumentReadabilityChecker.raw env = Returned r ->
                        recognize env = Threw e -> failed e)
    /\ (forall u m r t e, preprocessImage env = Returned u ->
                          metadata env = Returned m ->
                          DocumentReadabilityChecker.raw env = Returned r ->
                          recognize env = Returned t ->
                          recognize_confidence env = Threw e -> failed e)
    /\ (forall u m r t c, preprocessImage env = Returned u ->
                          metadata env = Returned m ->
                          DocumentReadabilityChecker.raw env = Returned r ->
                          recognize env = Returned t ->
                          recognize_confidence env = Returned c ->
                          exists result, run = Returned result)
    /\ (forall message, run = Threw message ->
          exists cause,
            message = ("Failed to analyze document readability: " ++ cause)%string).
Proof.
  intros this env run failed. subst run failed. unfold checkReadability.
  repeat split.
  - intros e ->. reflexivity.
  - intros u e -> ->. reflexivity.
  - intros u m e -> -> ->. reflexivity.
  - intros u m r e -> -> -> ->. reflexivity.
  - intros u m r t e -> -> -> -> ->. reflexivity.
  - intros u m r t c -> -> -> -> ->. eexists. reflexivity.
  - intros message.
    destruct (preprocessImage env) as [e|u];
      [intros E; injection E as <-; now exists e|].
    destruct (metadata env) as [e|m];
      [intros E; injection E as <-; now exists e|].
    destruct (DocumentReadabilityChecker.raw env) as [e|r];
      [intros E; injection E as <-; now exists e|].
    destruct (recognize env) as [e|t];
      [intros E; injection E as <-; now exists e|].
    destruct (recognize_confidence env) as [e|c];
      [intros E; injection E as <-; now exists e|].
    discriminate.
Qed.

Lemma X14_checkReadability_outcomes_witness :
  checkReadability route_checker
    {| preprocessImage := Returned tt;
       metadata := Threw "Input buffer contains unsupported image format";
       DocumentReadabilityChecker.raw := Threw "Input buffer contains unsupported image format";
       recognize := Threw "spawn tesseract ENOENT";
       recognize_confidence := Threw "spawn tesseract ENOENT" |}
  = Threw "Failed to analyze document readability: Input buffer contains unsupported image format"
  /\ exists result,
       checkReadability route_checker
         (Fixture.collaborators [10; 20; 30; 40]%Z 2 2 "two words" 90)
       = Returned result.
Proof.
  split.
  - apply (proj1 (proj2 (X14_checkReadability_outcomes route_checker
             {| preprocessImage := Returned tt;
                metadata := Threw "Input buffer contains unsupported image format";
                DocumentReadabilityChecker.raw :=
                  Threw "Input buffer contains unsupported image format";
                recognize := Threw "spawn tesseract ENOENT";
                recognize_confidence := Threw "spawn tesseract ENOENT" |})) tt);
      reflexivity.
  - apply (proj1 (proj2 (proj2 (proj2 (proj2 (proj2
             (X14_checkReadability_outcomes route_checker
                (Fixture.collaborators [10; 20; 30; 40]%Z 2 2 "two words" 90)))))))
             tt (Fixture.metadata_of 2 2) (Fixture.raw_of [10; 20; 30; 40]%Z 2 2)
             (lit "two words") (Some 90));
      reflexivity.
Defined.

(** ** The words of the recognised text *)

Lemma string_app_assoc (a b c : string) :
  ((a ++ b) ++ c = a ++ (b ++ c))%string.
Proof. induction a as [|x a IH]; cbn; [reflexivity | now rewrite IH]. Qed.

(** Every piece that [split] gives is free of white space. *)
Lemma split_go_pieces (s piece : utf16) (in_separator : bool) :
  forallb (fun c => negb (is_space c)) piece = true ->
  Forall (fun w => forallb (fun c => negb (is_space c)) w = true)
         (split_go s piece in_separator).
Proof.
  revert piece in_separator.
  induction s as [|c s IH]; intros piece b Hp; cbn [split_go].
  - now constructor.
  - destruct (is_space c) eqn:Ec.
    + destruct b; [now apply IH|]. constructor; [exact Hp|]. now apply IH.
    + apply IH. rewrite forallb_app, Hp. cbn [forallb]. now rewrite Ec.
Qed.

Lemma split_go_run (w s piece : utf16) :
  forallb (fun c => negb (is_space c)) w = true ->
  split_go (w ++ s) piece false = split_go s (piece ++ w) false.
Proof.
  revert piece. induction w as [|c w IH]; intros piece Hw.
  - cbn [app]. now rewrite app_nil_r.
  - cbn [forallb] in Hw. apply andb_true_iff in Hw. destruct Hw as [Hc Hw].
    apply negb_true_iff in Hc.
    cbn [app split_go]. rewrite Hc, (IH _ Hw), <- app_assoc.
    reflexivity.
Qed.

(** A word in front of the text is read into the current piece. *)
Lemma split_go_word (w s piece : utf16) (in_separator : bool) :
  Words.is_word w ->
  split_go (w ++ s) piece in_separator = split_go s (piece ++ w) false.
Proof.
  intros [Hne Hw]. destruct w as [|c w]; [contradiction|]. clear Hne.
  cbn [forallb] in Hw. apply andb_true_iff in Hw. destruct Hw as [Hc Hw].
  apply negb_true_iff in Hc.
  cbn [app split_go]. rewrite Hc, (split_go_run _ _ _ Hw), <- app_assoc.
  reflexivity.
Qed.

Lemma blank_has_no_words (s piece : utf16) (in_separator : bool) :
  Words.blank s ->
  filter (fun word => (0 <? List.length word)%nat) (split_go s piece in_separator)
  = filter (fun word => (0 <? List.length word)%nat) [piece].
Proof.
  unfold Words.blank. revert piece in_separator.
  induction s as [|c s IH]; intros piece b H; cbn [split_go].
  - reflexivity.
  - cbn [forallb] in H. apply andb_true_iff in H. destruct H as [Hc Hs].
    rewrite Hc. destruct b.
    + now apply IH.
    + cbn [filter]. rewrite (IH [] true Hs). cbn.
      destruct (0 <? List.length piece)%nat; reflexivity.
Qed.

(** After a separator the words are those of a fresh start. *)
Lemma split_go_restart (s : utf16) :
  filter (fun word => (0 <? List.length word)%nat) (split_go s [] true)
  = filter (fun word => (0 <? List.length word)%nat) (split_go s [] false).
Proof.
  destruct s as [|c s]; [reflexivity|]. cbn [split_go].
  destruct (is_space c); reflexivity.
Qed.

(** The words of a text that is cut at a white-space character. *)
Lemma split_go_cut (a b : utf16) (c : N) (piece : utf16) (in_separator : bool) :
  is_space c = true ->
  (in_separator = true -> piece = []) ->
  filter (fun word => (0 <? List.length word)%nat)
         (split_go (a ++ c :: b) piece in_separator)
  = filter (fun word => (0 <? List.length word)%nat)
           (split_go a piece in_separator)
    ++ filter (fun word => (0 <? List.length word)%nat) (split_go b [] false).
Proof.
  intros Hc. revert piece in_separator.
  induction a as [|x a IH]; intros piece flag Hflag; cbn [app split_go].
  - rewrite Hc, <- split_go_restart. destruct flag.
    + rewrite (Hflag eq_refl). reflexivity.
    + cbn [filter]. destruct (0 <? List.length piece)%nat; reflexivity.
  - destruct (is_space x).
    + destruct flag; [now apply IH|].
      cbn [filter]. rewrite (IH [] true) by reflexivity.
      destruct (0 <? List.length piece)%nat; reflexivity.
    + apply IH. discriminate.
Qed.

Lemma checkReadability_wordCount (this : DocumentReadabilityChecker.t)
    (env : Collaborators) (result : ReadabilityResult) :
  checkReadability this env = Returned result ->
  wordCount (details result)
  = Z.of_nat (List.length (Words.of_text (text result))).
Proof.
  unfold checkReadability.
  destruct (preprocessImage env) as [e|u]; [discriminate|].
  destruct (metadata env) as [e|m]; [discriminate|].
  cbn [bind]. destruct (analyzeImageQuality (DocumentReadabilityChecker.raw env))
    as [e|q]; [discriminate|].
  cbn [bind]. destruct (recognize env) as [e|ocrResult]; [discriminate|].
  cbn [bind]. destruct (recognize_confidence env) as [e|ocrMatch]; [discriminate|].
  cbn [bind calculateOCRConfidence rethrow].
  intros E. injection E as <-. reflexivity.
Qed.

Lemma nonempty_length (w : utf16) :
  (0 <? List.length w)%nat = true <-> w <> [].
Proof.
  destruct w; cbn; split; intros H; try discriminate; try reflexivity.
  now contradiction H.
Qed.

(** X15: the words that [checkReadability] counts.  The word count of a
    result is the number of words of the returned text.  The words are
    non-empty and free of white space; a text that is one such word has
    that word; the words of a text with a white-space character in it (a
    blank, a tabulator, a line break, a no-break space or any other
    character that the pattern matches) are the words in front of that
    character followed by the words behind it; a text of white space only,
    or the empty text, has no word. *)
Theorem X15_words_of_text :
  (forall (this : DocumentReadabilityChecker.t) (env : Collaborators)
          (result : ReadabilityResult),
      checkReadability this env = Returned result ->
      wordCount (details result)
      = Z.of_nat (List.length (Words.of_text (text result))))
  /\ (forall ocrResult : utf16,
         Forall Words.is_word (Words.of_text ocrResult))
  /\ (forall w : utf16, Words.is_word w -> Words.of_text w = [w])
  /\ (forall (a b : utf16) (c : N),
         is_space c = true ->
         Words.of_text (a ++ c :: b) = Words.of_text a ++ Words.of_text b)
  /\ (forall ocrResult : utf16,
         Words.blank ocrResult -> Words.of_text ocrResult = []).
Proof.
  split; [exact checkReadability_wordCount|]. split; [|split; [|split]].
  - intros ocrResult. unfold Words.of_text, split_whitespace.
    pose proof (split_go_pieces ocrResult [] false eq_refl) as H.
    induction H as [|w l Hw _ IH]; cbn [filter]; [constructor|].
    destruct (0 <? List.length w)%nat eqn:E; [|exact IH].
    constructor; [|exact IH]. split; [now apply nonempty_length | exact Hw].
  - intros w Hw. unfold Words.of_text, split_whitespace.
    rewrite <- (app_nil_r w) at 1. rewrite split_go_word by exact Hw.
    cbn [split_go app filter].
    destruct Hw as [Hne _]. apply nonempty_length in Hne. now rewrite Hne.
  - intros a b c Hc. unfold Words.of_text, split_whitespace.
    apply split_go_cut; [exact Hc | discriminate].
  - intros ocrResult H. unfold Words.of_text, split_whitespace.
    now rewrite blank_has_no_words.
Qed.

Lemma X15_words_of_text_witness :
  Words.of_text (lit "Invoice") = [lit "Invoice"]
  /\ Words.of_text (lit "Invoice" ++ 0xA0%N :: lit "No 4711")
     = Words.of_text (lit "Invoice") ++ Words.of_text (lit "No 4711")
  /\ Words.of_text (lit "   ") = [].
Proof.
  split; [|split].
  - apply (proj1 (proj2 (proj2 X15_words_of_text)) (lit "Invoice")).
    split; [discriminate | reflexivity].
  - apply (proj1 (proj2 (proj2 (proj2 X15_words_of_text)))
             (lit "Invoice") (lit "No 4711") 0xA0%N).
    reflexivity.
  - apply (proj2 (proj2 (proj2 (proj2 X15_words_of_text))) (lit "   ")).
    reflexivity.
Defined.

(** ** The route handlers *)

Lemma message_or_nonempty (message fallback : string) :
  fallback <> EmptyString -> Http.message_or message fallback <> EmptyString.
Proof.
  intros H. unfold Http.message_or.
  destruct (String.eqb_spec message EmptyString); assumption.
Qed.

Lemma message_or_prefixed (prefix cause fallback : string) :
  prefix <> EmptyString ->
  Http.message_or (prefix ++ cause) fallback = (prefix ++ cause)%string.
Proof.
  intros H. unfold Http.message_or. destruct prefix; [contradiction|]. reflexivity.
Qed.

Lemma detectBlur_rejects (this : DocumentBlurDetector.t) (m : Metadata.t)
    (raw : outcome Raw.t) :
  Spec.below_minimum (DocumentBlurDetector.minDocumentSize this) m ->
  DocumentBlurDetector.detectBlur this (Returned m) raw
  = Threw ("Error analyzing image: "
           ++ DocumentBlurDetector.resolution_message
                (DocumentBlurDetector.minDocumentSize this)).
Proof.
  intros (w & h & Ew & Eh & Hsmall).
  unfold DocumentBlurDetector.detectBlur. cbn [bind].
  rewrite Ew, Eh. cbn [DocumentBlurDetector.missing DocumentBlurDetector.below].
  destruct (Z.eqb_spec w 0); destruct (Z.eqb_spec h 0);
    destruct (Z.ltb_spec w (Size.width (DocumentBlurDetector.minDocumentSize this)));
    destruct (Z.ltb_spec h (Size.height (DocumentBlurDetector.minDocumentSize this)));
    cbn [orb]; try lia; reflexivity.
Qed.

(** The three kinds of response of the blur-detection route. *)
Lemma blur_route_cases (request : outcome (option BlurRoute.File)) :
  (request = Returned None
   /\ BlurRoute.POST request
      = Http.json_status (Http.ErrorBody "No file provided") 400)
  \/ (exists e,
         e <> EmptyString
         /\ request <> Returned None
         /\ (forall file u,
                request = Returned (Some file) ->
                BlurRoute.arrayBuffer file = Returned u ->
                exists cause,
                  DocumentBlurDetector.detectBlur
                    DocumentBlurDetector.route_detector
                    (BlurRoute.metadata file) (BlurRoute.raw file) = Threw cause
                  /\ e = Http.message_or cause "Failed to analyze image")
         /\ (forall file u result,
                request = Returned (Some file) ->
                BlurRoute.arrayBuffer file = Returned u ->
                DocumentBlurDetector.detectBlur
                  DocumentBlurDetector.route_detector
                  (BlurRoute.metadata file) (BlurRoute.raw file) = Returned result ->
                False)
         /\ BlurRoute.POST request = Http.json_status (Http.ErrorBody e) 500)
  \/ (exists file u result,
         request = Returned (Some file)
         /\ BlurRoute.arrayBuffer file = Returned u
         /\ DocumentBlurDetector.detectBlur DocumentBlurDetector.route_detector
              (BlurRoute.metadata file) (BlurRoute.raw file) = Returned result
         /\ BlurRoute.POST request = Http.json (Http.Payload result)).
Proof.
  unfold BlurRoute.POST. fold DocumentBlurDetector.route_detector.
  destruct request as [e|[file|]]; cbn [bind].
  - right. left. exists (Http.message_or e "Failed to analyze image").
    split; [apply message_or_nonempty; discriminate|].
    repeat split; try discriminate; intros; discriminate.
  - destruct (BlurRoute.arrayBuffer file) as [e|u] eqn:Eu; cbn [bind].
    + right. left. exists (Http.message_or e "Failed to analyze image").
    split; [apply message_or_nonempty; discriminate|].
      repeat split; try discriminate.
      * intros file' u' E Eu'. injection E as <-. congruence.
      * intros file' u' result E Eu'. injection E as <-. congruence.
    + destruct (DocumentBlurDetector.detectBlur DocumentBlurDetector.route_detector
                  (BlurRoute.metadata file) (BlurRoute.raw file))
        as [e|result] eqn:Ed; cbn [bind].
      * right. left. exists (Http.message_or e "Failed to analyze image").
    split; [apply message_or_nonempty; discriminate|].
        repeat split; try discriminate.
        -- intros file' u' E Eu'. injection E as <-. exists e. now split.
        -- intros file' u' result E Eu' Ed'. injection E as <-. congruence.
      * right. right. exists file, u, result. repeat split; assumption.
  - left. split; reflexivity.
Qed.

(** X16: the responses of the blur-detection route.  The status is 400
    exactly when the form has no file, 200 exactly when the body is a result
    (the result of [detectBlur] with the minimum 400x400 and the threshold
    0.15), and 500 otherwise; an image below 400x400 gets the status 500 and
    the resolution message; the error text is never empty. *)
Theorem X16_blur_route_responses :
  forall request : outcome (option BlurRoute.File),
    let response := BlurRoute.POST request in
    (Http.status response = 200 \/ Http.status response = 400
     \/ Http.status response = 500)%Z
    /\ (Http.status response = 400%Z <-> request = Returned None)
    /\ (request = Returned None ->
        Http.body response = Http.ErrorBody "No file provided")
    /\ (Http.status response = 200%Z
        <-> exists result, Http.body response = Http.Payload result)
    /\ (forall file u result,
           request = Returned (Some file) ->
           BlurRoute.arrayBuffer file = Returned u ->
           DocumentBlurDetector.detectBlur DocumentBlurDetector.route_detector
             (BlurRoute.metadata file) (BlurRoute.raw file) = Returned result ->
           response = Http.json (Http.Payload result))
    /\ (forall file u m,
           request = Returned (Some file) ->
           BlurRoute.arrayBuffer file = Returned u ->
           BlurRoute.metadata file = Returned m ->
           Spec.below_minimum {| Size.width := 400; Size.height := 400 |} m ->
           response
           = Http.json_status
               (Http.ErrorBody
                  "Error analyzing image: Image resolution too low. Minimum required: 400x400")
               500)
    /\ (forall e, Http.body response = Http.ErrorBody e -> e <> EmptyString).
Proof.
  intros request response.
  destruct (blur_route_cases request) as
    [[Ereq E]
    | [(e & He & Hfile & Hreq & Hrun & E)
      | (file & u & result & Ereq & Eu & Ed & E)]];
    fold response in E; rewrite E;
    cbn [Http.json Http.json_status Http.status Http.body];
    (split; [lia|]); (split; [|split; [|split; [|split; [|split]]]]).
  - tauto.
  - reflexivity.
  - split; [discriminate | intros [result H]; discriminate].
  - rewrite Ereq. discriminate.
  - rewrite Ereq. discriminate.
  - intros e E'. injection E' as <-. discriminate.
  - split; [discriminate | contradiction].
  - contradiction.
  - split; [discriminate | intros [result H]; discriminate].
  - intros file u result Ereq Eu Ed. exfalso.
    apply (Hrun file u result); assumption.
  - intros file u m Ereq Eu Em Hsmall.
    destruct (Hreq file u Ereq Eu) as [e' [Ed ->]].
    rewrite Em in Ed.
    rewrite (detectBlur_rejects DocumentBlurDetector.route_detector m
               (BlurRoute.raw file) Hsmall) in Ed.
    injection Ed as <-. reflexivity.
  - intros e' E'. injection E' as <-. exact He.
  - rewrite Ereq. split; discriminate.
  - rewrite Ereq. discriminate.
  - split; [intros _; now exists result | reflexivity].
  - intros file' u' result' E' Eu' Ed'. rewrite Ereq in E'. injection E' as <-.
    rewrite Ed in Ed'. now injection Ed' as <-.
  - intros file' u' m E' Eu' Em Hsmall. rewrite Ereq in E'. injection E' as <-.
    exfalso. rewrite Em in Ed.
    rewrite (detectBlur_rejects DocumentBlurDetector.route_detector m
               (BlurRoute.raw file) Hsmall) in Ed.
    discriminate.
  - discriminate.
Qed.

Lemma X16_blur_route_responses_witness :
  BlurRoute.POST
    (Returned (Some {| BlurRoute.arrayBuffer := Returned tt;
                       BlurRoute.metadata := Returned (Fixture.metadata_of 200 200);
                       BlurRoute.raw :=
                         Returned (Fixture.raw_of (Fixture.uniform 128 200 200)
                                     200 200) |}))
  = Http.json_status
      (Http.ErrorBody
         "Error analyzing image: Image resolution too low. Minimum required: 400x400")
      500.
Proof.
  apply (proj1 (proj2 (proj2 (proj2 (proj2 (proj2
           (X16_blur_route_responses
              (Returned (Some {| BlurRoute.arrayBuffer := Returned tt;
                                 BlurRoute.metadata :=
                                   Returned (Fixture.metadata_of 200 200);
                                 BlurRoute.raw :=
                                   Returned (Fixture.raw_of
                                               (Fixture.uniform 128 200 200)
                                               200 200) |}))))))))
           {| BlurRoute.arrayBuffer := Returned tt;
              BlurRoute.metadata := Returned (Fixture.metadata_of 200 200);
              BlurRoute.raw :=
                Returned (Fixture.raw_of (Fixture.uniform 128 200 200) 200 200) |}
           tt (Fixture.metadata_of 200 200));
    try reflexivity.
  exists 200%Z, 200%Z. cbn. repeat split. lia.
Defined.

Lemma checkReadability_throws_prefixed (this : DocumentReadabilityChecker.t)
    (env : Collaborators) (message : string) :
  checkReadability this env = Threw message ->
  exists cause,
    message = ("Failed to analyze document readability: " ++ cause)%string.
Proof.
  unfold checkReadability.
  destruct (preprocessImage env) as [e|u];
    [intros E; injection E as <-; now exists e|].
  destruct (metadata env) as [e|m];
    [intros E; injection E as <-; now exists e|].
  destruct (DocumentReadabilityChecker.raw env) as [e|r];
    [intros E; injection E as <-; now exists e|].
  destruct (recognize env) as [e|t];
    [intros E; injection E as <-; now exists e|].
  destruct (recognize_confidence env) as [e|c];
    [intros E; injection E as <-; now exists e|].
  discriminate.
Qed.

(** X17: the responses of the document-readability route.  The status is
    400 exactly when the form has no file.  When reading the file and the
    check succeed, the status is 200 and the body is the result of
    [checkReadability] together with the elapsed time, whatever the size of
    the image; when the check throws, the status is 500 and the body is the
    message of the check, unchanged.  The error text is never empty. *)
Theorem X17_readability_route_responses :
  forall (request : outcome (option ReadabilityRoute.File))
         (startTime endTime : number),
    let response := ReadabilityRoute.POST request startTime endTime in
    (Http.status response = 200 \/ Http.status response = 400
     \/ Http.status response = 500)%Z
    /\ (Http.status response = 400%Z <-> request = Returned None)
    /\ (forall file u result,
           request = Returned (Some file) ->
           ReadabilityRoute.arrayBuffer file = Returned u ->
           checkReadability route_checker (ReadabilityRoute.collaborators file)
           = Returned result ->
           response
           = Http.json
               (Http.Payload
                  {| ReadabilityRoute.results := result;
                     ReadabilityRoute.processingTime := (endTime - startTime)%js |}))
    /\ (forall file u message,
           request = Returned (Some file) ->
           ReadabilityRoute.arrayBuffer file = Returned u ->
           checkReadability route_checker (ReadabilityRoute.collaborators file)
           = Threw message ->
           response = Http.json_status (Http.ErrorBody message) 500)
    /\ (forall e, Http.body response = Http.ErrorBody e -> e <> EmptyString).
Proof.
  intros request startTime endTime response. subst response.
  unfold ReadabilityRoute.POST. fold route_checker.
  destruct request as [e|[file|]]; cbn [bind].
  - cbn [Http.json_status Http.status Http.body].
    split; [lia|]. split; [split; discriminate|].
    split; [discriminate|]. split; [discriminate|].
    intros e' E. injection E as <-. apply message_or_nonempty. discriminate.
  - destruct (ReadabilityRoute.arrayBuffer file) as [e|u] eqn:Eu; cbn [bind].
    + cbn [Http.json_status Http.status Http.body].
      split; [lia|]. split; [split; discriminate|].
      split; [intros file' u' result E Eu'; injection E as <-; congruence|].
      split; [intros file' u' result E Eu'; injection E as <-; congruence|].
      intros e' E. injection E as <-. apply message_or_nonempty. discriminate.
    + destruct (checkReadability route_checker (ReadabilityRoute.collaborators file))
        as [e|result] eqn:Ec; cbn [bind].
      * cbn [Http.json_status Http.status Http.body].
        split; [lia|]. split; [split; discriminate|].
        split; [intros file' u' result E Eu'; injection E as <-; congruence|].
        split.
        -- intros file' u' message E _ Em. injection E as <-.
           rewrite Ec in Em. injection Em as <-.
           destruct (checkReadability_throws_prefixed _ _ _ Ec) as [cause ->].
           now rewrite message_or_prefixed by discriminate.
        -- intros e' E. injection E as <-. apply message_or_nonempty. discriminate.
      * cbn [Http.json Http.status Http.body].
        split; [lia|]. split; [split; discriminate|].
        split; [|split; [|discriminate]].
        -- intros file' u' result' E _ Er. injection E as <-.
           rewrite Ec in Er. now injection Er as <-.
        -- intros file' u' message E _ Em. injection E as <-. congruence.
  - cbn [Http.json_status Http.status Http.body].
    split; [lia|]. split; [split; reflexivity|].
    split; [discriminate|]. split; [discriminate|].
    intros e' E. injection E as <-. discriminate.
Qed.

Lemma X17_readability_route_responses_witness :
  exists result : ReadabilityResult,
    ReadabilityRoute.POST
      (Returned
         (Some {| ReadabilityRoute.arrayBuffer := Returned tt;
                  ReadabilityRoute.collaborators :=
                    Fixture.collaborators (Fixture.uniform 128 200 200) 200 200
                      "some text" 90 |}))
      (Num 10) (Num 25)
    = Http.json
        (Http.Payload
           {| ReadabilityRoute.results := result;
              ReadabilityRoute.processingTime := (Num 25 - Num 10)%js |}).
Proof.
  eexists.
  apply (proj1 (proj2 (proj2
           (X17_readability_route_responses
              (Returned
                 (Some {| ReadabilityRoute.arrayBuffer := Returned tt;
                          ReadabilityRoute.collaborators :=
                            Fixture.collaborators (Fixture.uniform 128 200 200)
                              200 200 "some text" 90 |}))
              (Num 10) (Num 25))))
           {| ReadabilityRoute.arrayBuffer := Returned tt;
              ReadabilityRoute.collaborators :=
                Fixture.collaborators (Fixture.uniform 128 200 200) 200 200
                  "some text" 90 |}
           tt);
    reflexivity.
Defined.

(** ** The upload page *)

Lemma receive_delivered {D : Type} (error_of : D -> option string)
    (fallback : string) (fetched : outcome (OCRUploader.Fetched D)) (data : D) :
  OCRUploader.receive error_of fallback fetched = Returned data
  <-> Run.delivered fetched data.
Proof.
  unfold OCRUploader.receive, Run.delivered. split.
  - destruct fetched as [e|response]; cbn [bind]; [discriminate|].
    destruct (OCRUploader.json response) as [e|d] eqn:Ej; cbn [bind];
      [discriminate|].
    destruct (OCRUploader.ok response) eqn:Eo; cbn [negb]; [|discriminate].
    intros E. injection E as <-. exists response. repeat split; assumption.
  - intros (response & -> & Eo & Ej). cbn [bind]. rewrite Ej. cbn [bind].
    now rewrite Eo.
Qed.

Lemma receive_not_delivered {D : Type} (error_of : D -> option string)
    (fallback : string) (fetched : outcome (OCRUploader.Fetched D)) :
  (forall data, ~ Run.delivered fetched data) ->
  exists e, OCRUploader.receive error_of fallback fetched = Threw e.
Proof.
  intros H.
  destruct (OCRUploader.receive error_of fallback fetched) as [e|data] eqn:E.
  - now exists e.
  - apply receive_delivered in E. now apply H in E.
Qed.

(** X18: each of the four text-extraction handlers of the page keeps the
    selected file and its preview.  Without a selected file it only sets the
    error "Please select a file first".  With one, a response that is ok and
    parses ends in: not loading, no error, the text of the response shown,
    one record of the handler's method appended to the log; anything else
    (network failure, unparsable body, a status that is not ok) ends in: not
    loading, the handler's own error message (never the server's), and the
    text, the log and the quality panel untouched. *)
Theorem X18_text_handlers :
  forall handler method message,
    In (handler, method, message) Run.text_handlers ->
    forall (s : OCRUploader.State) (startTime : number)
           (fetched : outcome (OCRUploader.Fetched OCRUploader.TextData))
           (clock : OCRUploader.Clock),
      let s' := handler s startTime fetched clock in
      Run.kept_file s s'
      /\ (OCRUploader.selectedFile s = None -> Run.refused s s')
      /\ (OCRUploader.selectedFile s <> None ->
          (forall data,
              Run.delivered fetched data ->
              Run.succeeded method s s'
              /\ OCRUploader.extractedText s' = OCRUploader.text data
              /\ OCRUploader.blurResults s' = OCRUploader.blurResults s)
          /\ ((forall data, ~ Run.delivered fetched data) ->
              Run.failed message s s'
              /\ OCRUploader.extractedText s' = OCRUploader.extractedText s)).
Proof.
  intros handler method message Hin s startTime fetched clock s'.
  assert (Hcases :
    forall (label failure : string),
      s' = match OCRUploader.selectedFile s with
           | None => OCRUploader.setError s (Some "Please select a file first"%string)
           | Some _ =>
               OCRUploader.setIsLoading
                 (match OCRUploader.receive OCRUploader.text_error
                          "Failed to process image" fetched with
                  | Returned data =>
                      OCRUploader.addProcessingTime
                        (OCRUploader.setExtractedText
                           (OCRUploader.setError (OCRUploader.setIsLoading s true) None)
                           (OCRUploader.text data))
                        label startTime clock
                  | Threw _ =>
                      OCRUploader.setError
                        (OCRUploader.setError (OCRUploader.setIsLoading s true) None)
                        (Some failure)
                  end) false
           end ->
      Run.kept_file s s'
      /\ (OCRUploader.selectedFile s = None -> Run.refused s s')
      /\ (OCRUploader.selectedFile s <> None ->
          (forall data,
              Run.delivered fetched data ->
              Run.succeeded label s s'
              /\ OCRUploader.extractedText s' = OCRUploader.text data
              /\ OCRUploader.blurResults s' = OCRUploader.blurResults s)
          /\ ((forall data, ~ Run.delivered fetched data) ->
              Run.failed failure s s'
              /\ OCRUploader.extractedText s' = OCRUploader.extractedText s))).
  { intros label failure E. clearbody s'. subst s'.
    destruct (OCRUploader.selectedFile s) as [f|] eqn:Ef.
    - split; [|split; [discriminate|]].
      + destruct (OCRUploader.receive _ _ fetched); split; cbn; now rewrite ?Ef.
      + intros _. split.
        * intros data Hd.
          apply (receive_delivered OCRUploader.text_error "Failed to process image")
            in Hd.
          rewrite Hd. cbn. repeat split. do 2 eexists. reflexivity.
        * intros Hno.
          destruct (receive_not_delivered OCRUploader.text_error
                      "Failed to process image" fetched Hno) as [e He].
          rewrite He. cbn. repeat split.
    - split; [split; cbn; now rewrite ?Ef|].
      split; [reflexivity | intros H; now contradiction H]. }
  cbn in Hin.
  destruct Hin as [E | [E | [E | [E | []]]]]; injection E as <- <- <-;
    apply Hcases; reflexivity.
Qed.

Lemma X18_text_handlers_witness :
  let s := OCRUploader.handleFileSelect OCRUploader.initial (Some "scan.png"%string)
             "blob:scan" in
  Run.failed "Error processing the file with Textract. Please try again."
    s
    (OCRUploader.handleTextractOCR s (Num 10)
       (Returned {| OCRUploader.ok := false;
                    OCRUploader.json :=
                      Returned {| OCRUploader.text_error := Some "Access denied"%string;
                                  OCRUploader.text := None |} |})
       {| OCRUploader.now := Num 25; OCRUploader.iso := "2025-01-01T00:00:00.000Z" |}).
Proof.
  intros s.
  apply (X18_text_handlers OCRUploader.handleTextractOCR "AWS Textract"
           "Error processing the file with Textract. Please try again.").
  - cbn. tauto.
  - discriminate.
  - intros data (response & E & Eo & _). injection E as <-. discriminate.
Defined.

(** X19: [handleBlurCheck] follows the same protocol.  A response that is
    ok and parses is shown in the quality panel and logged as
    "Blur Detection", the text untouched; anything else gives the error
    "Error analyzing the file. Please try again." and leaves the panel, the
    text and the log as they were. *)
Theorem X19_handleBlurCheck :
  forall (s : OCRUploader.State) (startTime : number)
         (fetched : outcome (OCRUploader.Fetched OCRUploader.BlurData))
         (clock : OCRUploader.Clock),
    let s' := OCRUploader.handleBlurCheck s startTime fetched clock in
    Run.kept_file s s'
    /\ OCRUploader.extractedText s' = OCRUploader.extractedText s
    /\ (OCRUploader.selectedFile s = None -> Run.refused s s')
    /\ (OCRUploader.selectedFile s <> None ->
        (forall data,
            Run.delivered fetched data ->
            Run.succeeded "Blur Detection" s s'
            /\ OCRUploader.blurResults s' = Some (OCRUploader.shown data))
        /\ ((forall data, ~ Run.delivered fetched data) ->
            Run.failed "Error analyzing the file. Please try again." s s')).
Proof.
  intros s startTime fetched clock s'. subst s'. unfold OCRUploader.handleBlurCheck.
  destruct (OCRUploader.selectedFile s) as [f|] eqn:Ef.
  - split; [|split; [|split; [discriminate|]]].
    + destruct (OCRUploader.receive _ _ fetched); split; cbn; now rewrite ?Ef.
    + destruct (OCRUploader.receive _ _ fetched); reflexivity.
    + intros _. split.
      * intros data Hd.
        apply (receive_delivered OCRUploader.blur_error "Failed to analyze image")
          in Hd.
        rewrite Hd. cbn. repeat split. do 2 eexists. reflexivity.
      * intros Hno.
        destruct (receive_not_delivered OCRUploader.blur_error
                    "Failed to analyze image" fetched Hno) as [e He].
        rewrite He. cbn. repeat split.
  - split; [split; cbn; now rewrite ?Ef|].
    split; [reflexivity|].
    split; [reflexivity | intros H; now contradiction H].
Qed.

Lemma shown_readability_throws (data : OCRUploader.ReadabilityData) :
  (exists e, OCRUploader.shown_readability data = Threw e)
  <-> (OCRUploader.details data = None
       \/ OCRUploader.suggestions data = None
       \/ exists d, OCRUploader.details data = Some d
                    /\ (OCRUploader.imageQuality d = None
                        \/ OCRUploader.metadata d = None)).
Proof.
  unfold OCRUploader.shown_readability.
  destruct (OCRUploader.details data) as [d|]; cbn [OCRUploader.property bind].
  - destruct (OCRUploader.imageQuality d) as [q|] eqn:Eq;
      cbn [OCRUploader.property bind].
    + destruct (OCRUploader.suggestions data) as [l|];
        cbn [OCRUploader.property bind].
      * destruct (OCRUploader.metadata d) as [m|] eqn:Em;
          cbn [OCRUploader.property bind].
        -- split.
           ++ intros [e E]. discriminate.
           ++ intros [H | [H | (d' & E & [H | H])]]; try discriminate;
                injection E as <-; congruence.
        -- split; [|intros _; eexists; reflexivity].
           intros _. right. right. exists d. split; [reflexivity | now right].
      * split; [intros _; right; now left | intros _; eexists; reflexivity].
    + split; [|intros _; eexists; reflexivity].
      intros _. right. right. exists d. split; [reflexivity | now left].
  - split; [intros _; now left | intros _; eexists; reflexivity].
Qed.

(** X20: [handleLocalReadability].  A response that is ok, parses and
    carries [details] (with [imageQuality] and [metadata]) and [suggestions]
    is logged as "Local Readability"; the panel then shows
    [isBlurry = !isReadable] and the suggestions joined by line breaks as
    the recommendation.  When one of these objects is missing, the run ends
    with the error "Error analyzing the document. Please try again.", the
    log and the panel untouched, but the text has already been replaced by
    the text of the response.  When the response is not ok or does not
    parse, the text is untouched too. *)
Theorem X20_handleLocalReadability :
  forall (s : OCRUploader.State) (startTime : number)
         (fetched : outcome (OCRUploader.Fetched OCRUploader.ReadabilityData))
         (clock : OCRUploader.Clock),
    let s' := OCRUploader.handleLocalReadability s startTime fetched clock in
    let message := "Error analyzing the document. Please try again."%string in
    Run.kept_file s s'
    /\ (OCRUploader.selectedFile s = None -> Run.refused s s')
    /\ (OCRUploader.selectedFile s <> None ->
        (forall data view,
            Run.delivered fetched data ->
            OCRUploader.shown_readability data = Returned view ->
            Run.succeeded "Local Readability" s s'
            /\ OCRUploader.extractedText s' = OCRUploader.readability_text data
            /\ OCRUploader.blurResults s' = Some view
            /\ OCRUploader.isBlurry view
               = negb (match OCRUploader.isReadable data with
                       | Some b => b
                       | None => false
                       end)
            /\ (forall l, OCRUploader.suggestions data = Some l ->
                          OCRUploader.recommendation view
                          = String.concat OCRUploader.newline l))
        /\ (forall data,
               Run.delivered fetched data ->
               (OCRUploader.details data = None
                \/ OCRUploader.suggestions data = None
                \/ exists d, OCRUploader.details data = Some d
                             /\ (OCRUploader.imageQuality d = None
                                 \/ OCRUploader.metadata d = None)) ->
               Run.failed message s s'
               /\ OCRUploader.extractedText s' = OCRUploader.readability_text data)
        /\ ((forall data, ~ Run.delivered fetched data) ->
            Run.failed message s s'
            /\ OCRUploader.extractedText s' = OCRUploader.extractedText s)).
Proof.
  intros s startTime fetched clock s' message. subst s' message.
  unfold OCRUploader.handleLocalReadability.
  destruct (OCRUploader.selectedFile s) as [f|] eqn:Ef.
  - split; [|split; [discriminate|]].
    + destruct (OCRUploader.receive _ _ fetched) as [e|data];
        [|destruct (OCRUploader.shown_readability data)];
        split; cbn; now rewrite ?Ef.
    + intros _. split; [|split].
      * intros data view Hd Ev.
        apply (receive_delivered OCRUploader.readability_error
                 "Failed to analyze document") in Hd.
        rewrite Hd, Ev. cbn.
        split; [repeat split; do 2 eexists; reflexivity|].
        split; [reflexivity|]. split; [reflexivity|].
        unfold OCRUploader.shown_readability in Ev.
        destruct (OCRUploader.details data) as [d|];
          cbn [OCRUploader.property bind] in Ev; [|discriminate].
        destruct (OCRUploader.imageQuality d) as [q|];
          cbn [OCRUploader.property bind] in Ev; [|discriminate].
        destruct (OCRUploader.suggestions data) as [l|];
          cbn [OCRUploader.property bind] in Ev; [|discriminate].
        destruct (OCRUploader.metadata d) as [m|];
          cbn [OCRUploader.property bind] in Ev; [|discriminate].
        injection Ev as <-. cbn. split; [reflexivity|].
        intros l' E. now injection E as <-.
      * intros data Hd Hmissing.
        apply (receive_delivered OCRUploader.readability_error
                 "Failed to analyze document") in Hd.
        apply shown_readability_throws in Hmissing. destruct Hmissing as [e Ev].
        rewrite Hd, Ev. cbn. repeat split.
      * intros Hno.
        destruct (receive_not_delivered OCRUploader.readability_error
                    "Failed to analyze document" fetched Hno) as [e He].
        rewrite He. cbn. repeat split.
  - split; [split; cbn; now rewrite ?Ef|].
    split; [reflexivity | intros H; now contradiction H].
Qed.

Lemma X19_handleBlurCheck_witness :
  let s := OCRUploader.handleFileSelect OCRUploader.initial (Some "scan.png"%string)
             "blob:scan" in
  let clock :=
    {| OCRUploader.now := Num 25; OCRUploader.iso := "2025-01-01T00:00:00.000Z" |} in
  let data :=
    {| OCRUploader.blur_error := None;
       OCRUploader.shown :=
         {| OCRUploader.isBlurry := true;
            OCRUploader.recommendation :=
              "Image is too blurry, please provide a clearer image";
            OCRUploader.blurScore := Some 0.1;
            OCRUploader.quality :=
              {| OCRUploader.brightness := Some 0.5;
                 OCRUploader.contrast := Some 0.3;
                 OCRUploader.width := Some 800%Z;
                 OCRUploader.height := Some 600%Z;
                 OCRUploader.format := Some "png"%string |} |} |} in
  let shown :=
    OCRUploader.handleBlurCheck s (Num 10)
      (Returned {| OCRUploader.ok := true; OCRUploader.json := Returned data |})
      clock in
  let refused_by_server :=
    OCRUploader.handleBlurCheck s (Num 10)
      (Returned {| OCRUploader.ok := false; OCRUploader.json := Returned data |})
      clock in
  (Run.succeeded "Blur Detection" s shown
   /\ OCRUploader.blurResults shown = Some (OCRUploader.shown data))
  /\ Run.failed "Error analyzing the file. Please try again." s refused_by_server.
Proof.
  intros s clock data shown refused_by_server. split.
  - destruct (X19_handleBlurCheck s (Num 10)
                (Returned {| OCRUploader.ok := true;
                             OCRUploader.json := Returned data |})
                clock)
      as (_ & _ & _ & H).
    destruct (H ltac:(discriminate)) as (Hdelivered & _).
    apply (Hdelivered data). eexists. repeat split.
  - destruct (X19_handleBlurCheck s (Num 10)
                (Returned {| OCRUploader.ok := false;
                             OCRUploader.json := Returned data |})
                clock)
      as (_ & _ & _ & H).
    destruct (H ltac:(discriminate)) as (_ & Hfailed).
    apply Hfailed. intros d (response & E & Hok & _).
    injection E as <-. discriminate Hok.
Defined.

Lemma X20_handleLocalReadability_witness :
  let s := OCRUploader.handleFileSelect OCRUploader.initial (Some "scan.png"%string)
             "blob:scan" in
  let data :=
    {| OCRUploader.readability_error := None;
       OCRUploader.isReadable := Some false;
       OCRUploader.readability_text := Some (lit "Invoice");
       OCRUploader.suggestions := Some [];
       OCRUploader.details := None |} in
  let s' :=
    OCRUploader.handleLocalReadability s (Num 10)
      (Returned {| OCRUploader.ok := true; OCRUploader.json := Returned data |})
      {| OCRUploader.now := Num 25; OCRUploader.iso := "2025-01-01T00:00:00.000Z" |} in
  Run.failed "Error analyzing the document. Please try again." s s'
  /\ OCRUploader.extractedText s' = Some (lit "Invoice").
Proof.
  intros s data s'.
  destruct (X20_handleLocalReadability s (Num 10)
              (Returned {| OCRUploader.ok := true; OCRUploader.json := Returned data |})
              {| OCRUploader.now := Num 25;
                 OCRUploader.iso := "2025-01-01T00:00:00.000Z" |})
    as (_ & _ & H).
  destruct (H ltac:(discriminate)) as (_ & Hmissing & _).
  apply (Hmissing data).
  - eexists. repeat split.
  - now left.
Defined.

Lemma step_effect (s s' : OCRUploader.State) :
  Run.step s s' ->
  (OCRUploader.isLoading s = false -> OCRUploader.isLoading s' = false)
  /\ ((OCRUploader.previewUrl s = None <-> OCRUploader.selectedFile s = None) ->
      (OCRUploader.previewUrl s' = None <-> OCRUploader.selectedFile s' = None))
  /\ (OCRUploader.selectedFile s <> None -> OCRUploader.selectedFile s' <> None)
  /\ exists added,
       OCRUploader.processingTimes s' = OCRUploader.processingTimes s ++ added
       /\ (List.length added <= 1)%nat
       /\ Forall (fun r => In (OCRUploader.method r) Run.methods) added.
Proof.
  assert (Hnone : exists added : list OCRUploader.ProcessingTime,
             OCRUploader.processingTimes s = OCRUploader.processingTimes s ++ added
             /\ (List.length added <= 1)%nat
             /\ Forall (fun r => In (OCRUploader.method r) Run.methods) added).
  { exists []. rewrite app_nil_r. repeat split; [cbn; lia | constructor]. }
  assert (Hone : forall method duration timestamp,
             In method Run.methods ->
             exists added : list OCRUploader.ProcessingTime,
               OCRUploader.processingTimes s
               ++ [{| OCRUploader.method := method;
                      OCRUploader.duration := duration;
                      OCRUploader.timestamp := timestamp |}]
               = OCRUploader.processingTimes s ++ added
               /\ (List.length added <= 1)%nat
               /\ Forall (fun r => In (OCRUploader.method r) Run.methods) added).
  { intros method duration timestamp Hm. eexists. split; [reflexivity|].
    split; [cbn; lia|]. constructor; [exact Hm | constructor]. }
  intros Hstep.
  inversion Hstep; subst; clear Hstep;
    unfold OCRUploader.handleFileSelect, OCRUploader.handleOCR,
      OCRUploader.handleExternalOCR, OCRUploader.handleOpenAIOCR,
      OCRUploader.handleTextractOCR, OCRUploader.handleBlurCheck,
      OCRUploader.handleLocalReadability;
    try (destruct file as [f|]);
    try (destruct (OCRUploader.selectedFile s) as [f|] eqn:Ef;
         [destruct (OCRUploader.receive _ _ fetched) as [e|data];
          [|try destruct (OCRUploader.shown_readability data)]|]);
    cbn; rewrite ?Ef;
    (split; [first [tauto | intros; reflexivity]|]);
    (split; [first [tauto | intros _; split; discriminate]|]);
    (split; [first [tauto | intros _; discriminate]|]);
    first [exact Hnone | apply Hone; cbn; tauto].
Qed.

(** X21: the states that the page reaches by complete runs of its
    handlers.  In every such state nothing is loading, a preview is shown
    exactly when a file is selected, and every record of the log carries one
    of the six method names.  Every event leaves the earlier log as a prefix
    of the new one, adds at most one record, and never unselects the
    file. *)
Theorem X21_page_invariants :
  (forall s, Run.reachable s ->
             OCRUploader.isLoading s = false
             /\ (OCRUploader.previewUrl s = None
                 <-> OCRUploader.selectedFile s = None)
             /\ Forall (fun r => In (OCRUploader.method r) Run.methods)
                       (OCRUploader.processingTimes s))
  /\ (forall s s', Run.step s s' ->
                   Run.prefix (OCRUploader.processingTimes s)
                              (OCRUploader.processingTimes s')
                   /\ (List.length (OCRUploader.processingTimes s')
                       <= List.length (OCRUploader.processingTimes s) + 1)%nat
                   /\ (OCRUploader.selectedFile s <> None ->
                       OCRUploader.selectedFile s' <> None)).
Proof.
  split.
  - induction 1 as [|s s' _ (Hl & Hp & Hm) Hstep].
    + cbn. repeat split; try tauto. constructor.
    + destruct (step_effect s s' Hstep) as (Hl' & Hp' & _ & added & E & _ & Ha).
      split; [now apply Hl'|]. split; [now apply Hp'|].
      rewrite E. apply Forall_app. now split.
  - intros s s' Hstep.
    destruct (step_effect s s' Hstep) as (_ & _ & Hf & added & E & Hlen & _).
    split; [now exists added|]. split; [|exact Hf].
    rewrite E, length_app. lia.
Qed.

Lemma X21_page_invariants_witness :
  let s :=
    OCRUploader.handleBlurCheck
      (OCRUploader.handleFileSelect OCRUploader.initial (Some "scan.png"%string)
         "blob:scan")
      (Num 10) (Threw "Failed to fetch")
      {| OCRUploader.now := Num 25; OCRUploader.iso := "2025-01-01T00:00:00.000Z" |} in
  OCRUploader.isLoading s = false
  /\ (OCRUploader.previewUrl s = None <-> OCRUploader.selectedFile s = None)
  /\ Forall (fun r => In (OCRUploader.method r) Run.methods)
            (OCRUploader.processingTimes s).
Proof.
  intros s. apply (proj1 X21_page_invariants s).
  subst s. eapply Run.reach_step; [eapply Run.reach_step; [apply Run.reach_initial|]|].
  - apply Run.step_select.
  - apply Run.step_blur.
Defined.

Lemma http_not_ok (A : Type) (response : Http.Response A) :
  (Http.status response = 400 \/ Http.status response = 500)%Z ->
  Http.ok response = false.
Proof. unfold Http.ok. intros [-> | ->]; reflexivity. Qed.

(** X22: the blur check end to end.  Whenever the blur-detection route
    does not answer with the status 200 (no file in the form, an unreadable
    upload, a failed analysis, and in particular an image below 400x400),
    [handleBlurCheck] ends with the error
    "Error analyzing the file. Please try again.", whatever the body says:
    the message of the server is not shown, and the log and the quality
    panel stay as they were. *)
Theorem X22_blur_check_hides_server_error :
  forall (s : OCRUploader.State) (request : outcome (option BlurRoute.File))
         (data : OCRUploader.BlurData) (startTime : number)
         (clock : OCRUploader.Clock),
    OCRUploader.selectedFile s <> None ->
    let response := BlurRoute.POST request in
    let s' :=
      OCRUploader.handleBlurCheck s startTime
        (Returned {| OCRUploader.ok := Http.ok response;
                     OCRUploader.json := Returned data |})
        clock in
    (Http.status response <> 200%Z ->
     Run.failed "Error analyzing the file. Please try again." s s')
    /\ (forall file u m,
           request = Returned (Some file) ->
           BlurRoute.arrayBuffer file = Returned u ->
           BlurRoute.metadata file = Returned m ->
           Spec.below_minimum {| Size.width := 400; Size.height := 400 |} m ->
           Run.failed "Error analyzing the file. Please try again." s s').
Proof.
  intros s request data startTime clock Hfile response s'.
  assert (Hfail : Http.ok response = false ->
                  Run.failed "Error analyzing the file. Please try again." s s').
  { intros Hok. subst s'. unfold OCRUploader.handleBlurCheck.
    destruct (OCRUploader.selectedFile s) as [f|]; [|now contradiction Hfile].
    unfold OCRUploader.receive. cbn [bind OCRUploader.ok OCRUploader.json].
    rewrite Hok. cbn. repeat split. }
  destruct (blur_route_cases request) as
    [[Ereq E]
    | [(e & He & Hnofile & Hreq & Hrun & E)
      | (file & u & result & Ereq & Eu & Ed & E)]];
    fold response in E.
  - split.
    + intros _. apply Hfail, http_not_ok. rewrite E. now left.
    + intros file u m Ereq'. congruence.
  - split.
    + intros _. apply Hfail, http_not_ok. rewrite E. now right.
    + intros _ _ _ _ _ _ _. apply Hfail, http_not_ok. rewrite E. now right.
  - split.
    + intros Hs. exfalso. apply Hs. now rewrite E.
    + intros file' u' m Ereq' Eu' Em Hsmall. exfalso.
      rewrite Ereq in Ereq'. injection Ereq' as <-. rewrite Em in Ed.
      rewrite (detectBlur_rejects DocumentBlurDetector.route_detector m
                 (BlurRoute.raw file) Hsmall) in Ed.
      discriminate.
Qed.

Lemma X22_blur_check_hides_server_error_witness :
  let s := OCRUploader.handleFileSelect OCRUploader.initial (Some "scan.png"%string)
             "blob:scan" in
  let request :=
    Returned (Some {| BlurRoute.arrayBuffer := Returned tt;
                      BlurRoute.metadata := Returned (Fixture.metadata_of 200 200);
                      BlurRoute.raw :=
                        Returned (Fixture.raw_of (Fixture.uniform 128 200 200)
                                    200 200) |}) in
  let data :=
    {| OCRUploader.blur_error :=
         Some "Error analyzing image: Image resolution too low. Minimum required: 400x400"%string;
       OCRUploader.shown :=
         {| OCRUploader.isBlurry := false;
            OCRUploader.recommendation := EmptyString;
            OCRUploader.blurScore := None;
            OCRUploader.quality :=
              {| OCRUploader.brightness := None; OCRUploader.contrast := None;
                 OCRUploader.width := None; OCRUploader.height := None;
                 OCRUploader.format := None |} |} |} in
  Run.failed "Error analyzing the file. Please try again." s
    (OCRUploader.handleBlurCheck s (Num 10)
       (Returned {| OCRUploader.ok := Http.ok (BlurRoute.POST request);
                    OCRUploader.json := Returned data |})
       {| OCRUploader.now := Num 25; OCRUploader.iso := "2025-01-01T00:00:00.000Z" |}).
Proof.
  intros s request data.
  destruct (X22_blur_check_hides_server_error s request data (Num 10)
              {| OCRUploader.now := Num 25;
                 OCRUploader.iso := "2025-01-01T00:00:00.000Z" |})
    as [_ H]; [discriminate|].
  apply (H {| BlurRoute.arrayBuffer := Returned tt;
              BlurRoute.metadata := Returned (Fixture.metadata_of 200 200);
              BlurRoute.raw :=
                Returned (Fixture.raw_of (Fixture.uniform 128 200 200) 200 200) |}
           tt (Fixture.metadata_of 200 200)); try reflexivity.
  exists 200%Z, 200%Z. cbn. repeat split. lia.
Defined.

Lemma readability_route_status (request : outcome (option ReadabilityRoute.File))
    (startTime endTime : number) :
  (Http.status (ReadabilityRoute.POST request startTime endTime) = 200
   \/ Http.status (ReadabilityRoute.POST request startTime endTime) = 400
   \/ Http.status (ReadabilityRoute.POST request startTime endTime) = 500)%Z.
Proof.
  unfold ReadabilityRoute.POST.
  destruct request as [e|[file|]]; cbn [bind]; [cbn; lia | | cbn; lia].
  destruct (ReadabilityRoute.arrayBuffer file); cbn [bind]; [cbn; lia|].
  destruct (DocumentReadabilityChecker.checkReadability _ _); cbn; lia.
Qed.

(** X23: the readability check end to end.  When the route returns a
    result, [handleLocalReadability] logs "Local Readability", shows the
    recognised text, and fills the quality panel with
    [isBlurry = !isReadable], the suggestions joined by line breaks, and the
    blur score ([null] when it is [NaN]).  So a well-formed image of at least
    3x3 pixels whose recognition carries no confidence figure is always
    flagged in the panel, whatever its sharpness.  When the route does not
    answer with the status 200, the page shows
    "Error analyzing the document. Please try again." and keeps its text. *)
Theorem X23_readability_check_end_to_end :
  forall (s : OCRUploader.State) (request : outcome (option ReadabilityRoute.File))
         (startTime endTime clickTime : number) (clock : OCRUploader.Clock),
    OCRUploader.selectedFile s <> None ->
    let response := ReadabilityRoute.POST request startTime endTime in
    let s' :=
      OCRUploader.handleLocalReadability s clickTime
        (Transport.fetch_readability response) clock in
    (forall file u result,
        request = Returned (Some file) ->
        ReadabilityRoute.arrayBuffer file = Returned u ->
        checkReadability route_checker (ReadabilityRoute.collaborators file)
        = Returned result ->
        Run.succeeded "Local Readability" s s'
        /\ OCRUploader.extractedText s' = Some (text result)
        /\ exists view,
             OCRUploader.blurResults s' = Some view
             /\ OCRUploader.isBlurry view = negb (isReadable result)
             /\ OCRUploader.recommendation view
                = String.concat OCRUploader.newline (suggestions result)
             /\ OCRUploader.blurScore view
                = Transport.json_number (blurScore (imageQuality (details result)))
             /\ (forall v m r ocrResult,
                    preprocessImage (ReadabilityRoute.collaborators file) = Returned v ->
                    metadata (ReadabilityRoute.collaborators file) = Returned m ->
                    DocumentReadabilityChecker.raw (ReadabilityRoute.collaborators file)
                    = Returned r ->
                    recognize (ReadabilityRoute.collaborators file)
                    = Returned ocrResult ->
                    recognize_confidence (ReadabilityRoute.collaborators file)
                    = Returned None ->
                    (3 <= Raw.width r)%Z -> (3 <= Raw.height r)%Z ->
                    Z.of_nat (List.length (Raw.data r))
                    = (Raw.width r * Raw.height r)%Z ->
                    well_formed (Raw.data r) ->
                    OCRUploader.isBlurry view = true))
    /\ (Http.status response <> 200%Z ->
        Run.failed "Error analyzing the document. Please try again." s s'
        /\ OCRUploader.extractedText s' = OCRUploader.extractedText s).
Proof.
  intros s request startTime endTime clickTime clock Hfile response s'.
  destruct (OCRUploader.selectedFile s) as [f|] eqn:Ef; [|now contradiction Hfile].
  split.
  - intros file u result -> Eu Ec.
    subst s' response. unfold ReadabilityRoute.POST. fold route_checker.
    cbn [bind]. rewrite Eu. cbn [bind]. rewrite Ec. cbn [bind].
    unfold OCRUploader.handleLocalReadability. rewrite Ef.
    unfold Transport.fetch_readability, OCRUploader.receive.
    cbn [bind OCRUploader.ok OCRUploader.json Http.json Http.ok Http.status
         Http.body Z.leb Z.compare Pos.compare Pos.compare_cont andb negb
         Transport.readability_data ReadabilityRoute.results].
    cbn [OCRUploader.shown_readability OCRUploader.property bind
         OCRUploader.details OCRUploader.imageQuality OCRUploader.suggestions
         OCRUploader.metadata OCRUploader.isReadable OCRUploader.readability_text].
    cbn [OCRUploader.setIsLoading OCRUploader.setError OCRUploader.setBlurResults
         OCRUploader.setExtractedText OCRUploader.addProcessingTime
         OCRUploader.setProcessingTimes OCRUploader.isLoading OCRUploader.error
         OCRUploader.processingTimes OCRUploader.extractedText
         OCRUploader.blurResults].
    split; [repeat split; do 2 eexists; reflexivity|].
    split; [reflexivity|].
    eexists. split; [reflexivity|].
    cbn [OCRUploader.isBlurry OCRUploader.recommendation OCRUploader.blurScore
         OCRUploader.iq_blurScore].
    split; [reflexivity|]. split; [reflexivity|]. split; [reflexivity|].
    intros v m r ocrResult Ev Em Er Et Eco Hw Hh Hlen Hwf.
    destruct (readability_confidence_bound route_checker
                (ReadabilityRoute.collaborators file) v m r ocrResult None
                Ev Em Er Et Eco Hw Hh Hlen Hwf)
      as (result' & s0 & c0 & E' & _ & _ & _ & _ & Hnone).
    rewrite Ec in E'. injection E' as <-.
    now rewrite (Hnone eq_refl).
  - intros Hstatus.
    assert (Hok : Http.ok response = false).
    { destruct (readability_route_status request startTime endTime) as [H | [H | H]];
        fold response in H; [contradiction | |]; apply http_not_ok; tauto. }
    subst s'. unfold OCRUploader.handleLocalReadability. rewrite Ef.
    unfold Transport.fetch_readability, OCRUploader.receive.
    cbn [bind OCRUploader.ok OCRUploader.json]. rewrite Hok. cbn. repeat split.
Qed.

Lemma X23_readability_check_end_to_end_witness :
  let s := OCRUploader.handleFileSelect OCRUploader.initial (Some "scan.png"%string)
             "blob:scan" in
  let response :=
    ReadabilityRoute.POST (Threw "Unexpected end of form") (Num 10) (Num 25) in
  let s' :=
    OCRUploader.handleLocalReadability s (Num 5)
      (Transport.fetch_readability response)
      {| OCRUploader.now := Num 30; OCRUploader.iso := "2025-01-01T00:00:00.000Z" |} in
  Run.failed "Error analyzing the document. Please try again." s s'
  /\ OCRUploader.extractedText s' = OCRUploader.extractedText s.
Proof.
  intros s response s'.
  apply (X23_readability_check_end_to_end s (Threw "Unexpected end of form")
           (Num 10) (Num 25) (Num 5)
           {| OCRUploader.now := Num 30;
              OCRUploader.iso := "2025-01-01T00:00:00.000Z" |});
    discriminate.
Defined.

(** ** Configuration *)

(** X24: the configuration of the checker decides the suggestions only.
    Two checkers give, for the same collaborators, the same outcome up to
    the suggestions: the same thrown message, or results with the same
    [isReadable], score, details and text.  [minTextLength] has no effect
    at all: checkers with the same [blurThreshold] and [minConfidence] give
    the same outcome. *)
Theorem X24_configuration_decides_suggestions_only :
  forall (this other : DocumentReadabilityChecker.t) (env : Collaborators),
    match checkReadability this env, checkReadability other env with
    | Returned r, Returned r' =>
        isReadable r = isReadable r'
        /\ readabilityScore r = readabilityScore r'
        /\ details r = details r'
        /\ text r = text r'
    | Threw m, Threw m' => m = m'
    | _, _ => False
    end
    /\ (blurThreshold this = blurThreshold other ->
        minConfidence this = minConfidence other ->
        checkReadability this env = checkReadability other env).
Proof.
  intros this other env. unfold checkReadability.
  destruct (preprocessImage env) as [e|u]; [now split|].
  destruct (metadata env) as [e|m]; [now split|].
  cbn [bind]. destruct (analyzeImageQuality (DocumentReadabilityChecker.raw env))
    as [e|q]; [now split|].
  cbn [bind]. destruct (recognize env) as [e|ocrResult]; [now split|].
  cbn [bind]. destruct (recognize_confidence env) as [e|ocrMatch]; [now split|].
  cbn [bind calculateOCRConfidence rethrow isReadable readabilityScore details text].
  split; [repeat split|].
  intros Hb Hc. do 2 f_equal. unfold generateSuggestions. now rewrite Hb, Hc.
Qed.

Lemma X24_configuration_decides_suggestions_only_witness :
  checkReadability route_checker
    (Fixture.collaborators [10; 20; 30; 40]%Z 2 2 "two words" 90)
  = checkReadability
      {| blurThreshold := blurThreshold route_checker;
         minConfidence := minConfidence route_checker;
         minTextLength := Num 1000 |}
      (Fixture.collaborators [10; 20; 30; 40]%Z 2 2 "two words" 90).
Proof.
  apply (X24_configuration_decides_suggestions_only route_checker
           {| blurThreshold := blurThreshold route_checker;
              minConfidence := minConfidence route_checker;
              minTextLength := Num 1000 |});
    reflexivity.
Defined.

Lemma or_default_cases (field : option number) (dflt : R) :
  dflt <> 0 ->
  (exists x, field = Some (Num x) /\ x <> 0 /\ or_default field (Num dflt) = Num x)
  \/ ((field = None \/ field = Some NaN \/ field = Some (Num 0))
      /\ or_default field (Num dflt) = Num dflt).
Proof.
  intros Hd. destruct field as [[|x]|]; cbn.
  - right. split; [right; now left | reflexivity].
  - destruct (Req_dec_T x 0) as [-> | Hx].
    + right. split; [right; now right | reflexivity].
    + left. exists x. now repeat split.
  - right. split; [now left | reflexivity].
Qed.

(** X25: the defaults of the two constructors.  A threshold that is
    configured as a non-zero real is kept; one that is absent, [NaN] or 0 is
    replaced by its default (0.15 for [blurThreshold], 60 for
    [minConfidence], 10 for [minTextLength], 800x500 for a missing
    [minDocumentSize]).  So no configuration gives a threshold of 0 or
    [NaN]; in particular a [minConfidence] of 0 does not switch the
    confidence message off: it is given for every confidence below 60. *)
Theorem X25_constructor_defaults :
  (forall options : DocumentBlurDetector.BlurDetectorOptions,
      let this := DocumentBlurDetector.constructor options in
      (forall x, DocumentBlurDetector.opt_blurThreshold options = Some (Num x) ->
                 x <> 0 -> DocumentBlurDetector.blurThreshold this = Num x)
      /\ (DocumentBlurDetector.opt_blurThreshold options = None
          \/ DocumentBlurDetector.opt_blurThreshold options = Some NaN
          \/ DocumentBlurDetector.opt_blurThreshold options = Some (Num 0) ->
          DocumentBlurDetector.blurThreshold this = Num 0.15)
      /\ (DocumentBlurDetector.opt_minDocumentSize options = None ->
          DocumentBlurDetector.minDocumentSize this
          = {| Size.width := 800; Size.height := 500 |})
      /\ (forall size, DocumentBlurDetector.opt_minDocumentSize options = Some size ->
                       DocumentBlurDetector.minDocumentSize this = size))
  /\ (forall options : DocumentReadabilityChecker.Options,
         let this := DocumentReadabilityChecker.constructor options in
         (exists b c l,
             blurThreshold this = Num b /\ b <> 0
             /\ minConfidence this = Num c /\ c <> 0
             /\ minTextLength this = Num l /\ l <> 0)
         /\ (forall x, opt_minConfidence options = Some (Num x) -> x <> 0 ->
                       minConfidence this = Num x)
         /\ (opt_minConfidence options = None
             \/ opt_minConfidence options = Some NaN
             \/ opt_minConfidence options = Some (Num 0) ->
             minConfidence this = Num 60
             /\ forall (s : number) (q : QualityMetrics) (c : R),
                  In msg_confidence (generateSuggestions this s q (Num c))
                  <-> c < 60)).
Proof.
  split.
  - intros options this. subst this. unfold DocumentBlurDetector.constructor.
    cbn [DocumentBlurDetector.blurThreshold DocumentBlurDetector.minDocumentSize].
    repeat split.
    + intros x -> Hx. cbn. destruct (Req_dec_T x 0); [contradiction | reflexivity].
    + intros [-> | [-> | ->]]; cbn; try reflexivity.
      destruct (Req_dec_T 0 0); [reflexivity | lra].
    + intros ->. reflexivity.
    + intros size ->. reflexivity.
  - intros options this. subst this. unfold DocumentReadabilityChecker.constructor.
    cbn [blurThreshold minConfidence minTextLength].
    split; [|split].
    + destruct (or_default_cases (opt_blurThreshold options) 0.15 ltac:(lra))
        as [(b & _ & Hb & ->) | [_ ->]];
        destruct (or_default_cases (opt_minConfidence options) 60 ltac:(lra))
          as [(c & _ & Hc & ->) | [_ ->]];
        destruct (or_default_cases (opt_minTextLength options) 10 ltac:(lra))
          as [(l & _ & Hl & ->) | [_ ->]];
        do 3 eexists; repeat split; try eassumption; lra.
    + intros x -> Hx. cbn. destruct (Req_dec_T x 0); [contradiction | reflexivity].
    + intros H.
      assert (E : or_default (opt_minConfidence options) (Num 60) = Num 60).
      { destruct H as [-> | [-> | ->]]; cbn; try reflexivity.
        destruct (Req_dec_T 0 0); [reflexivity | lra]. }
      split; [exact E|].
      intros s q c. rewrite generateSuggestions_rules.
      cbn [minConfidence]. rewrite E.
      rewrite !in_app_iff. unfold Spec.when.
      destruct (Num c <? Num 60)%js eqn:L.
      * split; [intros _; now apply ltb_Num|].
        intros _. do 5 right. now left.
      * split.
        -- intros H'.
           repeat match type of H' with
                  | _ \/ _ => destruct H' as [H' | H']
                  | In _ (if ?b then _ else _) => destruct b
                  | In _ [_] => destruct H' as [H' | H']; [discriminate H'|]
                  | In _ [] => contradiction H'
                  end.
        -- intros Hc. apply ltb_Num in Hc. congruence.
Qed.

Lemma X25_constructor_defaults_witness :
  DocumentBlurDetector.blurThreshold
    (DocumentBlurDetector.constructor
       {| DocumentBlurDetector.opt_blurThreshold := Some (Num 0);
          DocumentBlurDetector.opt_minDocumentSize := None |})
  = Num 0.15
  /\ DocumentBlurDetector.minDocumentSize
       (DocumentBlurDetector.constructor
          {| DocumentBlurDetector.opt_blurThreshold := Some (Num 0);
             DocumentBlurDetector.opt_minDocumentSize := None |})
     = {| Size.width := 800; Size.height := 500 |}.
Proof.
  destruct (proj1 X25_constructor_defaults
              {| DocumentBlurDetector.opt_blurThreshold := Some (Num 0);
                 DocumentBlurDetector.opt_minDocumentSize := None |})
    as (_ & Hthreshold & Hsize & _).
  split.
  - apply Hthreshold. right. now right.
  - apply Hsize. reflexivity.
Defined.

(** ** The other routes *)

(** X26: the local OCR button never shows a recognised text.  The route
    [/api/ocr] answers with a timing only (or with the status 500 and the
    error "Failed to process image"), so [handleOCR] either logs a
    "Local OCR" record and sets the shown text to [undefined], or shows its
    error and keeps the text. *)
Theorem X26_local_ocr_shows_no_text :
  forall (s : OCRUploader.State) (formData extractText : outcome unit)
         (startTime2 endTime2 clickTime : number) (clock : OCRUploader.Clock),
    OCRUploader.selectedFile s <> None ->
    let response := OcrRoute.POST formData extractText startTime2 endTime2 in
    let s' := OCRUploader.handleOCR s clickTime (OcrRoute.fetched response) clock in
    ((exists u v, formData = Returned u /\ extractText = Returned v) ->
     response
     = Http.json (Http.Payload
                    {| OcrRoute.processingTime2 := (endTime2 - startTime2)%js |})
     /\ Run.succeeded "Local OCR" s s'
     /\ OCRUploader.extractedText s' = None)
    /\ ((exists e, formData = Threw e) \/ (exists e, extractText = Threw e) ->
        response
        = Http.json_status (Http.ErrorBody "Failed to process image") 500
        /\ Run.failed "Error processing the file. Please try again." s s'
        /\ OCRUploader.extractedText s' = OCRUploader.extractedText s).
Proof.
  intros s formData extractText startTime2 endTime2 clickTime clock Hfile
    response s'.
  subst s' response. unfold OCRUploader.handleOCR, OcrRoute.POST.
  destruct (OCRUploader.selectedFile s) as [f|]; [|now contradiction Hfile].
  split.
  - intros (u & v & -> & ->). cbn. repeat split. do 2 eexists. reflexivity.
  - intros H.
    assert (E : (_ <- formData ;; _ <- extractText ;;
                 Returned (Http.json (Http.Payload
                   {| OcrRoute.processingTime2 := (endTime2 - startTime2)%js |})))
                = Threw match formData with
                        | Threw e => e
                        | Returned _ =>
                            match extractText with Threw e => e | Returned _ => EmptyString end
                        end).
    { destruct formData as [e|u]; [reflexivity|].
      destruct extractText as [e|v]; [reflexivity|].
      destruct H as [[e H] | [e H]]; discriminate. }
    rewrite E. cbn. repeat split.
Qed.

Lemma X26_local_ocr_shows_no_text_witness :
  let s := OCRUploader.handleFileSelect OCRUploader.initial (Some "scan.png"%string)
             "blob:scan" in
  let response := OcrRoute.POST (Returned tt) (Returned tt) (Num 10) (Num 11) in
  let s' :=
    OCRUploader.handleOCR s (Num 5) (OcrRoute.fetched response)
      {| OCRUploader.now := Num 30; OCRUploader.iso := "2025-01-01T00:00:00.000Z" |} in
  response
  = Http.json (Http.Payload {| OcrRoute.processingTime2 := (Num 11 - Num 10)%js |})
  /\ Run.succeeded "Local OCR" s s'
  /\ OCRUploader.extractedText s' = None.
Proof.
  intros s response s'.
  apply (X26_local_ocr_shows_no_text s (Returned tt) (Returned tt) (Num 10) (Num 11)
           (Num 5)
           {| OCRUploader.now := Num 30;
              OCRUploader.iso := "2025-01-01T00:00:00.000Z" |}).
  - discriminate.
  - now exists tt, tt.
Defined.

Lemma concat_app (sep : string) (l1 l2 : list string) :
  l1 <> [] -> l2 <> [] ->
  String.concat sep (l1 ++ l2)
  = (String.concat sep l1 ++ sep ++ String.concat sep l2)%string.
Proof.
  intros H1 H2. induction l1 as [|a l1 IH]; [contradiction|].
  destruct l1 as [|b l1].
  - destruct l2 as [|c l2]; [contradiction|]. reflexivity.
  - change (String.concat sep ((a :: b :: l1) ++ l2))
      with (a ++ sep ++ String.concat sep ((b :: l1) ++ l2))%string.
    rewrite IH by discriminate.
    change (String.concat sep (a :: b :: l1))
      with (a ++ sep ++ String.concat sep (b :: l1))%string.
    now rewrite !string_app_assoc.
Qed.

Lemma extractedText_joined (blocks : list TextractRoute.Block) :
  TextractRoute.extractedText (Some blocks)
  = TextractRoute.join_lines
      (map TextractRoute.Text (filter TextractRoute.is_line blocks)).
Proof.
  unfold TextractRoute.extractedText.
  destruct (String.eqb_spec
              (TextractRoute.join_lines
                 (map TextractRoute.Text (filter TextractRoute.is_line blocks)))
              EmptyString) as [E|E]; [now rewrite E | reflexivity].
Qed.

(** X27: the text that the Textract route extracts and returns with the
    status 200.  It is made of the [LINE] blocks only, joined by line breaks
    in their order: dropping the other blocks changes nothing, and the text of two lists of blocks that
    both contain a line is the two texts with a line break between them;
    without blocks or without lines it is empty.  The confidence is the one
    of the first block, whatever its type, and 0 when that is missing. *)
Theorem X27_textract_extraction :
  (forall u Blocks startTime endTime,
      TextractRoute.POST (Returned (Some (Returned u))) (Returned Blocks)
        startTime endTime
      = Http.json
          (Http.Payload
             {| TextractRoute.text := TextractRoute.extractedText Blocks;
                TextractRoute.processingTime := (endTime - startTime)%js;
                TextractRoute.extraction_confidence :=
                  TextractRoute.confidence Blocks |}))
  /\ TextractRoute.extractedText None = EmptyString
  /\ (forall blocks,
         filter TextractRoute.is_line blocks = [] ->
         TextractRoute.extractedText (Some blocks) = EmptyString)
  /\ (forall blocks,
         TextractRoute.extractedText
           (Some (filter TextractRoute.is_line blocks))
         = TextractRoute.extractedText (Some blocks))
  /\ (forall blocks1 blocks2,
         filter TextractRoute.is_line blocks1 <> [] ->
         filter TextractRoute.is_line blocks2 <> [] ->
         TextractRoute.extractedText (Some (blocks1 ++ blocks2))
         = (TextractRoute.extractedText (Some blocks1)
            ++ OCRUploader.newline
            ++ TextractRoute.extractedText (Some blocks2))%string)
  /\ (forall first rest,
         TextractRoute.confidence (Some (first :: rest))
         = TextractRoute.confidence (Some [first]))
  /\ TextractRoute.confidence None = Num 0
  /\ TextractRoute.confidence (Some []) = Num 0.
Proof.
  split; [reflexivity|].
  split; [reflexivity|]. split; [|split; [|split]].
  - intros blocks E. rewrite extractedText_joined, E. reflexivity.
  - intros blocks. rewrite !extractedText_joined.
    f_equal. f_equal. induction blocks as [|b blocks IH]; [reflexivity|].
    cbn [filter]. destruct (TextractRoute.is_line b) eqn:Eb; [|exact IH].
    cbn [filter]. now rewrite Eb, IH.
  - intros blocks1 blocks2 H1 H2. rewrite !extractedText_joined.
    unfold TextractRoute.join_lines. rewrite filter_app, !map_app.
    apply concat_app.
    + destruct (filter TextractRoute.is_line blocks1); [contradiction|discriminate].
    + destruct (filter TextractRoute.is_line blocks2); [contradiction|discriminate].
  - repeat split.
Qed.

Lemma X27_textract_extraction_witness :
  let line (t : string) :=
    {| TextractRoute.BlockType := Some "LINE"%string;
       TextractRoute.Text := Some t;
       TextractRoute.Confidence := Some (Num 99) |} in
  let page :=
    {| TextractRoute.BlockType := Some "PAGE"%string;
       TextractRoute.Text := None;
       TextractRoute.Confidence := None |} in
  TextractRoute.extractedText
    (Some ([page; line "Invoice"%string] ++ [line "No 4711"%string; page]))
  = (TextractRoute.extractedText (Some [page; line "Invoice"%string])
     ++ OCRUploader.newline
     ++ TextractRoute.extractedText (Some [line "No 4711"%string; page]))%string.
Proof.
  intros line page.
  apply (proj1 (proj2 (proj2 (proj2 (proj2 X27_textract_extraction))))
           [page; line "Invoice"%string] [line "No 4711"%string; page]);
    discriminate.
Defined.
